(** * Global Titan Engine: ranking, commission model and backtest loop

    A shallow embedding of [global_engine_titan.py].

    Numbers.  The script computes in IEEE doubles; here every float is an
    exact rational ([Q]), a missing value (NaN) is [None], and Python
    integers are [Z].  Prices are meant to be positive where they are
    defined, as the upstream price table delivers them.  The one operation
    that leaves the rationals, the square root inside [Series.std], is taken
    as a function [np_sqrt : Q -> Q] that the model is parametrised by.

    Containers.  A Python [dict] is an insertion-ordered association list; a
    pandas [DataFrame] is a record of its index, its column labels and its
    rows, with the row labels (dates) strictly increasing and the column
    labels distinct.  A raised exception is a value of [result]. *)

From Stdlib Require Import String List ZArith QArith Qabs Qminmax Qround.
From Stdlib Require Import Bool Lia Lqa.
Import ListNotations.

Open Scope Q_scope.

(* ------------------------------------------------------------------ *)
(** ** Exceptions *)

Inductive exn : Set := KeyError | IndexError.

Inductive result (A : Type) : Type :=
| Ok (a : A)
| Raise (e : exn).
Arguments Ok {A} a.
Arguments Raise {A} e.

Definition bind {A B} (m : result A) (k : A -> result B) : result B :=
  match m with
  | Ok a => k a
  | Raise e => Raise e
  end.

Notation "x <- m ;; k" := (bind m (fun x => k))
  (at level 61, m at next level, right associativity).

(* ------------------------------------------------------------------ *)
(** ** Python dictionaries with string keys *)

Definition dict (V : Type) : Type := list (string * V).

Fixpoint dict_get {V} (d : dict V) (k : string) : option V :=
  match d with
  | [] => None
  | (k', v) :: d' => if String.eqb k k' then Some v else dict_get d' k
  end.

(** [d[k] = v]: overwrite in place, or append a new key at the end. *)
Fixpoint dict_set {V} (d : dict V) (k : string) (v : V) : dict V :=
  match d with
  | [] => [(k, v)]
  | (k', v') :: d' =>
      if String.eqb k k' then (k', v) :: d' else (k', v') :: dict_set d' k v
  end.

(** [del d[k]] for a key that is present. *)
Fixpoint dict_del {V} (d : dict V) (k : string) : dict V :=
  match d with
  | [] => []
  | (k', v') :: d' =>
      if String.eqb k k' then d' else (k', v') :: dict_del d' k
  end.

Definition dict_keys {V} (d : dict V) : list string := map fst d.
Definition dict_values {V} (d : dict V) : list V := map snd d.

(** [d.get(k, default)] *)
Definition dict_get_default {V} (d : dict V) (k : string) (default : V) : V :=
  match dict_get d k with
  | Some v => v
  | None => default
  end.

(* ------------------------------------------------------------------ *)
(** ** Comparisons and sums on floats *)

Definition Qlt_bool (x y : Q) : bool := negb (Qle_bool y x).

(** Python's [sum]: start from 0 and add from the left. *)
Definition Qsum (xs : list Q) : Q := fold_left Qplus xs 0.

(* ------------------------------------------------------------------ *)
(** ** Configuration *)

Definition INITIAL_CAPITAL : Q := 100000.
Definition LOOKBACK_MOM : nat := 90.
Definition LOOKBACK_VOL : nat := 30.
Definition TOP_N : nat := 25.
Definition MAX_SECTOR_WEIGHT : Q := 35 # 100.
Definition STOP_LOSS_PCT : Q := (-7) # 100.

Definition COMMISSION_RATE : Q := 5 # 10000.
Definition MIN_COMMISSION : Q := 1.
Definition MAX_COMMISSION_PCT : Q := 5 # 1000.

(* ------------------------------------------------------------------ *)
(** ** Asset universe *)

Definition ticker : Type := string.
Definition category : Type := string.

Open Scope string_scope.

Definition UNIVERSE : list (category * list ticker) :=
  [
   ("Aggressive Growth",
     [
      "TSLA"; "NVDA"; "AMD"; "PLTR"; "SHOP"; "MELI"; "SE"; "DDOG";
      "NET"; "SNOW"; "CRWD"; "ZS"; "MDB"; "ENPH"; "SEDG"; "FSLR";
      "ARKG"; "ARKK"; "ARKW"; "ARKF"; "SOXX"; "SMH"; "XBI"; "IBB";
      "GNOM"; "BITQ"; "BLOK"; "BITO"; "KWEB"; "CQQQ"; "EMQQ"; "IUIT.L";
      "EQQQ.L"; "VUSA.L"; "QDVE.DE"; "VGWL.DE"; "IS3N.DE"; "SXR8.DE";
      "DFEN"; "SOXL"; "TQQQ"; "TECL"; "UPRO"; "SPXL"; "FAS"; "LABU";
      "TNA"; "NAIL"; "BULZ"; "FNGU"; "WEBL"; "DPST"; "HIBL"; "CURE";
      "DUSL"; "RETL"; "MIDU"; "WANT"; "PILL"; "TPOR"; "UTSL"; "LIT";
      "REMX"; "COPX"; "URA"; "URNM"; "QCLN"; "TAN"; "FAN"; "ICLN";
      "PBW"; "CNRG"; "ACES"; "SMOG"; "ERTH"; "CTEC"; "DRIV"; "IDRV";
      "KARS"; "SIL"; "SILJ"; "GDXJ"; "GOAU"; "RING"; "SGDM"; "SGDJ";
      "SLV"; "PSLV"; "SIVR"; "GDX"; "GLD"; "IAU"; "PHYS"; "AAAU"; "BAR";
      "SGOL"; "OUNZ" ]);
   ("Defense / Low Vol",
     [
      "JNJ"; "PG"; "KO"; "PEP"; "MRK"; "ABBV"; "WMT"; "COST"; "CL";
      "UNP"; "WM"; "RSG"; "ADP"; "MMC"; "ICE"; "CME"; "PAYX"; "USMV";
      "SPLV"; "NOBL"; "SDY"; "HDV"; "DGRO"; "VIG"; "DVY"; "SCHD";
      "SPHD"; "FVD"; "CDC"; "LGLV"; "XMLV"; "XSLV"; "LVHD"; "SMMV";
      "EFAV"; "ACWV"; "JPIN"; "JPUS"; "EEMV"; "IDLV"; "ONEV"; "FDLO";
      "VFMV"; "AQWA"; "NULV"; "NUMV"; "BLES"; "ESGU"; "SUSL"; "SUSA";
      "KRMA"; "SNPE"; "DSI"; "VSGX"; "EAGG"; "SUSB"; "QQQA" ]);
   ("Commodities",
     [
      "DBC"; "PDBC"; "GSG"; "COMT"; "BCI"; "FTGC"; "DJP"; "GCC"; "RJI";
      "USCI"; "CPER"; "JJC"; "DBB"; "JJCTF"; "USO"; "BNO"; "UNG"; "UGA";
      "DBO"; "CORN"; "WEAT"; "SOYB"; "CANE"; "NIB"; "JO"; "COW"; "TAGS";
      "PDBA"; "RJA"; "MOO"; "DBA"; "VEGI"; "WOOD"; "CUT"; "GUNR"; "GNR";
      "PICK"; "XME"; "REMX"; "SLX"; "COPX"; "LIT"; "PPLT"; "PALL";
      "GLTR"; "CFD"; "COMB" ]);
   ("REITs",
     [
      "VNQ"; "VNQI"; "SCHH"; "IYR"; "XLRE"; "RWR"; "USRT"; "BBRE";
      "REET"; "SRET"; "REM"; "MORT"; "KBWY"; "NURE"; "HOMZ"; "REZ";
      "INDS"; "SRVR"; "PPTY"; "ICF"; "FFR"; "FREL"; "DFAR"; "REET";
      "IFGL"; "WPS"; "HAUZ"; "RWO"; "DRN"; "TRET"; "NETL"; "CHIR";
      "GQRE"; "SPRE"; "ERET"; "HIPS"; "RFI"; "APTS"; "STOR"; "OPEN";
      "LAND"; "EPRT"; "IIPR"; "SAFE"; "CTO"; "AKR"; "AAT"; "JBGS" ]);
   ("Global / Thematic",
     [
      "VT"; "ACWI"; "VEU"; "VXUS"; "VWO"; "EEM"; "IEMG"; "SCHE"; "EWJ";
      "EWZ"; "EWY"; "EWT"; "EWA"; "EWC"; "EWG"; "EWU"; "EWH"; "EWS";
      "THD"; "VNM"; "INDA"; "MCHI"; "FM"; "FRDM"; "EWW"; "EWP"; "EIS";
      "TUR"; "ECH"; "ARGT"; "AFK"; "GXC"; "FXI"; "ASHR"; "KBA"; "CNYA";
      "FLCH"; "NORW"; "EDEN"; "EFNL"; "PGAL"; "GREK"; "EPOL"; "ENZL";
      "EZA"; "NGE"; "PAK"; "QAT"; "UAE"; "KSA"; "FLSA"; "FLKR"; "FLGB";
      "FLJP"; "FLGR"; "FLIN"; "FLBR"; "FLMX"; "FLCH"; "FLTW"; "FLAU";
      "FLCA"; "FLHK"; "JETS"; "UFO"; "HERO"; "ESPO"; "NERD"; "BETZ";
      "AWAY"; "GERM"; "ROBO"; "BOTZ"; "IRBO"; "ARKQ"; "AIQ"; "ROBT";
      "DTEC"; "SNSR"; "SKYY"; "WCLD"; "CLOU"; "BUG"; "HACK"; "CIBR";
      "IHAK"; "PRNT"; "MOON"; "KOMP"; "LOUP"; "BUZZ"; "CHAT" ]);
   ("Bonds / Hedges",
     [
      "TLT"; "IEF"; "SHY"; "AGG"; "BND"; "BNDX"; "TIP"; "STIP"; "VTIP";
      "SCHP"; "LTPZ"; "GOVT"; "VGSH"; "VGIT"; "VGLT"; "SHV"; "BIL";
      "SGOV"; "TFLO"; "FLOT"; "FLRN"; "SCHO"; "SCHR"; "SPTL"; "SPLB";
      "SPAB"; "IGSB"; "IGIB"; "LQD"; "VCSH"; "VCIT"; "VCLT"; "MUB";
      "TFI"; "CMF"; "NYF"; "HYG"; "JNK"; "SHYG"; "SJNK"; "HYLB"; "HYDB";
      "ANGL"; "FALN"; "BKLN"; "SRLN"; "EMB"; "LEMB"; "VWOB"; "PCY";
      "EMHY"; "IAGG"; "BWX"; "BNDW"; "IGOV"; "ISHG"; "GVI"; "TOTL";
      "BOND"; "FBND"; "NUBD"; "FIXD"; "GOVI"; "FLCB"; "JCPB"; "MINT";
      "NEAR"; "GSY"; "ICSH"; "JPST"; "PULS"; "FTSM"; "RAVI"; "CARY";
      "USFR" ]);
   ("Crypto",
     [
      "IBIT"; "FBTC"; "BITB"; "ARKB"; "BTCO"; "EZBC"; "BRRR"; "HODL";
      "BTCW"; "DEFI"; "GBTC"; "ETHE"; "ETHA"; "FETH"; "ETHW"; "ETHV";
      "CETH"; "QETH"; "EZET"; "BITO"; "BTF"; "XBTF"; "MAXI"; "BITS";
      "BITQ"; "BLOK"; "DAPP"; "CRPT"; "SATO"; "DAM"; "IBLC" ])
  ].

Definition CATEGORY_LIST : list category := map fst UNIVERSE.

(** The two nested loops that fill [TICKER_TO_CATEGORY]: a ticker listed
    under several categories keeps the last one. *)
Definition build_ticker_to_category
    (universe : list (category * list ticker)) : dict category :=
  fold_left
    (fun d (entry : category * list ticker) =>
       fold_left (fun d t => dict_set d t (fst entry)) (snd entry) d)
    universe [].

Definition TICKER_TO_CATEGORY : dict category :=
  Eval vm_compute in build_ticker_to_category UNIVERSE.

Close Scope string_scope.

(** [TICKER_TO_CATEGORY.get(ticker, "Unknown")] *)
Definition category_of (t : ticker) : category :=
  dict_get_default TICKER_TO_CATEGORY t "Unknown"%string.
Arguments category_of : simpl never.

(* ------------------------------------------------------------------ *)
(** ** Commission model *)

(** [calc_commission]: rate times notional, raised to the floor, then cut
    to the percentage cap (the cap is applied last). *)
Definition calc_commission (trade_value : Q) : Q :=
  let comm := Qabs trade_value * COMMISSION_RATE in
  let comm := Qmax comm MIN_COMMISSION in
  let comm := Qmin comm (Qabs trade_value * MAX_COMMISSION_PCT) in
  comm.

(* ------------------------------------------------------------------ *)
(** ** Price table *)

(** A date is a day number counted from 1970-01-01 (a Thursday). *)
Definition date : Type := Z.

(** [DatetimeIndex.dayofweek]: Monday is 0, Friday is 4. *)
Definition dayofweek (d : date) : Z := ((d + 3) mod 7)%Z.

Record DataFrame : Type := {
  index : list date;
  columns : list ticker;
  values : list (list (option Q))
}.

(** A row of the table read as a Series: column label and value. *)
Definition Series : Type := dict (option Q).

(** [index.get_loc(date)]: position of the label, [KeyError] when absent. *)
Fixpoint get_loc (d : date) (idx : list date) : result nat :=
  match idx with
  | [] => Raise KeyError
  | d' :: idx' =>
      if Z.eqb d d' then Ok O else (n <- get_loc d idx' ;; Ok (S n))
  end.

(** [index[i]]: [IndexError] past the end. *)
Definition index_at (idx : list date) (i : nat) : result date :=
  match nth_error idx i with
  | Some d => Ok d
  | None => Raise IndexError
  end.

(** [prices.loc[date]] *)
Definition loc_row (prices : DataFrame) (d : date) : result Series :=
  i <- get_loc d (index prices) ;;
  Ok (combine (columns prices) (nth i (values prices) [])).

(** [ticker in current_prices and not pd.isna(current_prices[ticker])],
    together with the value read in that case. *)
Definition price_of (current_prices : Series) (t : ticker) : option Q :=
  match dict_get current_prices t with
  | Some (Some p) => Some p
  | _ => None
  end.

(** Strictly increasing row labels. *)
Fixpoint increasing (idx : list date) : bool :=
  match idx with
  | [] => true
  | d :: idx' =>
      match idx' with
      | [] => true
      | d' :: _ => (d <? d')%Z && increasing idx'
      end
  end.

(** Distinct labels. *)
Fixpoint distinct (l : list string) : bool :=
  match l with
  | [] => true
  | x :: l' => negb (existsb (String.eqb x) l') && distinct l'
  end.

(* ------------------------------------------------------------------ *)
(** ** Frame operations used by the ranker *)

(** [df.iloc[a:b]] for [0 <= a]. *)
Definition iloc {A} (a b : nat) (rows : list A) : list A :=
  firstn (b - a) (skipn a rows).

Definition is_some {A} (x : option A) : bool :=
  match x with Some _ => true | None => false end.

(** [df.dropna()]: a row goes as soon as one of its cells is missing. *)
Definition dropna_rows (rows : list (list (option Q))) :
    list (list (option Q)) :=
  filter (forallb is_some) rows.

(** [series.dropna()] *)
Fixpoint dropna (s : Series) : dict Q :=
  match s with
  | [] => []
  | (t, Some x) :: s' => (t, x) :: dropna s'
  | (_, None) :: s' => dropna s'
  end.

Definition ffill_row (prev cur : list (option Q)) : list (option Q) :=
  map (fun pc => match snd pc with Some x => Some x | None => fst pc end)
    (combine prev cur).

Fixpoint ffill_from (prev : list (option Q)) (rows : list (list (option Q))) :
    list (list (option Q)) :=
  match rows with
  | [] => []
  | r :: rows' => let r' := ffill_row prev r in r' :: ffill_from r' rows'
  end.

(** [df.ffill()]: a missing cell takes the last value above it. *)
Definition ffill (rows : list (list (option Q))) : list (list (option Q)) :=
  match rows with
  | [] => []
  | r :: rows' => r :: ffill_from r rows'
  end.

(** One cell of [data / data.shift(1) - 1].  For a previous price of 0
    pandas gives inf or NaN where the division in [Q] gives 0: the cell
    follows the source for non-zero previous prices, and the properties
    that depend on its value assume [positive_prices]. *)
Definition pct_cell (prev cur : option Q) : option Q :=
  match prev, cur with
  | Some a, Some b => Some (b / a - 1)
  | _, _ => None
  end.

Fixpoint pct_from (prev : list (option Q)) (rows : list (list (option Q))) :
    list (list (option Q)) :=
  match rows with
  | [] => []
  | r :: rows' =>
      map (fun pc => pct_cell (fst pc) (snd pc)) (combine prev r)
      :: pct_from r rows'
  end.

(** The cells of a column, top to bottom. *)
Definition column (j : nat) (rows : list (list (option Q))) :
    list (option Q) :=
  map (fun r => nth j r None) rows.

(** The values that are present ([skipna=True]). *)
Fixpoint somes (xs : list (option Q)) : list Q :=
  match xs with
  | [] => []
  | Some x :: xs' => x :: somes xs'
  | None :: xs' => somes xs'
  end.

Definition Qnat (n : nat) : Q := inject_Z (Z.of_nat n).

(** [Series.mean()]: NaN on no observation. *)
Definition series_mean (xs : list (option Q)) : option Q :=
  let ys := somes xs in
  match ys with
  | [] => None
  | _ => Some (Qsum ys / Qnat (length ys))
  end.

(** Descending sort on the score; equal scores keep their order. *)
Fixpoint insert_desc (x : ticker * Q) (l : dict Q) : dict Q :=
  match l with
  | [] => [x]
  | y :: l' =>
      if Qle_bool (snd y) (snd x) then x :: y :: l' else y :: insert_desc x l'
  end.

Definition sort_values_desc (s : dict Q) : dict Q :=
  fold_right insert_desc [] s.

Definition series_get (s : Series) (t : ticker) : option Q :=
  match dict_get s t with
  | Some v => v
  | None => None
  end.

Definition div_opt (a b : option Q) : option Q :=
  match a, b with
  | Some x, Some y => Some (x / y)
  | _, _ => None
  end.

Definition positive (v : option Q) : bool :=
  match v with
  | Some x => Qlt_bool 0 x
  | None => false
  end.

(* ------------------------------------------------------------------ *)
(** ** Portfolio state *)

Record Position : Type := { qty : Z; entry_price : Q }.

Record State : Type := {
  cash : Q;
  holdings : dict Position;
  total_commissions : Q;
  portfolio_value : list Q;
  dates_track : list date
}.

Section Engine.

(** [np_sqrt] is the square root of [Series.std].  [fill_pad] tells whether
    [pct_change] forward-fills missing prices first (its default up to
    pandas 2) or not (pandas 3). *)
Variable np_sqrt : Q -> Q.
Variable fill_pad : bool.

(** [df.pct_change()]: the first row has no predecessor. *)
Definition pct_change (rows : list (list (option Q))) :
    list (list (option Q)) :=
  match (if fill_pad then ffill rows else rows) with
  | [] => []
  | r :: rows' => map (fun _ => None) r :: pct_from r rows'
  end.

(** [Series.std()]: sample standard deviation, NaN below two
    observations. *)
Definition series_std (xs : list (option Q)) : option Q :=
  let ys := somes xs in
  if (length ys <? 2)%nat then None
  else
    let m := Qsum ys / Qnat (length ys) in
    Some (np_sqrt (Qsum (map (fun y => (y - m) * (y - m)) ys)
                   / Qnat (length ys - 1))).

(** A column-wise reduction of a frame, labelled by the columns. *)
Definition reduce_columns (f : list (option Q) -> option Q)
    (cols : list ticker) (rows : list (list (option Q))) : Series :=
  map (fun jt => (snd jt, f (column (fst jt) rows)))
    (combine (seq 0 (length cols)) cols).

Definition momentum_of (prices_df : DataFrame) (loc : nat) : Series :=
  let window_mom := iloc (loc - LOOKBACK_MOM) (loc + 1) (values prices_df) in
  let returns_mom := dropna_rows (pct_change window_mom) in
  reduce_columns series_mean (columns prices_df) returns_mom.

Definition volatility_of (prices_df : DataFrame) (loc : nat) : Series :=
  let window_vol := iloc (loc - LOOKBACK_VOL) (loc + 1) (values prices_df) in
  let returns_vol := dropna_rows (pct_change window_vol) in
  reduce_columns series_std (columns prices_df) returns_vol.

(** [(momentum[valid] / volatility[valid]).dropna()] *)
Definition raw_score (prices_df : DataFrame) (loc : nat) : dict Q :=
  let momentum := momentum_of prices_df loc in
  let volatility := volatility_of prices_df loc in
  let valid :=
    filter (fun t => existsb (String.eqb t) (dict_keys momentum))
      (dict_keys (filter (fun tv => positive (snd tv)) volatility)) in
  dropna
    (map (fun t => (t, div_opt (series_get momentum t)
                         (series_get volatility t))) valid).

(** The selection loop; [break] returns what is selected so far. *)
Fixpoint select_loop (todo : dict Q) (selected : dict Q)
    (category_weight : dict Q) : result (dict Q) :=
  match todo with
  | [] => Ok selected
  | (t, s) :: todo' =>
      if (TOP_N <=? length selected)%nat then Ok selected
      else
        let cat := category_of t in
        if String.eqb cat "Unknown" then
          select_loop todo' selected category_weight
        else
          match dict_get category_weight cat with
          | None => Raise KeyError
          | Some w =>
              if Qlt_bool MAX_SECTOR_WEIGHT (w + 1 / Qnat TOP_N) then
                select_loop todo' selected category_weight
              else
                select_loop todo' (dict_set selected t s)
                  (dict_set category_weight cat (w + 1 / Qnat TOP_N))
          end
  end.

Definition select (score : dict Q) : result (dict Q) :=
  select_loop score [] (map (fun c => (c, 0)) CATEGORY_LIST).

Definition normalise (selected : dict Q) : dict Q :=
  let total_score := Qsum (dict_values selected) in
  map (fun ts => (fst ts, snd ts / total_score)) selected.

Definition rank_assets (d : date) (prices_df : DataFrame) :
    result (dict Q) :=
  loc <- get_loc d (index prices_df) ;;
  if (loc <? LOOKBACK_MOM)%nat then Ok []
  else
    let score := sort_values_desc (raw_score prices_df loc) in
    let score := filter (fun ts => Qlt_bool 0 (snd ts)) score in
    selected <- select score ;;
    match selected with
    | [] => Ok []
    | _ => Ok (normalise selected)
    end.

(* ------------------------------------------------------------------ *)
(** ** Backtest engine *)

(** One iteration of the stop-loss loop: the running cash, the running
    commissions and the tickers stopped out so far. *)
Definition stop_loss_check (current_prices : Series)
    (acc : Q * Q * list ticker) (item : ticker * Position) :
    Q * Q * list ticker :=
  let '(cash, total_commissions, stopped_out) := acc in
  match price_of current_prices (fst item) with
  | None => acc
  | Some current_price =>
      let entry_p := entry_price (snd item) in
      let qty_held := qty (snd item) in
      let ret := (current_price - entry_p) / entry_p in
      if Qle_bool ret STOP_LOSS_PCT then
        let sell_value := inject_Z qty_held * current_price in
        let comm := calc_commission sell_value in
        (cash + (sell_value - comm), total_commissions + comm,
         stopped_out ++ [fst item])
      else acc
  end.

(** The stop-loss pass: cash, holdings and commissions after it. *)
Definition stop_loss_pass (current_prices : Series)
    (st : Q * dict Position * Q) : Q * dict Position * Q :=
  let '(cash, holdings, total_commissions) := st in
  let '(cash, total_commissions, stopped_out) :=
    fold_left (stop_loss_check current_prices) holdings
      (cash, total_commissions, []) in
  (cash, fold_left dict_del stopped_out holdings, total_commissions).

(** One iteration of the loop that sells everything. *)
Definition sell_one (current_prices : Series) (acc : Q * Q)
    (item : ticker * Position) : Q * Q :=
  let '(cash, total_commissions) := acc in
  match price_of current_prices (fst item) with
  | Some p =>
      let sell_value := inject_Z (qty (snd item)) * p in
      let comm := calc_commission sell_value in
      (cash + (sell_value - comm), total_commissions + comm)
  | None => acc
  end.

(** One iteration of the loop that buys the new positions.  At a price
    of 0 (or a NaN allocation) [int(alloc // price)] raises
    [OverflowError] or [ValueError] in the source; the floor here
    follows it for positive prices, and the properties that say that
    the loop returns assume [positive_prices]. *)
Definition buy_one (current_prices : Series) (total_equity : Q)
    (acc : Q * dict Position * Q) (tw : ticker * Q) :
    Q * dict Position * Q :=
  let '(cash, holdings, total_commissions) := acc in
  match price_of current_prices (fst tw) with
  | None => acc
  | Some price =>
      let alloc := total_equity * snd tw in
      let qty := Qfloor (alloc / price) in
      if (0 <? qty)%Z then
        let cost := inject_Z qty * price in
        let comm := calc_commission cost in
        (cash - (cost + comm),
         dict_set holdings (fst tw) {| qty := qty; entry_price := price |},
         total_commissions + comm)
      else acc
  end.

(** The body of [if target_weights:]. *)
Definition rebalance (current_prices : Series) (target_weights : dict Q)
    (st : Q * dict Position * Q) : Q * dict Position * Q :=
  let '(cash, holdings, total_commissions) := st in
  let '(cash, total_commissions) :=
    fold_left (sell_one current_prices) holdings (cash, total_commissions) in
  let holdings : dict Position := [] in
  let total_equity := cash in
  fold_left (buy_one current_prices total_equity) target_weights
    (cash, holdings, total_commissions).

(** [prices.index[prices.index.dayofweek == 4]] *)
Definition rebalance_dates (prices : DataFrame) : list date :=
  filter (fun d => Z.eqb (dayofweek d) 4) (index prices).

(** The rebalance pass of one date. *)
Definition rebalance_pass (prices : DataFrame) (d : date)
    (current_prices : Series) (st : Q * dict Position * Q) :
    result (Q * dict Position * Q) :=
  if existsb (Z.eqb d) (rebalance_dates prices) then
    target_weights <- rank_assets d prices ;;
    match target_weights with
    | [] => Ok st
    | _ => Ok (rebalance current_prices target_weights st)
    end
  else Ok st.

(** The value of the priced holdings. *)
Definition holdings_value (current_prices : Series)
    (holdings : dict Position) : Q :=
  fold_left
    (fun acc (item : ticker * Position) =>
       match price_of current_prices (fst item) with
       | Some p => acc + inject_Z (qty (snd item)) * p
       | None => acc
       end)
    holdings 0.

(** The body of the main loop for one date. *)
Definition step (prices : DataFrame) (st : State) (d : date) : result State :=
  current_prices <- loc_row prices d ;;
  let s1 :=
    stop_loss_pass current_prices
      (cash st, holdings st, total_commissions st) in
  s2 <- rebalance_pass prices d current_prices s1 ;;
  let '(cash, holdings, total_commissions) := s2 in
  Ok {| cash := cash;
        holdings := holdings;
        total_commissions := total_commissions;
        portfolio_value :=
          portfolio_value st ++ [cash + holdings_value current_prices holdings];
        dates_track := dates_track st ++ [d] |}.

(** The main loop over a list of dates. *)
Fixpoint run (prices : DataFrame) (dates : list date) (st : State) :
    result State :=
  match dates with
  | [] => Ok st
  | d :: dates' => st' <- step prices st d ;; run prices dates' st'
  end.

(** The state before the first date; [IndexError] when the table has no
    row at position [LOOKBACK_MOM]. *)
Definition initial_state (prices : DataFrame) : result State :=
  d0 <- index_at (index prices) LOOKBACK_MOM ;;
  Ok {| cash := INITIAL_CAPITAL;
        holdings := [];
        total_commissions := 0;
        portfolio_value := [INITIAL_CAPITAL];
        dates_track := [d0] |}.

Definition backtest (prices : DataFrame) : result State :=
  st0 <- initial_state prices ;;
  run prices (skipn LOOKBACK_MOM (index prices)) st0.

End Engine.

(* ------------------------------------------------------------------ *)
(** ** Performance metrics *)

Fixpoint cummax_from (m : Q) (xs : list Q) : list Q :=
  match xs with
  | [] => []
  | x :: xs' => let m' := Qmax m x in m' :: cummax_from m' xs'
  end.

(** [pv.cummax()]: the running maximum. *)
Definition cummax (xs : list Q) : list Q :=
  match xs with
  | [] => []
  | x :: xs' => x :: cummax_from x xs'
  end.

(** [Series.min()]: NaN on an empty series. *)
Definition series_min (xs : list Q) : option Q :=
  match xs with
  | [] => None
  | x :: xs' => Some (fold_left Qmin xs' x)
  end.

(** [((pv / pv.cummax()) - 1).min()] *)
Definition max_dd (pv : list Q) : option Q :=
  series_min
    (map (fun vm => fst vm / snd vm - 1) (combine pv (cummax pv))).

(* ------------------------------------------------------------------ *)
(** ** Sample inputs *)

(** A square root on the rationals, rounded down at twelve decimals. *)
Definition sqrt_down (x : Q) : Q :=
  Qmake (Z.sqrt (Qnum x * Zpos (Qden x) * 10 ^ 24))
        (Qden x * 10 ^ 12).

(** The [i]-th trading day from Monday 2024-01-01, weekends left out. *)
Definition trading_day (i : nat) : date :=
  (19723 + 7 * (Z.of_nat i / 5) + Z.of_nat i mod 5)%Z.

(** One ticker that stays at 1 and closes the last day at 2; the last of
    its [n] rows is a Friday when [n] is a multiple of five. *)
Definition one_ticker_table (n : nat) : DataFrame :=
  {| index := map trading_day (seq 0 n);
     columns := ["TSLA"%string];
     values :=
       map (fun i => [Some (if (i + 1 <? n)%nat then 1 else 2)])
         (seq 0 n) |}.

(** Two tickers on the same price path, 1 and then 2 from row 94 on; the
    second one has no price on the last row. *)
Definition two_ticker_table (n : nat) : DataFrame :=
  {| index := map trading_day (seq 0 n);
     columns := ["TSLA"%string; "NVDA"%string];
     values :=
       map (fun i =>
              [Some (if (i <? 94)%nat then 1 else 2);
               if (i + 1 <? n)%nat
               then Some (if (i <? 94)%nat then 1 else 2)
               else None])
         (seq 0 n) |}.

(** One ticker as in [one_ticker_table], with no price on row 80. *)
Definition gap_table (n : nat) : DataFrame :=
  {| index := map trading_day (seq 0 n);
     columns := ["TSLA"%string];
     values :=
       map (fun i =>
              [if (i =? 80)%nat then None
               else Some (if (i + 1 <? n)%nat then 1 else 2)])
         (seq 0 n) |}.

(** [one_ticker_table] with a second ticker that has no price at all. *)
Definition unlisted_ticker_table (n : nat) : DataFrame :=
  {| index := map trading_day (seq 0 n);
     columns := ["TSLA"%string; "IBIT"%string];
     values :=
       map (fun i => [Some (if (i + 1 <? n)%nat then 1 else 2); None])
         (seq 0 n) |}.

(** What the ranker returns for [one_ticker_table 95] on its last date. *)
Definition one_ticker_allocation : dict Q :=
  Eval vm_compute in
    match rank_assets sqrt_down false (trading_day 94) (one_ticker_table 95)
    with
    | Ok w => w
    | Raise _ => []
    end.

(** The state [one_ticker_table 95] starts from and the one it ends in. *)
Definition one_ticker_initial : State :=
  Eval vm_compute in
    match initial_state (one_ticker_table 95) with
    | Ok st => st
    | Raise _ => Build_State 0 [] 0 [] []
    end.

Definition one_ticker_final : State :=
  Eval vm_compute in
    match backtest sqrt_down false (one_ticker_table 95) with
    | Ok st => st
    | Raise _ => Build_State 0 [] 0 [] []
    end.

(** [two_ticker_table 100] before its last date: both tickers are held
    since the rebalance of row 94. *)
Definition two_ticker_held : State :=
  Eval vm_compute in
    match
      (st0 <- initial_state (two_ticker_table 100) ;;
       run sqrt_down false (two_ticker_table 100)
         (firstn 9 (skipn LOOKBACK_MOM (index (two_ticker_table 100)))) st0)
    with
    | Ok st => st
    | Raise _ => Build_State 0 [] 0 [] []
    end.

(** Its last row and what the ranker returns for its last date. *)
Definition two_ticker_last_row : Series :=
  Eval vm_compute in
    match loc_row (two_ticker_table 100) (trading_day 99) with
    | Ok row => row
    | Raise _ => []
    end.

Definition two_ticker_allocation : dict Q :=
  Eval vm_compute in
    match rank_assets sqrt_down false (trading_day 99) (two_ticker_table 100)
    with
    | Ok w => w
    | Raise _ => []
    end.

(* ------------------------------------------------------------------ *)
(** ** Vocabulary of the properties *)

(** How many of the tickers [ts] the catalogue files under [cat]. *)
Definition count_in_category (cat : category) (ts : list ticker) : nat :=
  length (filter (fun t => String.eqb (category_of t) cat) ts).

(** Every price that is present in the table is positive. *)
Definition positive_prices (prices : DataFrame) : bool :=
  forallb
    (forallb (fun c => match c with Some p => Qlt_bool 0 p | None => true end))
    (values prices).

(** The stop-loss test on one position at a given price. *)
Definition stop_loss_hit (pos : Position) (current_price : Q) : Prop :=
  (current_price - entry_price pos) / entry_price pos <= STOP_LOSS_PCT.

(** Whether the stop-loss pass sells a held position on this row. *)
Definition stopped (current_prices : Series) (item : ticker * Position) :
    bool :=
  match price_of current_prices (fst item) with
  | Some p =>
      Qle_bool ((p - entry_price (snd item)) / entry_price (snd item))
        STOP_LOSS_PCT
  | None => false
  end.

(** Sale value less commission. *)
Definition net_proceeds (pos : Position) (p : Q) : Q :=
  inject_Z (qty pos) * p - calc_commission (inject_Z (qty pos) * p).

(** What the stop-loss pass credits to cash for one held position. *)
Definition stop_loss_credit (current_prices : Series)
    (item : ticker * Position) : Q :=
  match price_of current_prices (fst item) with
  | Some p =>
      if stopped current_prices item then net_proceeds (snd item) p else 0
  | None => 0
  end.

(** Every price read from the row is positive. *)
Definition row_positive (current_prices : Series) : Prop :=
  forall t p, price_of current_prices t = Some p -> 0 < p.


(** The score series the selection loop walks: sorted, positive part. *)
Definition sorted_score (np_sqrt : Q -> Q) (fill_pad : bool)
    (prices_df : DataFrame) (loc : nat) : dict Q :=
  filter (fun ts => Qlt_bool 0 (snd ts))
    (sort_values_desc (raw_score np_sqrt fill_pad prices_df loc)).

(** What the loop maintains: every category's running weight covers the
    tickers selected in it and stays within the cap; a category without
    an entry has no ticker selected. *)
Definition cap_inv (selected : dict Q) (category_weight : dict Q) : Prop :=
  forall cat,
    match dict_get category_weight cat with
    | Some w =>
        Qnat (count_in_category cat (dict_keys selected)) * (1 / Qnat TOP_N)
        <= w
        /\ w <= MAX_SECTOR_WEIGHT
    | None => count_in_category cat (dict_keys selected) = O
    end.

(** The last category of [universe] that lists [t]. *)
Fixpoint last_listing (universe : list (category * list ticker))
    (t : ticker) : option category :=
  match universe with
  | [] => None
  | entry :: universe' =>
      match last_listing universe' t with
      | Some c => Some c
      | None =>
          if existsb (String.eqb t) (snd entry) then Some (fst entry)
          else None
      end
  end.

(** [prices] with further rows below. *)
Definition append_rows (prices : DataFrame) (more_index : list date)
    (more_values : list (list (option Q))) : DataFrame :=
  {| index := index prices ++ more_index;
     columns := columns prices;
     values := values prices ++ more_values |}.

(** Distinct tickers, whole positive quantities, positive entry prices. *)
Definition well_held (holdings : dict Position) : Prop :=
  NoDup (dict_keys holdings)
  /\ Forall (fun item : ticker * Position =>
               (0 < qty (snd item))%Z /\ 0 < entry_price (snd item))
       holdings.

(** A series that never falls. *)
Fixpoint nondecreasing (xs : list Q) : Prop :=
  match xs with
  | [] => True
  | x :: xs' =>
      match xs' with
      | [] => True
      | y :: _ => x <= y /\ nondecreasing xs'
      end
  end.

(** What one held position is worth on a row; nothing without a price. *)
Definition position_value (current_prices : Series)
    (item : ticker * Position) : Q :=
  match price_of current_prices (fst item) with
  | Some p => inject_Z (qty (snd item)) * p
  | None => 0
  end.

(* ================================================================== *)
(** * Properties *)

(* ------------------------------------------------------------------ *)
(** ** Sums and comparisons *)

Lemma Qlt_bool_iff (x y : Q) : Qlt_bool x y = true <-> x < y.
Proof.
  unfold Qlt_bool. rewrite negb_true_iff. split; intro H.
  - apply Qnot_le_lt. intro Hle. apply Qle_bool_iff in Hle. congruence.
  - destruct (Qle_bool y x) eqn:E; [|reflexivity].
    apply Qle_bool_iff in E. exfalso. apply (Qlt_not_le _ _ H E).
Qed.

Lemma Qlt_bool_false (x y : Q) : Qlt_bool x y = false <-> y <= x.
Proof.
  unfold Qlt_bool. rewrite negb_false_iff. apply Qle_bool_iff.
Qed.

Lemma fold_left_Qplus_acc (l : list Q) (a : Q) :
  fold_left Qplus l a == a + fold_left Qplus l 0.
Proof.
  revert a. induction l as [|x l IH]; intro a; simpl.
  - ring.
  - rewrite IH. rewrite (IH (0 + x)). ring.
Qed.

Lemma Qsum_cons (x : Q) (l : list Q) : Qsum (x :: l) == x + Qsum l.
Proof.
  unfold Qsum. simpl. rewrite fold_left_Qplus_acc. ring.
Qed.

Lemma Qsum_nil : Qsum [] == 0.
Proof. reflexivity. Qed.

(* ------------------------------------------------------------------ *)
(** ** Commission model *)

Lemma calc_commission_nonneg (v : Q) : 0 <= calc_commission v.
Proof.
  unfold calc_commission. apply Q.min_glb.
  - apply Qle_trans with MIN_COMMISSION; [discriminate | apply Q.le_max_r].
  - apply Qmult_le_0_compat; [apply Qabs_nonneg | discriminate].
Qed.

Lemma calc_commission_le_cap (v : Q) :
  calc_commission v <= Qabs v * MAX_COMMISSION_PCT.
Proof. unfold calc_commission. apply Q.le_min_r. Qed.

Lemma floor_binds_before_cap (v : Q) :
  Qabs v * COMMISSION_RATE < MIN_COMMISSION ->
  calc_commission v == Qmin MIN_COMMISSION (Qabs v * MAX_COMMISSION_PCT).
Proof.
  intro H. unfold calc_commission.
  rewrite (Q.max_r (Qabs v * COMMISSION_RATE) MIN_COMMISSION)
    by (apply Qlt_le_weak; exact H).
  reflexivity.
Qed.

(** C4, as the code has it: below the rate threshold the commission is the
    floor only while the percentage cap is not lower than the floor;
    otherwise it is the cap, and a trade of value zero costs nothing. *)
Theorem commission_floor_up_to_cap (v : Q) :
  Qabs v * COMMISSION_RATE < MIN_COMMISSION ->
  (MIN_COMMISSION <= Qabs v * MAX_COMMISSION_PCT ->
   calc_commission v == MIN_COMMISSION)
  /\ (Qabs v * MAX_COMMISSION_PCT <= MIN_COMMISSION ->
      calc_commission v == Qabs v * MAX_COMMISSION_PCT)
  /\ (v == 0 -> calc_commission v == 0).
Proof.
  intro H. pose proof (floor_binds_before_cap v H) as E.
  split; [|split].
  - intro Hcap. rewrite E. apply Q.min_l. exact Hcap.
  - intro Hcap. rewrite E. apply Q.min_r. exact Hcap.
  - intro Hv. rewrite E. rewrite Hv. reflexivity.
Qed.

Lemma commission_floor_up_to_cap_witness :
  Qabs 1000 * COMMISSION_RATE < MIN_COMMISSION
  /\ MIN_COMMISSION <= Qabs 1000 * MAX_COMMISSION_PCT
  /\ calc_commission 1000 == MIN_COMMISSION.
Proof.
  split; [reflexivity|]. split; [discriminate|].
  apply (commission_floor_up_to_cap 1000); [reflexivity | discriminate].
Defined.

(** C4 as stated fails: value zero is below the rate threshold and its
    commission is 0, not the floor. *)
Lemma commission_of_zero_is_not_floor :
  Qabs 0 * COMMISSION_RATE < MIN_COMMISSION
  /\ ~ calc_commission 0 == MIN_COMMISSION.
Proof.
  split; [reflexivity|]. intro H. vm_compute in H. discriminate H.
Qed.

(* ------------------------------------------------------------------ *)
(** ** Dictionaries *)

Lemma dict_get_In {V} (d : dict V) (k : string) (v : V) :
  dict_get d k = Some v -> In (k, v) d.
Proof.
  induction d as [|[k' v'] d IH]; simpl; [discriminate|].
  destruct (String.eqb k k') eqn:E.
  - apply String.eqb_eq in E. subst k'. intro H. injection H as ->. now left.
  - intro H. right. now apply IH.
Qed.

Lemma dict_set_In {V} (d : dict V) (k : string) (v : V) (x : string * V) :
  In x (dict_set d k v) -> x = (k, v) \/ In x d.
Proof.
  induction d as [|[k' v'] d IH]; simpl.
  - intros [H|[]]. now left.
  - destruct (String.eqb k k') eqn:E.
    + apply String.eqb_eq in E. subst k'.
      intros [H|H]; [now left | right; now right].
    + intros [H|H]; [right; now left|].
      destruct (IH H) as [H'|H']; [now left | right; now right].
Qed.

Lemma dict_set_length {V} (d : dict V) (k : string) (v : V) :
  (length (dict_set d k v) <= S (length d))%nat.
Proof.
  induction d as [|[k' v'] d IH]; simpl; [lia|].
  destruct (String.eqb k k'); simpl; lia.
Qed.

Lemma dict_get_set {V} (d : dict V) (k k' : string) (v : V) :
  dict_get (dict_set d k v) k' =
  if String.eqb k' k then Some v else dict_get d k'.
Proof.
  induction d as [|[k0 v0] d IH]; simpl.
  - destruct (String.eqb k' k); reflexivity.
  - destruct (String.eqb k k0) eqn:E; simpl.
    + apply String.eqb_eq in E. subst k0.
      destruct (String.eqb k' k); reflexivity.
    + destruct (String.eqb k' k0) eqn:E0.
      * apply String.eqb_eq in E0. subst k0.
        rewrite String.eqb_sym, E. reflexivity.
      * exact IH.
Qed.

Lemma dict_get_None_keys {V} (d : dict V) (k : string) :
  dict_get d k = None <-> ~ In k (dict_keys d).
Proof.
  induction d as [|[k' v'] d IH]; simpl.
  - tauto.
  - destruct (String.eqb k k') eqn:E.
    + apply String.eqb_eq in E. subst k'. split; [discriminate|].
      intro H. exfalso. apply H. now left.
    + apply String.eqb_neq in E. rewrite IH. split.
      * intros H [H'|H']; [congruence | tauto].
      * intros H H'. apply H. now right.
Qed.

(* ------------------------------------------------------------------ *)
(** ** Index lookups *)

Lemma get_loc_In (d : date) (idx : list date) :
  In d idx -> exists n, get_loc d idx = Ok n.
Proof.
  induction idx as [|d' idx IH]; simpl; [tauto|].
  intro H. destruct (Z.eqb d d') eqn:E; [now exists O|].
  apply Z.eqb_neq in E. destruct H as [H|H]; [congruence|].
  destruct (IH H) as [n Hn]. rewrite Hn. simpl. now exists (S n).
Qed.

Lemma get_loc_not_In (d : date) (idx : list date) :
  ~ In d idx -> get_loc d idx = Raise KeyError.
Proof.
  induction idx as [|d' idx IH]; simpl; [reflexivity|].
  intro H. destruct (Z.eqb d d') eqn:E.
  - apply Z.eqb_eq in E. exfalso. apply H. left. congruence.
  - rewrite IH by tauto. reflexivity.
Qed.

Lemma get_loc_Ok (d : date) (idx : list date) (n : nat) :
  get_loc d idx = Ok n -> In d idx.
Proof.
  intro H. destruct (in_dec Z.eq_dec d idx) as [Hin|Hout]; [exact Hin|].
  rewrite (get_loc_not_In _ _ Hout) in H. discriminate.
Qed.

(* ------------------------------------------------------------------ *)
(** ** The catalogue *)

Lemma category_of_listed (t : ticker) :
  String.eqb (category_of t) "Unknown" = false ->
  In (category_of t) CATEGORY_LIST.
Proof.
  assert (Hall :
    forallb (fun e : string * category =>
               existsb (String.eqb (snd e)) CATEGORY_LIST)
      TICKER_TO_CATEGORY = true) by (vm_compute; reflexivity).
  unfold category_of, dict_get_default.
  destruct (dict_get TICKER_TO_CATEGORY t) as [c|] eqn:E.
  - intros _. apply dict_get_In in E.
    rewrite forallb_forall in Hall. specialize (Hall _ E). cbv beta in Hall.
    apply existsb_exists in Hall. destruct Hall as [c' [Hin Heq]].
    cbn [snd] in Heq. apply String.eqb_eq in Heq. now subst c'.
  - intro H. vm_compute in H. discriminate H.
Qed.

(** A ticker listed under two categories is filed under the later one. *)
Lemma double_listing_keeps_last :
  In "BITO"%string
    (dict_get_default UNIVERSE "Aggressive Growth"%string [])
  /\ In "BITO"%string (dict_get_default UNIVERSE "Crypto"%string [])
  /\ category_of "BITO"%string = "Crypto"%string.
Proof.
  split; [vm_compute; tauto|]. split; [vm_compute; tauto|].
  vm_compute. reflexivity.
Qed.

Lemma dict_get_zeroed (cats : list category) (c : category) :
  dict_get (map (fun c => (c, 0)) cats) c =
  if existsb (String.eqb c) cats then Some 0 else None.
Proof.
  induction cats as [|c' cats IH]; simpl; [reflexivity|].
  destruct (String.eqb c c'); simpl; [reflexivity | exact IH].
Qed.

(* ------------------------------------------------------------------ *)
(** ** The selection loop *)

Lemma Qnat_S (n : nat) : Qnat (S n) == Qnat n + 1.
Proof.
  unfold Qnat. rewrite Nat2Z.inj_succ. unfold Z.succ.
  rewrite inject_Z_plus. reflexivity.
Qed.

Lemma Qnat_le (n m : nat) : (n <= m)%nat -> Qnat n <= Qnat m.
Proof.
  intro H. unfold Qnat. rewrite <- Zle_Qle. lia.
Qed.

Lemma Qnat_nonneg (n : nat) : 0 <= Qnat n.
Proof. apply (Qnat_le 0 n). lia. Qed.

Lemma count_after_set (cat : category) (sel : dict Q) (t : ticker) (s : Q) :
  (count_in_category cat (dict_keys (dict_set sel t s))
   <= count_in_category cat (dict_keys sel)
      + (if String.eqb (category_of t) cat then 1 else 0))%nat.
Proof.
  unfold count_in_category.
  induction sel as [|[k v] sel IH]; simpl.
  - destruct (String.eqb (category_of t) cat); simpl; lia.
  - destruct (String.eqb t k) eqn:E; simpl.
    + destruct (String.eqb (category_of k) cat); simpl; lia.
    + destruct (String.eqb (category_of k) cat); simpl; lia.
Qed.

Lemma cap_inv_accept (sel cw : dict Q) (t : ticker) (s w : Q) :
  cap_inv sel cw ->
  dict_get cw (category_of t) = Some w ->
  w + 1 / Qnat TOP_N <= MAX_SECTOR_WEIGHT ->
  cap_inv (dict_set sel t s)
    (dict_set cw (category_of t) (w + 1 / Qnat TOP_N)).
Proof.
  intros Hinv Hw Hcap cat. rewrite dict_get_set.
  pose proof (count_after_set cat sel t s) as Hc.
  specialize (Hinv cat).
  destruct (String.eqb cat (category_of t)) eqn:E.
  - apply String.eqb_eq in E. subst cat. rewrite String.eqb_refl in Hc.
    rewrite Hw in Hinv. destruct Hinv as [Hlow _]. split; [|exact Hcap].
    apply Qle_trans with
      (Qnat (S (count_in_category (category_of t) (dict_keys sel)))
       * (1 / Qnat TOP_N)).
    + apply Qmult_le_compat_r; [apply Qnat_le; lia | discriminate].
    + rewrite Qnat_S. lra.
  - rewrite String.eqb_sym, E in Hc.
    replace (count_in_category cat (dict_keys (dict_set sel t s)))
      with (count_in_category cat (dict_keys sel)); [exact Hinv|].
    assert (count_in_category cat (dict_keys sel)
            <= count_in_category cat (dict_keys (dict_set sel t s)))%nat;
      [|lia].
    clear. unfold count_in_category.
    induction sel as [|[k v] sel IH]; simpl; [lia|].
    destruct (String.eqb t k) eqn:E; simpl.
    + destruct (String.eqb (category_of k) cat); simpl; lia.
    + destruct (String.eqb (category_of k) cat); simpl; lia.
Qed.

Lemma select_loop_sound (score todo sel cw r : dict Q) :
  cap_inv sel cw ->
  (length sel <= TOP_N)%nat ->
  incl sel score ->
  incl todo score ->
  select_loop todo sel cw = Ok r ->
  (exists cw', cap_inv r cw') /\ (length r <= TOP_N)%nat /\ incl r score.
Proof.
  revert sel cw.
  induction todo as [|[t s] todo IH]; intros sel cw Hinv Hlen Hsel Htodo.
  - simpl. intro H. injection H as <-. split; [now exists cw | now split].
  - cbn [select_loop].
    destruct (TOP_N <=? length sel)%nat eqn:Efull.
    { intro H. injection H as <-. split; [now exists cw | now split]. }
    apply Nat.leb_gt in Efull.
    assert (Htodo' : incl todo score)
      by (intros x Hx; apply Htodo; now right).
    cbv zeta.
    destruct (String.eqb (category_of t) "Unknown"); [now apply IH|].
    destruct (dict_get cw (category_of t)) as [w|] eqn:Ew; [|discriminate].
    destruct (Qlt_bool MAX_SECTOR_WEIGHT (w + 1 / Qnat TOP_N)) eqn:Ecap;
      [now apply IH|].
    apply Qlt_bool_false in Ecap.
    apply IH.
    + now apply cap_inv_accept.
    + pose proof (dict_set_length sel t s). lia.
    + intros x Hx. destruct (dict_set_In _ _ _ _ Hx) as [->|Hx'].
      * apply Htodo. now left.
      * now apply Hsel.
    + exact Htodo'.
Qed.

Lemma cap_inv_initial : cap_inv [] (map (fun c => (c, 0)) CATEGORY_LIST).
Proof.
  intro cat. rewrite dict_get_zeroed.
  destruct (existsb (String.eqb cat) CATEGORY_LIST); [|reflexivity].
  split; [|discriminate].
  unfold count_in_category. simpl. discriminate.
Qed.

Lemma select_sound (score r : dict Q) :
  select score = Ok r ->
  (forall cat,
     Qnat (count_in_category cat (dict_keys r)) / Qnat TOP_N
     <= MAX_SECTOR_WEIGHT)
  /\ (length r <= TOP_N)%nat
  /\ incl r score.
Proof.
  intro H. unfold select in H.
  destruct (select_loop_sound score score [] _ r cap_inv_initial) as
    [[cw' Hinv] [Hlen Hincl]]; try exact H.
  - simpl. unfold TOP_N. lia.
  - intros x [].
  - apply incl_refl.
  - split; [|now split]. intro cat. specialize (Hinv cat).
    destruct (dict_get cw' cat) as [w|].
    + destruct Hinv as [H1 H2]. unfold Qdiv.
      setoid_replace (/ Qnat TOP_N) with (1 / Qnat TOP_N)
        by (unfold Qdiv; ring).
      now apply Qle_trans with w.
    + rewrite Hinv. discriminate.
Qed.

Lemma select_loop_total (todo sel cw : dict Q) :
  (forall t, String.eqb (category_of t) "Unknown" = false ->
             dict_get cw (category_of t) <> None) ->
  exists r, select_loop todo sel cw = Ok r.
Proof.
  revert sel cw. induction todo as [|[t s] todo IH]; intros sel cw Hcw.
  - now exists sel.
  - cbn [select_loop].
    destruct (TOP_N <=? length sel)%nat; [now exists sel|].
    cbv zeta.
    destruct (String.eqb (category_of t) "Unknown") eqn:Eu; [now apply IH|].
    destruct (dict_get cw (category_of t)) as [w|] eqn:Ew;
      [|exfalso; now apply (Hcw t Eu)].
    destruct (Qlt_bool MAX_SECTOR_WEIGHT (w + 1 / Qnat TOP_N));
      [now apply IH|].
    apply IH. intros t' Hu'. rewrite dict_get_set.
    destruct (String.eqb (category_of t') (category_of t));
      [discriminate | now apply Hcw].
Qed.

Lemma select_total (score : dict Q) : exists r, select score = Ok r.
Proof.
  apply select_loop_total. intros t Hu. rewrite dict_get_zeroed.
  pose proof (category_of_listed t Hu) as Hin.
  destruct (existsb (String.eqb (category_of t)) CATEGORY_LIST) eqn:E;
    [discriminate|].
  exfalso. apply Bool.not_true_iff_false in E. apply E.
  apply existsb_exists. exists (category_of t). split; [exact Hin|].
  apply String.eqb_refl.
Qed.

(* ------------------------------------------------------------------ *)
(** ** The ranker *)

Lemma insert_desc_In (x y : ticker * Q) (l : dict Q) :
  In x (insert_desc y l) <-> x = y \/ In x l.
Proof.
  induction l as [|z l IH]; simpl.
  - split; [intros [H|[]]; now left | intros [H|[]]; now left].
  - destruct (Qle_bool (snd z) (snd y)); simpl.
    + split; [intros [H|H]; [now left | now right]
             | intros [H|H]; [now left | now right]].
    + rewrite IH. split.
      * intros [H|[H|H]]; [right; now left | now left | right; now right].
      * intros [H|[H|H]]; [right; now left | now left | right; now right].
Qed.

Lemma sort_values_desc_In (x : ticker * Q) (l : dict Q) :
  In x (sort_values_desc l) <-> In x l.
Proof.
  unfold sort_values_desc. induction l as [|y l IH]; simpl; [tauto|].
  rewrite insert_desc_In, IH. split; intros [H|H]; auto.
Qed.

Lemma sorted_score_In (np_sqrt : Q -> Q) (fill_pad : bool)
    (prices : DataFrame) (loc : nat) (t : ticker) (s : Q) :
  In (t, s) (sorted_score np_sqrt fill_pad prices loc) ->
  0 < s /\ In (t, s) (raw_score np_sqrt fill_pad prices loc).
Proof.
  unfold sorted_score. rewrite filter_In, sort_values_desc_In.
  intros [Hin Hpos]. split; [now apply Qlt_bool_iff | exact Hin].
Qed.

Lemma normalise_keys (selected : dict Q) :
  dict_keys (normalise selected) = dict_keys selected.
Proof.
  unfold normalise, dict_keys. rewrite map_map. reflexivity.
Qed.

Lemma rank_assets_cases (np_sqrt : Q -> Q) (fill_pad : bool) (d : date)
    (prices : DataFrame) (w : dict Q) :
  rank_assets np_sqrt fill_pad d prices = Ok w ->
  exists loc,
    get_loc d (index prices) = Ok loc
    /\ (((loc < LOOKBACK_MOM)%nat /\ w = [])
        \/ ((LOOKBACK_MOM <= loc)%nat
            /\ exists selected,
                 select (sorted_score np_sqrt fill_pad prices loc)
                 = Ok selected
                 /\ w = normalise selected)).
Proof.
  unfold rank_assets.
  destruct (get_loc d (index prices)) as [loc|e]; [|discriminate].
  cbn [bind]. intro H. exists loc. split; [reflexivity|].
  destruct (loc <? LOOKBACK_MOM)%nat eqn:E.
  - left. apply Nat.ltb_lt in E. injection H as <-. now split.
  - right. apply Nat.ltb_ge in E. split; [exact E|].
    fold (sorted_score np_sqrt fill_pad prices loc) in H.
    destruct (select (sorted_score np_sqrt fill_pad prices loc))
      as [selected|e]; [|discriminate].
    cbn [bind] in H. exists selected. split; [reflexivity|].
    destruct selected; injection H as <-; reflexivity.
Qed.

Lemma rank_assets_total (np_sqrt : Q -> Q) (fill_pad : bool) (d : date)
    (prices : DataFrame) :
  In d (index prices) -> exists w, rank_assets np_sqrt fill_pad d prices = Ok w.
Proof.
  intro Hin. destruct (get_loc_In _ _ Hin) as [loc Hloc].
  unfold rank_assets. rewrite Hloc. cbn [bind].
  destruct (loc <? LOOKBACK_MOM)%nat; [now exists []|].
  fold (sorted_score np_sqrt fill_pad prices loc).
  destruct (select_total (sorted_score np_sqrt fill_pad prices loc))
    as [selected Hsel].
  rewrite Hsel. cbn [bind]. destruct selected; eauto.
Qed.

Lemma Qsum_scaled (l : list Q) (c : Q) :
  Qsum (map (fun s => s / c) l) == Qsum l / c.
Proof.
  induction l as [|x l IH].
  - unfold Qdiv. reflexivity.
  - cbn [map]. rewrite !Qsum_cons, IH. unfold Qdiv. ring.
Qed.

Lemma Qsum_positive (l : list Q) :
  l <> [] -> (forall x, In x l -> 0 < x) -> 0 < Qsum l.
Proof.
  induction l as [|x l IH]; [congruence|]. intros _ Hpos.
  rewrite Qsum_cons. destruct l as [|y l].
  - rewrite Qsum_nil. assert (0 < x) by (apply Hpos; now left). lra.
  - assert (0 < x) by (apply Hpos; now left).
    assert (0 < Qsum (y :: l)).
    { apply IH; [discriminate|]. intros z Hz. apply Hpos. now right. }
    lra.
Qed.

Lemma normalise_values (selected : dict Q) :
  dict_values (normalise selected) =
  map (fun s => s / Qsum (dict_values selected)) (dict_values selected).
Proof.
  unfold normalise, dict_values. rewrite !map_map. reflexivity.
Qed.

(* ------------------------------------------------------------------ *)
(** ** Labels of the score series *)

Lemma distinct_NoDup (l : list string) : distinct l = true -> NoDup l.
Proof.
  induction l as [|x l IH]; simpl; [constructor|].
  rewrite andb_true_iff, negb_true_iff. intros [Hx Hl].
  constructor; [|now apply IH].
  intro Hin. apply Bool.not_true_iff_false in Hx. apply Hx.
  apply existsb_exists. exists x. split; [exact Hin | apply String.eqb_refl].
Qed.

Lemma dict_In_get {V} (d : dict V) (k : string) (v : V) :
  NoDup (dict_keys d) -> In (k, v) d -> dict_get d k = Some v.
Proof.
  induction d as [|[k' v'] d IH]; simpl; [tauto|].
  intros Hnd Hin. inversion Hnd as [|? ? Hnotin Hnd']; subst.
  destruct (String.eqb k k') eqn:E.
  - apply String.eqb_eq in E. subst k'. destruct Hin as [H|H].
    + congruence.
    + exfalso. apply Hnotin. apply (in_map fst) in H. exact H.
  - apply String.eqb_neq in E. destruct Hin as [H|H]; [congruence|].
    now apply IH.
Qed.

Lemma map_snd_combine_seq {A} (l : list A) (n : nat) :
  map snd (combine (seq n (length l)) l) = l.
Proof.
  revert n. induction l as [|x l IH]; intro n; simpl; [reflexivity|].
  now rewrite IH.
Qed.

Lemma reduce_columns_keys (f : list (option Q) -> option Q)
    (cols : list ticker) (rows : list (list (option Q))) :
  dict_keys (reduce_columns f cols rows) = cols.
Proof.
  unfold reduce_columns, dict_keys. rewrite map_map. cbn [fst].
  apply map_snd_combine_seq.
Qed.

Lemma NoDup_keys_filter {V} (f : string * V -> bool) (d : dict V) :
  NoDup (dict_keys d) -> NoDup (dict_keys (filter f d)).
Proof.
  induction d as [|[k v] d IH]; simpl; [constructor|].
  intro Hnd. inversion Hnd as [|? ? Hnotin Hnd']; subst.
  destruct (f (k, v)); [|now apply IH].
  simpl. constructor; [|now apply IH].
  intro Hin. apply Hnotin. unfold dict_keys in *.
  apply in_map_iff in Hin. destruct Hin as [[k' v'] [Hk Hin]].
  apply filter_In in Hin. apply in_map_iff. exists (k', v'). tauto.
Qed.

Lemma dropna_In (s : Series) (t : ticker) (x : Q) :
  In (t, x) (dropna s) <-> In (t, Some x) s.
Proof.
  induction s as [|[k [v|]] s IH]; simpl; [tauto| |].
  - rewrite IH. split.
    + intros [H|H]; [left; injection H as -> ->; reflexivity | now right].
    + intros [H|H]; [left; injection H as -> ->; reflexivity | now right].
  - rewrite IH. split; [now right | intros [H|H]; [discriminate | exact H]].
Qed.

Lemma dropna_keys_NoDup (s : Series) :
  NoDup (dict_keys s) -> NoDup (dict_keys (dropna s)).
Proof.
  induction s as [|[k [v|]] s IH]; simpl; [constructor| |].
  - intro Hnd. inversion Hnd as [|? ? Hnotin Hnd']; subst.
    constructor; [|now apply IH].
    intro Hin. apply Hnotin. unfold dict_keys in *.
    apply in_map_iff in Hin. destruct Hin as [[k' x] [Hk Hin]].
    apply dropna_In in Hin. apply in_map_iff. exists (k', Some x). tauto.
  - intro Hnd. inversion Hnd; subst. now apply IH.
Qed.

Section ScoreLabels.

Variable np_sqrt : Q -> Q.
Variable fill_pad : bool.
Variable prices : DataFrame.
Variable loc : nat.
Hypothesis columns_distinct : distinct (columns prices) = true.

Let momentum := momentum_of fill_pad prices loc.
Let volatility := volatility_of np_sqrt fill_pad prices loc.

Lemma volatility_keys_NoDup : NoDup (dict_keys volatility).
Proof.
  unfold volatility, volatility_of. rewrite reduce_columns_keys.
  now apply distinct_NoDup.
Qed.

Lemma raw_score_keys_NoDup :
  NoDup (dict_keys (raw_score np_sqrt fill_pad prices loc)).
Proof.
  unfold raw_score. apply dropna_keys_NoDup.
  unfold dict_keys at 1. rewrite map_map. cbn [fst]. rewrite map_id.
  apply NoDup_filter. apply NoDup_keys_filter. apply volatility_keys_NoDup.
Qed.

Lemma raw_score_unique (t : ticker) (s s' : Q) :
  In (t, s) (raw_score np_sqrt fill_pad prices loc) ->
  In (t, s') (raw_score np_sqrt fill_pad prices loc) ->
  s = s'.
Proof.
  intros H H'.
  apply (dict_In_get _ _ _ raw_score_keys_NoDup) in H.
  apply (dict_In_get _ _ _ raw_score_keys_NoDup) in H'.
  congruence.
Qed.

(** A ticker with a raw score has a momentum and a positive volatility. *)
Lemma raw_score_eligible (t : ticker) (s : Q) :
  In (t, s) (raw_score np_sqrt fill_pad prices loc) ->
  exists m v,
    series_get momentum t = Some m
    /\ series_get volatility t = Some v
    /\ 0 < v
    /\ s = m / v.
Proof.
  unfold raw_score. fold momentum. fold volatility.
  rewrite dropna_In, in_map_iff. intros [t' [Heq Hvalid]].
  injection Heq as -> Hdiv.
  apply filter_In in Hvalid. destruct Hvalid as [Hkey _].
  unfold dict_keys in Hkey. apply in_map_iff in Hkey.
  destruct Hkey as [[k v'] [Hk Hin]]. cbn [fst] in Hk. subst k.
  apply filter_In in Hin. destruct Hin as [Hin Hpos]. cbn [snd] in Hpos.
  apply (dict_In_get _ _ _ volatility_keys_NoDup) in Hin.
  unfold series_get in Hdiv |- *. rewrite Hin in Hdiv |- *.
  destruct v' as [v|]; [|discriminate Hpos].
  apply Qlt_bool_iff in Hpos.
  destruct (dict_get momentum t) as [[m|]|]; try discriminate Hdiv.
  exists m, v. cbn [div_opt] in Hdiv. injection Hdiv as <-.
  repeat split; [exact Hpos].
Qed.

End ScoreLabels.

(* ------------------------------------------------------------------ *)
(** ** Claims on the ranker *)

(** C6: in every allocation the ranker returns, each category's share of
    the [TOP_N] slots is at most [MAX_SECTOR_WEIGHT], there are at most
    [TOP_N] tickers, and every selected ticker has a raw score, which is
    strictly positive. *)
Theorem allocation_respects_caps (np_sqrt : Q -> Q) (fill_pad : bool)
    (d : date) (prices : DataFrame) (w : dict Q) :
  distinct (columns prices) = true ->
  rank_assets np_sqrt fill_pad d prices = Ok w ->
  (forall cat,
     Qnat (count_in_category cat (dict_keys w)) / Qnat TOP_N
     <= MAX_SECTOR_WEIGHT)
  /\ (length w <= TOP_N)%nat
  /\ (forall t, In t (dict_keys w) ->
        exists loc,
          get_loc d (index prices) = Ok loc
          /\ (exists s, In (t, s) (raw_score np_sqrt fill_pad prices loc))
          /\ (forall s, In (t, s) (raw_score np_sqrt fill_pad prices loc) ->
                        0 < s)).
Proof.
  intros Hcols H.
  destruct (rank_assets_cases _ _ _ _ _ H) as [loc [Hloc [[_ ->]|[_ Hsel]]]].
  - split; [|split].
    + intro cat. discriminate.
    + simpl. lia.
    + intros t [].
  - destruct Hsel as [selected [Hsel ->]].
    destruct (select_sound _ _ Hsel) as [Hcap [Hlen Hincl]].
    rewrite normalise_keys. split; [exact Hcap|]. split.
    + unfold normalise. rewrite length_map. exact Hlen.
    + intros t Ht. exists loc. split; [exact Hloc|].
      unfold dict_keys in Ht. apply in_map_iff in Ht.
      destruct Ht as [[t' s] [Ht Hin]]. cbn [fst] in Ht. subst t'.
      apply Hincl in Hin. apply sorted_score_In in Hin.
      destruct Hin as [Hpos Hraw]. split; [now exists s|].
      intros s' Hraw'.
      now rewrite (raw_score_unique _ _ _ _ Hcols _ _ _ Hraw' Hraw).
Qed.

Lemma allocation_respects_caps_witness :
  distinct (columns (one_ticker_table 95)) = true
  /\ rank_assets sqrt_down false (trading_day 94) (one_ticker_table 95)
     = Ok one_ticker_allocation
  /\ ((forall cat,
         Qnat (count_in_category cat (dict_keys one_ticker_allocation))
         / Qnat TOP_N <= MAX_SECTOR_WEIGHT)
      /\ (length one_ticker_allocation <= TOP_N)%nat
      /\ (forall t, In t (dict_keys one_ticker_allocation) ->
            exists loc,
              get_loc (trading_day 94) (index (one_ticker_table 95)) = Ok loc
              /\ (exists s,
                    In (t, s)
                      (raw_score sqrt_down false (one_ticker_table 95) loc))
              /\ (forall s,
                    In (t, s)
                      (raw_score sqrt_down false (one_ticker_table 95) loc) ->
                    0 < s))).
Proof.
  assert (H1 : distinct (columns (one_ticker_table 95)) = true)
    by reflexivity.
  assert (H2 : rank_assets sqrt_down false (trading_day 94)
                 (one_ticker_table 95) = Ok one_ticker_allocation)
    by (vm_compute; reflexivity).
  split; [exact H1|]. split; [exact H2|].
  exact (allocation_respects_caps sqrt_down false (trading_day 94)
           (one_ticker_table 95) one_ticker_allocation H1 H2).
Defined.

(** C7: on a table whose prices are positive, the weights of a
    non-empty allocation are the selected raw scores divided by their
    sum, and they add up to 1. *)
Theorem weights_are_normalised_scores (np_sqrt : Q -> Q) (fill_pad : bool)
    (d : date) (prices : DataFrame) (w : dict Q) :
  positive_prices prices = true ->
  rank_assets np_sqrt fill_pad d prices = Ok w ->
  w <> [] ->
  exists loc selected,
    get_loc d (index prices) = Ok loc
    /\ incl selected (raw_score np_sqrt fill_pad prices loc)
    /\ w = map (fun ts => (fst ts, snd ts / Qsum (dict_values selected)))
             selected
    /\ Qsum (dict_values w) == 1.
Proof.
  intros _ H Hne.
  destruct (rank_assets_cases _ _ _ _ _ H) as [loc [Hloc [[_ ->]|[_ Hsel]]]];
    [congruence|].
  destruct Hsel as [selected [Hsel ->]].
  destruct (select_sound _ _ Hsel) as [_ [_ Hincl]].
  exists loc, selected. split; [exact Hloc|]. split.
  { intros [t s] Hin. apply Hincl in Hin. now apply sorted_score_In in Hin. }
  split; [reflexivity|].
  rewrite normalise_values, Qsum_scaled.
  assert (Hpos : 0 < Qsum (dict_values selected)).
  { apply Qsum_positive.
    - destruct selected; [now elim Hne | discriminate].
    - intros x Hx. unfold dict_values in Hx. apply in_map_iff in Hx.
      destruct Hx as [[t s] [<- Hin]]. apply Hincl in Hin.
      now apply sorted_score_In in Hin. }
  unfold Qdiv. apply Qmult_inv_r. intro E. rewrite E in Hpos.
  apply (Qlt_irrefl _ Hpos).
Qed.

Lemma weights_are_normalised_scores_witness :
  positive_prices (one_ticker_table 95) = true
  /\ rank_assets sqrt_down false (trading_day 94) (one_ticker_table 95)
     = Ok one_ticker_allocation
  /\ one_ticker_allocation <> []
  /\ exists loc selected,
       get_loc (trading_day 94) (index (one_ticker_table 95)) = Ok loc
       /\ incl selected (raw_score sqrt_down false (one_ticker_table 95) loc)
       /\ one_ticker_allocation
          = map (fun ts => (fst ts, snd ts / Qsum (dict_values selected)))
              selected
       /\ Qsum (dict_values one_ticker_allocation) == 1.
Proof.
  assert (H1 : rank_assets sqrt_down false (trading_day 94)
                 (one_ticker_table 95) = Ok one_ticker_allocation)
    by (vm_compute; reflexivity).
  assert (H2 : one_ticker_allocation <> []) by discriminate.
  assert (H0 : positive_prices (one_ticker_table 95) = true)
    by (vm_compute; reflexivity).
  split; [exact H0|]. split; [exact H1|]. split; [exact H2|].
  exact (weights_are_normalised_scores sqrt_down false (trading_day 94)
           (one_ticker_table 95) one_ticker_allocation H0 H1 H2).
Defined.

(** C8, as the code has it: a ticker in the allocation has a momentum and
    a strictly positive volatility, both taken over the window rows left
    once every row with a missing return in any column is dropped, and a
    positive score.  A gap in a window does not by itself exclude it. *)
Theorem selected_ticker_is_eligible (np_sqrt : Q -> Q) (fill_pad : bool)
    (d : date) (prices : DataFrame) (w : dict Q) (t : ticker) :
  distinct (columns prices) = true ->
  rank_assets np_sqrt fill_pad d prices = Ok w ->
  In t (dict_keys w) ->
  exists loc m v,
    get_loc d (index prices) = Ok loc
    /\ series_get (momentum_of fill_pad prices loc) t = Some m
    /\ series_get (volatility_of np_sqrt fill_pad prices loc) t = Some v
    /\ 0 < v
    /\ 0 < m / v.
Proof.
  intros Hcols H Ht.
  destruct (rank_assets_cases _ _ _ _ _ H) as [loc [Hloc [[_ ->]|[_ Hsel]]]];
    [destruct Ht|].
  destruct Hsel as [selected [Hsel ->]].
  destruct (select_sound _ _ Hsel) as [_ [_ Hincl]].
  rewrite normalise_keys in Ht. unfold dict_keys in Ht.
  apply in_map_iff in Ht. destruct Ht as [[t' s] [Ht Hin]].
  cbn [fst] in Ht. subst t'.
  apply Hincl in Hin. apply sorted_score_In in Hin.
  destruct Hin as [Hpos Hraw].
  destruct (raw_score_eligible _ _ _ _ Hcols _ _ Hraw)
    as [m [v [Hm [Hv [Hvpos ->]]]]].
  exists loc, m, v. repeat split; assumption.
Qed.

Lemma selected_ticker_is_eligible_witness :
  distinct (columns (one_ticker_table 95)) = true
  /\ rank_assets sqrt_down false (trading_day 94) (one_ticker_table 95)
     = Ok one_ticker_allocation
  /\ In "TSLA"%string (dict_keys one_ticker_allocation)
  /\ exists loc m v,
       get_loc (trading_day 94) (index (one_ticker_table 95)) = Ok loc
       /\ series_get (momentum_of false (one_ticker_table 95) loc)
            "TSLA"%string = Some m
       /\ series_get (volatility_of sqrt_down false (one_ticker_table 95) loc)
            "TSLA"%string = Some v
       /\ 0 < v
       /\ 0 < m / v.
Proof.
  assert (H1 : distinct (columns (one_ticker_table 95)) = true)
    by reflexivity.
  assert (H2 : rank_assets sqrt_down false (trading_day 94)
                 (one_ticker_table 95) = Ok one_ticker_allocation)
    by (vm_compute; reflexivity).
  assert (H3 : In "TSLA"%string (dict_keys one_ticker_allocation))
    by (left; reflexivity).
  split; [exact H1|]. split; [exact H2|]. split; [exact H3|].
  exact (selected_ticker_is_eligible sqrt_down false (trading_day 94)
           (one_ticker_table 95) one_ticker_allocation "TSLA"%string
           H1 H2 H3).
Defined.

(** C8 as stated fails: the ticker of [gap_table] has a missing price in
    the momentum window and in the volatility window of the last date,
    and the ranker still returns it, with forward filling and without. *)
Lemma ticker_with_gap_is_selected :
  nth 0 (columns (gap_table 95)) ""%string = "TSLA"%string
  /\ In None
       (column 0 (iloc (94 - LOOKBACK_MOM) (94 + 1) (values (gap_table 95))))
  /\ In None
       (column 0 (iloc (94 - LOOKBACK_VOL) (94 + 1) (values (gap_table 95))))
  /\ get_loc (trading_day 94) (index (gap_table 95)) = Ok 94%nat
  /\ (exists w,
        rank_assets sqrt_down false (trading_day 94) (gap_table 95) = Ok w
        /\ In "TSLA"%string (dict_keys w))
  /\ (exists w,
        rank_assets sqrt_down true (trading_day 94) (gap_table 95) = Ok w
        /\ In "TSLA"%string (dict_keys w)).
Proof.
  split; [reflexivity|].
  split; [vm_compute; tauto|].
  split; [vm_compute; tauto|].
  split; [vm_compute; reflexivity|].
  split.
  - eexists. split; [vm_compute; reflexivity | left; reflexivity].
  - eexists. split; [vm_compute; reflexivity | left; reflexivity].
Qed.

(* ------------------------------------------------------------------ *)
(** ** The main loop never raises on its own dates *)

Section Totality.

Variable np_sqrt : Q -> Q.
Variable fill_pad : bool.
Variable prices : DataFrame.

Lemma rebalance_pass_total (d : date) (current_prices : Series)
    (st : Q * dict Position * Q) :
  In d (index prices) ->
  exists st',
    rebalance_pass np_sqrt fill_pad prices d current_prices st = Ok st'.
Proof.
  intro Hin. unfold rebalance_pass.
  destruct (existsb (Z.eqb d) (rebalance_dates prices)); [|now exists st].
  destruct (rank_assets_total np_sqrt fill_pad d prices Hin) as [w Hw].
  rewrite Hw. cbn [bind]. destruct w; eauto.
Qed.

Lemma step_total (st : State) (d : date) :
  In d (index prices) ->
  exists st', step np_sqrt fill_pad prices st d = Ok st'.
Proof.
  intro Hin. unfold step, loc_row.
  destruct (get_loc_In _ _ Hin) as [i Hi]. rewrite Hi. cbn [bind].
  match goal with
  | |- context [rebalance_pass _ _ _ _ ?cp ?s1] =>
      destruct (rebalance_pass_total d cp s1 Hin) as [[[c h] tc] Hs2]
  end.
  rewrite Hs2. cbn [bind]. eauto.
Qed.

Lemma run_total (dates : list date) (st : State) :
  incl dates (index prices) ->
  exists st', run np_sqrt fill_pad prices dates st = Ok st'.
Proof.
  revert st. induction dates as [|d dates IH]; intros st Hincl.
  - now exists st.
  - cbn [run].
    destruct (step_total st d) as [st1 H1]; [apply Hincl; now left|].
    rewrite H1. cbn [bind]. apply IH. intros x Hx. apply Hincl. now right.
Qed.

Lemma skipn_incl {A} (n : nat) (l : list A) : incl (skipn n l) l.
Proof.
  revert n. induction l as [|x l IH]; intro n.
  - rewrite skipn_nil. apply incl_refl.
  - destruct n as [|n]; [apply incl_refl|].
    simpl. intros y Hy. right. now apply (IH n).
Qed.

Lemma backtest_total :
  (LOOKBACK_MOM < length (index prices))%nat ->
  exists st, backtest np_sqrt fill_pad prices = Ok st.
Proof.
  intro Hlen. unfold backtest, initial_state, index_at.
  destruct (nth_error (index prices) LOOKBACK_MOM) as [d0|] eqn:E.
  - cbn [bind]. apply run_total. apply skipn_incl.
  - apply nth_error_None in E. lia.
Qed.

End Totality.

(** C9: a date with fewer than [LOOKBACK_MOM] rows before it gets the
    empty allocation, not an error; and whenever the ranker returns the
    empty allocation the rebalance pass hands back cash, holdings and
    commissions as it received them. *)
Theorem empty_allocation_leaves_holdings (np_sqrt : Q -> Q)
    (fill_pad : bool) (prices : DataFrame) (d : date) :
  (forall loc,
     get_loc d (index prices) = Ok loc -> (loc < LOOKBACK_MOM)%nat ->
     rank_assets np_sqrt fill_pad d prices = Ok [])
  /\ (rank_assets np_sqrt fill_pad d prices = Ok [] ->
      forall current_prices st,
        rebalance_pass np_sqrt fill_pad prices d current_prices st = Ok st).
Proof.
  split.
  - intros loc Hloc Hlt. unfold rank_assets. rewrite Hloc. cbn [bind].
    apply Nat.ltb_lt in Hlt. now rewrite Hlt.
  - intros Hempty cp st. unfold rebalance_pass.
    destruct (existsb (Z.eqb d) (rebalance_dates prices)); [|reflexivity].
    now rewrite Hempty.
Qed.

Lemma empty_allocation_leaves_holdings_witness :
  get_loc (trading_day 4) (index (one_ticker_table 95)) = Ok 4%nat
  /\ (4 < LOOKBACK_MOM)%nat
  /\ existsb (Z.eqb (trading_day 4)) (rebalance_dates (one_ticker_table 95))
     = true
  /\ rank_assets sqrt_down false (trading_day 4) (one_ticker_table 95) = Ok []
  /\ rebalance_pass sqrt_down false (one_ticker_table 95) (trading_day 4)
       [("TSLA"%string, Some 1)]
       (100, [("TSLA"%string, {| qty := 7; entry_price := 1 |})], 3)
     = Ok (100, [("TSLA"%string, {| qty := 7; entry_price := 1 |})], 3).
Proof.
  assert (H1 : get_loc (trading_day 4) (index (one_ticker_table 95))
               = Ok 4%nat) by (vm_compute; reflexivity).
  assert (H2 : (4 < LOOKBACK_MOM)%nat) by (unfold LOOKBACK_MOM; lia).
  pose proof (empty_allocation_leaves_holdings sqrt_down false
                (one_ticker_table 95) (trading_day 4)) as [Ha Hb].
  pose proof (Ha 4%nat H1 H2) as H3.
  split; [exact H1|]. split; [exact H2|].
  split; [vm_compute; reflexivity|]. split; [exact H3|].
  exact (Hb H3 _ _).
Defined.

(** C10: a date outside the index makes the ranker raise [KeyError]; a
    date of the index never does, and on a table whose prices are
    positive the main loop, which reads its dates from the index, runs
    to the end without raising. *)
Theorem ranker_key_error_unreachable (np_sqrt : Q -> Q) (fill_pad : bool)
    (prices : DataFrame) :
  (forall d, ~ In d (index prices) ->
             rank_assets np_sqrt fill_pad d prices = Raise KeyError)
  /\ (forall d, In d (index prices) ->
                exists w, rank_assets np_sqrt fill_pad d prices = Ok w)
  /\ (positive_prices prices = true ->
      forall dates st, incl dates (index prices) ->
        exists st', run np_sqrt fill_pad prices dates st = Ok st')
  /\ (positive_prices prices = true ->
      (LOOKBACK_MOM < length (index prices))%nat ->
      exists st, backtest np_sqrt fill_pad prices = Ok st).
Proof.
  split; [|split; [|split]].
  - intros d Hout. unfold rank_assets.
    now rewrite (get_loc_not_In _ _ Hout).
  - intros d Hin. now apply rank_assets_total.
  - intros _ dates st Hincl. now apply run_total.
  - intros _. apply backtest_total.
Qed.

Lemma ranker_key_error_unreachable_witness :
  ~ In 0%Z (index (one_ticker_table 95))
  /\ rank_assets sqrt_down false 0%Z (one_ticker_table 95) = Raise KeyError
  /\ In (trading_day 94) (index (one_ticker_table 95))
  /\ (exists w,
        rank_assets sqrt_down false (trading_day 94) (one_ticker_table 95)
        = Ok w)
  /\ positive_prices (one_ticker_table 95) = true
  /\ (LOOKBACK_MOM < length (index (one_ticker_table 95)))%nat
  /\ (exists st, backtest sqrt_down false (one_ticker_table 95) = Ok st).
Proof.
  pose proof (ranker_key_error_unreachable sqrt_down false
                (one_ticker_table 95)) as [Ha [Hb [_ Hd]]].
  assert (H0 : positive_prices (one_ticker_table 95) = true)
    by (vm_compute; reflexivity).
  assert (H1 : ~ In 0%Z (index (one_ticker_table 95))).
  { intro H. vm_compute in H.
    repeat (destruct H as [H|H]; [discriminate H|]). exact H. }
  assert (H2 : In (trading_day 94) (index (one_ticker_table 95))).
  { apply (get_loc_Ok _ _ 94%nat). vm_compute. reflexivity. }
  assert (H3 : (LOOKBACK_MOM < length (index (one_ticker_table 95)))%nat).
  { vm_compute. lia. }
  split; [exact H1|]. split; [exact (Ha _ H1)|]. split; [exact H2|].
  split; [exact (Hb _ H2)|]. split; [exact H0|].
  split; [exact H3 | exact (Hd H0 H3)].
Defined.

(* ------------------------------------------------------------------ *)
(** ** Prices read from a row *)

Lemma loc_row_positive (prices : DataFrame) (d : date)
    (current_prices : Series) :
  positive_prices prices = true ->
  loc_row prices d = Ok current_prices ->
  row_positive current_prices.
Proof.
  intros Hpos Hrow t p Hp. unfold loc_row in Hrow.
  destruct (get_loc d (index prices)) as [i|]; [|discriminate].
  cbn [bind] in Hrow. injection Hrow as <-.
  unfold price_of in Hp.
  destruct (dict_get _ t) as [[p'|]|] eqn:E; try discriminate.
  injection Hp as ->. apply dict_get_In in E. apply in_combine_r in E.
  unfold positive_prices in Hpos. rewrite forallb_forall in Hpos.
  destruct (nth_in_or_default i (values prices) []) as [Hin|Hnil].
  - specialize (Hpos _ Hin). rewrite forallb_forall in Hpos.
    specialize (Hpos _ E). now apply Qlt_bool_iff.
  - rewrite Hnil in E. destruct E.
Qed.

Lemma sale_value_nonneg (q : Z) (p : Q) :
  (0 <= q)%Z -> 0 < p -> 0 <= inject_Z q * p.
Proof.
  intros Hq Hp. apply Qmult_le_0_compat.
  - change 0 with (inject_Z 0). now rewrite <- Zle_Qle.
  - now apply Qlt_le_weak.
Qed.

(* ------------------------------------------------------------------ *)
(** ** Deleting the stopped positions *)

Lemma dict_del_In {V} (d : dict V) (k : string) (x : string * V) :
  In x (dict_del d k) -> In x d.
Proof.
  induction d as [|[k' v'] d IH]; simpl; [tauto|].
  destruct (String.eqb k k'); [now right|].
  intros [H|H]; [now left | right; now apply IH].
Qed.

Lemma fold_dict_del_In {V} (ks : list string) (d : dict V)
    (x : string * V) :
  In x (fold_left dict_del ks d) -> In x d.
Proof.
  revert d. induction ks as [|k ks IH]; intros d; simpl; [tauto|].
  intro H. apply IH in H. now apply dict_del_In in H.
Qed.

Lemma dict_del_keys_NoDup {V} (d : dict V) (k : string) :
  NoDup (dict_keys d) -> NoDup (dict_keys (dict_del d k)).
Proof.
  induction d as [|[k' v'] d IH]; simpl; [constructor|].
  intro Hnd. inversion Hnd as [|? ? Hnotin Hnd']; subst.
  destruct (String.eqb k k'); [exact Hnd'|].
  simpl. constructor; [|now apply IH].
  intro Hin. apply Hnotin. unfold dict_keys in *.
  apply in_map_iff in Hin. destruct Hin as [x [Hx Hin]].
  apply dict_del_In in Hin. apply in_map_iff. now exists x.
Qed.

Lemma dict_get_del {V} (d : dict V) (k k' : string) :
  NoDup (dict_keys d) ->
  dict_get (dict_del d k) k' =
  if String.eqb k' k then None else dict_get d k'.
Proof.
  induction d as [|[k0 v0] d IH]; simpl.
  - destruct (String.eqb k' k); reflexivity.
  - intro Hnd. inversion Hnd as [|? ? Hnotin Hnd']; subst.
    destruct (String.eqb k k0) eqn:E.
    + apply String.eqb_eq in E. subst k0.
      destruct (String.eqb k' k) eqn:E'; [|reflexivity].
      apply String.eqb_eq in E'. subst k'.
      now apply dict_get_None_keys.
    + simpl. destruct (String.eqb k' k0) eqn:E0.
      * apply String.eqb_eq in E0. subst k0.
        rewrite String.eqb_sym, E. reflexivity.
      * now apply IH.
Qed.

Lemma dict_get_fold_del {V} (ks : list string) (d : dict V) (k : string) :
  NoDup (dict_keys d) ->
  dict_get (fold_left dict_del ks d) k =
  if existsb (String.eqb k) ks then None else dict_get d k.
Proof.
  revert d. induction ks as [|k0 ks IH]; intros d Hnd; simpl; [reflexivity|].
  rewrite IH by now apply dict_del_keys_NoDup.
  rewrite dict_get_del by assumption.
  destruct (String.eqb k k0); simpl; [|reflexivity].
  destruct (existsb (String.eqb k) ks); reflexivity.
Qed.

(* ------------------------------------------------------------------ *)
(** ** The stop-loss pass *)

Lemma stop_loss_check_hit (current_prices : Series) (c tc : Q)
    (so : list ticker) (t : ticker) (pos : Position) (p : Q) :
  price_of current_prices t = Some p ->
  stop_loss_hit pos p ->
  stop_loss_check current_prices (c, tc, so) (t, pos)
  = (c + net_proceeds pos p,
     tc + calc_commission (inject_Z (qty pos) * p),
     so ++ [t]).
Proof.
  intros Hp Hhit. unfold stop_loss_check, net_proceeds. cbn [fst snd].
  rewrite Hp. apply Qle_bool_iff in Hhit. now rewrite Hhit.
Qed.

Lemma stop_loss_fold (current_prices : Series) (h : dict Position)
    (c tc : Q) (so : list ticker) :
  exists c' tc',
    fold_left (stop_loss_check current_prices) h (c, tc, so)
    = (c', tc', so ++ map fst (filter (stopped current_prices) h))
    /\ c' == c + Qsum (map (stop_loss_credit current_prices) h)
    /\ (row_positive current_prices ->
        Forall (fun item : ticker * Position => (0 <= qty (snd item))%Z) h ->
        tc <= tc' /\ c + tc <= c' + tc').
Proof.
  revert c tc so. induction h as [|[t pos] h IH]; intros c tc so.
  - exists c, tc. cbn [fold_left filter map]. rewrite app_nil_r.
    split; [reflexivity|].
    split; [rewrite Qsum_nil; ring | intros; split; apply Qle_refl].
  - cbn [fold_left map filter].
    assert (Hcases :
      (exists p, price_of current_prices t = Some p
                 /\ stopped current_prices (t, pos) = true
                 /\ stop_loss_credit current_prices (t, pos)
                    = net_proceeds pos p
                 /\ stop_loss_check current_prices (c, tc, so) (t, pos)
                    = (c + net_proceeds pos p,
                       tc + calc_commission (inject_Z (qty pos) * p),
                       so ++ [t]))
      \/ (stopped current_prices (t, pos) = false
          /\ stop_loss_credit current_prices (t, pos) = 0
          /\ stop_loss_check current_prices (c, tc, so) (t, pos)
             = (c, tc, so))).
    { unfold stop_loss_check, stop_loss_credit, stopped, net_proceeds.
      cbn [fst snd].
      destruct (price_of current_prices t) as [p|]; [|right; auto].
      destruct (Qle_bool ((p - entry_price pos) / entry_price pos)
                  STOP_LOSS_PCT); [left; exists p; auto | right; auto]. }
    destruct Hcases as [[p [Hp [-> [Hcredit ->]]]]|[-> [Hcredit ->]]].
    + destruct (IH (c + net_proceeds pos p)
                   (tc + calc_commission (inject_Z (qty pos) * p))
                   (so ++ [t])) as [c' [tc' [Hfold [Hc Hsolv]]]].
      exists c', tc'. rewrite Hfold. cbn [map]. rewrite <- app_assoc.
      split; [reflexivity|]. split.
      * rewrite Hc, Qsum_cons, Hcredit. ring.
      * intros Hrow Hq. inversion Hq as [|? ? Hq0 Hq']; subst.
        destruct (Hsolv Hrow Hq') as [H1 H2]. cbn [snd] in Hq0.
        pose proof (calc_commission_nonneg (inject_Z (qty pos) * p)).
        pose proof (sale_value_nonneg _ _ Hq0 (Hrow _ _ Hp)).
        unfold net_proceeds in H2. split; lra.
    + destruct (IH c tc so) as [c' [tc' [Hfold [Hc Hsolv]]]].
      exists c', tc'. rewrite Hfold. split; [reflexivity|]. split.
      * rewrite Hc, Qsum_cons, Hcredit. ring.
      * intros Hrow Hq. inversion Hq; subst. now apply Hsolv.
Qed.

Lemma stop_loss_pass_spec (current_prices : Series) (c tc : Q)
    (h : dict Position) :
  exists c' tc',
    stop_loss_pass current_prices (c, h, tc)
    = (c',
       fold_left dict_del (map fst (filter (stopped current_prices) h)) h,
       tc')
    /\ c' == c + Qsum (map (stop_loss_credit current_prices) h)
    /\ (row_positive current_prices ->
        Forall (fun item : ticker * Position => (0 <= qty (snd item))%Z) h ->
        tc <= tc' /\ c + tc <= c' + tc').
Proof.
  destruct (stop_loss_fold current_prices h c tc [])
    as [c' [tc' [Hfold H]]].
  exists c', tc'. unfold stop_loss_pass. rewrite Hfold. cbn [app].
  split; [reflexivity | exact H].
Qed.


Lemma stopped_hit (current_prices : Series) (t : ticker) (pos : Position)
    (p : Q) :
  price_of current_prices t = Some p ->
  (stopped current_prices (t, pos) = true <-> stop_loss_hit pos p).
Proof.
  intro Hp. unfold stopped, stop_loss_hit. cbn [fst snd]. rewrite Hp.
  apply Qle_bool_iff.
Qed.

Lemma only_credit (current_prices : Series) (h : dict Position)
    (t : ticker) (pos : Position) :
  NoDup (dict_keys h) ->
  In (t, pos) h ->
  (forall item, In item h -> item <> (t, pos) ->
                stopped current_prices item = false) ->
  Qsum (map (stop_loss_credit current_prices) h)
  == stop_loss_credit current_prices (t, pos).
Proof.
  assert (Hzero : forall l : dict Position,
            (forall item, In item l -> stopped current_prices item = false) ->
            Qsum (map (stop_loss_credit current_prices) l) == 0).
  { induction l as [|x l IHl]; intro Hl; [reflexivity|].
    cbn [map]. rewrite Qsum_cons, IHl by (intros; apply Hl; now right).
    unfold stop_loss_credit.
    destruct (price_of _ _); [rewrite (Hl x) by now left|]; cbv iota; ring. }
  induction h as [|x h IH]; intros Hnd Hin Hothers; [destruct Hin|].
  cbn [map]. rewrite Qsum_cons.
  inversion Hnd as [|? ? Hnotin Hnd']; subst.
  destruct Hin as [->|Hin].
  - rewrite Hzero; [ring|]. intros item Hitem. apply Hothers; [now right|].
    intros ->. apply Hnotin. apply (in_map fst) in Hitem. exact Hitem.
  - rewrite IH; try assumption.
    + assert (Hx : stopped current_prices x = false).
      { apply Hothers; [now left|]. intros ->. apply Hnotin.
        apply (in_map fst) in Hin. exact Hin. }
      unfold stop_loss_credit at 1.
      destruct (price_of _ _); [rewrite Hx|]; cbv iota; ring.
    + intros item Hitem. apply Hothers. now right.
Qed.

(** C5: a held position with a price on the row and a return since entry
    of at most [STOP_LOSS_PCT] is sold by the stop-loss pass: its check
    credits cash with the sale value less its commission, the pass takes
    it out of the holdings and leaves the positions it does not stop, and
    the rebalance pass of the date starts from the state that results. *)
Theorem stop_loss_liquidates_position (current_prices : Series) (c tc : Q)
    (h : dict Position) (t : ticker) (pos : Position) (p : Q) :
  NoDup (dict_keys h) ->
  dict_get h t = Some pos ->
  price_of current_prices t = Some p ->
  stop_loss_hit pos p ->
  (forall c0 tc0 so,
     stop_loss_check current_prices (c0, tc0, so) (t, pos)
     = (c0 + (inject_Z (qty pos) * p
              - calc_commission (inject_Z (qty pos) * p)),
        tc0 + calc_commission (inject_Z (qty pos) * p),
        so ++ [t]))
  /\ (exists c' h' tc',
        stop_loss_pass current_prices (c, h, tc) = (c', h', tc')
        /\ dict_get h' t = None
        /\ (forall t' pos',
              dict_get h t' = Some pos' ->
              stopped current_prices (t', pos') = false ->
              dict_get h' t' = Some pos')
        /\ c' == c + Qsum (map (stop_loss_credit current_prices) h)
        /\ stop_loss_credit current_prices (t, pos)
           == inject_Z (qty pos) * p
              - calc_commission (inject_Z (qty pos) * p)
        /\ ((forall item, In item h -> item <> (t, pos) ->
                          stopped current_prices item = false) ->
            c' == c + (inject_Z (qty pos) * p
                       - calc_commission (inject_Z (qty pos) * p))))
  /\ (forall np_sqrt fill_pad prices st d st',
        step np_sqrt fill_pad prices st d = Ok st' ->
        exists row,
          loc_row prices d = Ok row
          /\ rebalance_pass np_sqrt fill_pad prices d row
               (stop_loss_pass row
                  (cash st, holdings st, total_commissions st))
             = Ok (cash st', holdings st', total_commissions st')).
Proof.
  intros Hnd Hget Hp Hhit.
  pose proof (dict_get_In _ _ _ Hget) as Hin.
  pose proof (proj2 (stopped_hit _ _ _ _ Hp) Hhit) as Hstopped.
  assert (Hcredit : stop_loss_credit current_prices (t, pos)
                    = net_proceeds pos p).
  { unfold stop_loss_credit. cbn [fst snd]. now rewrite Hp, Hstopped. }
  split; [|split].
  - intros c0 tc0 so. now apply stop_loss_check_hit.
  - destruct (stop_loss_pass_spec current_prices c tc h)
      as [c' [tc' [Hpass [Hc _]]]].
    eexists c', _, tc'. split; [exact Hpass|].
    split; [|split; [|split; [|split]]].
    + rewrite dict_get_fold_del by assumption.
      replace (existsb (String.eqb t)
                 (map fst (filter (stopped current_prices) h)))
        with true; [reflexivity|].
      symmetry. apply existsb_exists. exists t.
      split; [|apply String.eqb_refl].
      apply in_map_iff. exists (t, pos). split; [reflexivity|].
      apply filter_In. now split.
    + intros t' pos' Hget' Hnot. rewrite dict_get_fold_del by assumption.
      destruct (existsb (String.eqb t')
                  (map fst (filter (stopped current_prices) h))) eqn:E;
        [|exact Hget'].
      apply existsb_exists in E. destruct E as [k [Hk Heq]].
      apply String.eqb_eq in Heq. subst k.
      apply in_map_iff in Hk. destruct Hk as [[k pos''] [Hfst Hf]].
      cbn [fst] in Hfst. subst k. apply filter_In in Hf.
      destruct Hf as [Hin'' Hst].
      apply (dict_In_get _ _ _ Hnd) in Hin''.
      pose proof (eq_trans (eq_sym Hin'') Hget') as Hsame.
      injection Hsame as ->. exfalso.
      exact (eq_true_false_abs _ Hst Hnot).
    + exact Hc.
    + rewrite Hcredit. reflexivity.
    + intro Honly. rewrite Hc.
      rewrite (only_credit _ _ _ _ Hnd Hin Honly), Hcredit.
      reflexivity.
  - intros np_sqrt fill_pad prices st d st'. unfold step.
    destruct (loc_row prices d) as [row|]; [|discriminate].
    cbn [bind].
    destruct (rebalance_pass np_sqrt fill_pad prices d row _)
      as [[[c2 h2] tc2]|] eqn:Hpass; [|discriminate].
    cbn [bind]. intro H. injection H as <-. exists row.
    split; [reflexivity | exact Hpass].
Qed.

Lemma stop_loss_liquidates_position_witness :
  let row : Series := [("TSLA"%string, Some 90)] in
  let pos := {| qty := 10; entry_price := 100 |} in
  let h : dict Position := [("TSLA"%string, pos)] in
  NoDup (dict_keys h)
  /\ dict_get h "TSLA"%string = Some pos
  /\ price_of row "TSLA"%string = Some 90
  /\ stop_loss_hit pos 90
  /\ exists c' h' tc',
       stop_loss_pass row (1000, h, 0) = (c', h', tc')
       /\ dict_get h' "TSLA"%string = None
       /\ c' == 1000 + (inject_Z 10 * 90 - calc_commission (inject_Z 10 * 90)).
Proof.
  intros row pos h.
  assert (H1 : NoDup (dict_keys h)).
  { apply distinct_NoDup. reflexivity. }
  assert (H2 : dict_get h "TSLA"%string = Some pos) by reflexivity.
  assert (H3 : price_of row "TSLA"%string = Some 90) by reflexivity.
  assert (H4 : stop_loss_hit pos 90) by (vm_compute; discriminate).
  split; [exact H1|]. split; [exact H2|]. split; [exact H3|].
  split; [exact H4|].
  destruct (stop_loss_liquidates_position row 1000 0 h "TSLA"%string pos 90
              H1 H2 H3 H4)
    as [_ [[c' [h' [tc' [Hpass [Hgone [_ [_ [_ Honly]]]]]]]] _]].
  exists c', h', tc'. split; [exact Hpass|]. split; [exact Hgone|].
  apply Honly. intros item [<-|[]] Hne. now elim Hne.
Defined.

(* ------------------------------------------------------------------ *)
(** ** The rebalance *)


(** Buying with nothing to spend buys nothing. *)
Lemma buy_fold_broke (current_prices : Series) (total_equity : Q)
    (ws : dict Q) (acc : Q * dict Position * Q) :
  row_positive current_prices ->
  total_equity <= 0 ->
  (forall x, In x ws -> 0 <= snd x) ->
  fold_left (buy_one current_prices total_equity) ws acc = acc.
Proof.
  intros Hrow HE. revert acc.
  induction ws as [|[t w] ws IH]; intros acc Hw; [reflexivity|].
  cbn [fold_left].
  replace (buy_one current_prices total_equity acc (t, w)) with acc.
  { apply IH. intros x Hx. apply Hw. now right. }
  destruct acc as [[c h] tc]. unfold buy_one. cbn [fst snd].
  destruct (price_of current_prices t) as [p|] eqn:Hp; [|reflexivity].
  assert (Hw0 : 0 <= w) by (apply (Hw (t, w)); now left).
  assert (Hp0 : 0 < p) by (apply (Hrow _ _ Hp)).
  assert (Hdiv : total_equity * w / p <= 0).
  { apply Qle_shift_div_r; [exact Hp0|]. rewrite Qmult_0_l.
    setoid_replace (total_equity * w) with (- ((- total_equity) * w))
      by ring.
    assert (0 <= (- total_equity) * w)
      by (apply Qmult_le_0_compat; [lra | exact Hw0]).
    lra. }
  apply Qfloor_resp_le in Hdiv. change (Qfloor 0) with 0%Z in Hdiv.
  destruct (0 <? Qfloor (total_equity * w / p))%Z eqn:E; [|reflexivity].
  apply Z.ltb_lt in E. lia.
Qed.


Lemma rank_assets_weights (np_sqrt : Q -> Q) (fill_pad : bool) (d : date)
    (prices : DataFrame) (w : dict Q) :
  rank_assets np_sqrt fill_pad d prices = Ok w ->
  (forall x, In x w -> 0 <= snd x) /\ Qsum (dict_values w) <= 1.
Proof.
  intro H.
  destruct (rank_assets_cases _ _ _ _ _ H) as [loc [_ [[_ ->]|[_ Hsel]]]].
  - split; [intros x [] | discriminate].
  - destruct Hsel as [selected [Hsel ->]].
    destruct (select_sound _ _ Hsel) as [_ [_ Hincl]].
    assert (Hpos : forall x, In x (dict_values selected) -> 0 < x).
    { intros x Hx. unfold dict_values in Hx. apply in_map_iff in Hx.
      destruct Hx as [[t s] [<- Hin]]. apply Hincl in Hin.
      now apply sorted_score_In in Hin. }
    destruct selected as [|ts selected]; [split; [intros x [] | discriminate]|].
    assert (HT : 0 < Qsum (dict_values (ts :: selected)))
      by (apply Qsum_positive; [discriminate | exact Hpos]).
    split.
    + intros x Hx. unfold normalise in Hx. apply in_map_iff in Hx.
      destruct Hx as [[t s] [<- Hin]]. cbn [fst snd].
      apply Qle_shift_div_l; [exact HT|]. rewrite Qmult_0_l.
      apply Qlt_le_weak. apply Hpos. unfold dict_values.
      apply in_map_iff. now exists (t, s).
    + rewrite normalise_values, Qsum_scaled. unfold Qdiv.
      rewrite Qmult_inv_r; [apply Qle_refl|].
      intro E. rewrite E in HT. apply (Qlt_irrefl _ HT).
Qed.


Section Solvency.

Variable np_sqrt : Q -> Q.
Variable fill_pad : bool.
Variable prices : DataFrame.
Hypothesis prices_positive : positive_prices prices = true.



End Solvency.





(* ------------------------------------------------------------------ *)
(** ** Positions without a price at a rebalance *)

Lemma buy_fold_untouched (current_prices : Series) (total_equity : Q)
    (ws : dict Q) (acc : Q * dict Position * Q) (t : ticker) :
  price_of current_prices t = None ->
  dict_get
    (snd (fst (fold_left (buy_one current_prices total_equity) ws acc))) t
  = dict_get (snd (fst acc)) t.
Proof.
  intro Hnone. revert acc.
  induction ws as [|[t' w] ws IH]; intro acc; [reflexivity|].
  cbn [fold_left]. rewrite IH. destruct acc as [[c h] tc].
  unfold buy_one. cbn [fst snd].
  destruct (price_of current_prices t') as [p|] eqn:Hp; [|reflexivity].
  destruct (0 <? Qfloor (total_equity * w / p))%Z; [|reflexivity].
  cbn [fst snd]. rewrite dict_get_set.
  destruct (String.eqb t t') eqn:E; [|reflexivity].
  apply String.eqb_eq in E. subst t'. congruence.
Qed.

(** C1 fails on the code.  At a rebalance with a non-empty allocation the
    sale loop passes over a held ticker that has no price, crediting
    nothing for it, and the holdings are then reset to the empty
    dictionary: the position is gone after the rebalance pass. *)
Theorem rebalance_drops_unpriced_position (np_sqrt : Q -> Q)
    (fill_pad : bool) (prices : DataFrame) (d : date) (row : Series)
    (w : dict Q) (c tc : Q) (h : dict Position) (t : ticker)
    (pos : Position) :
  existsb (Z.eqb d) (rebalance_dates prices) = true ->
  rank_assets np_sqrt fill_pad d prices = Ok w ->
  w <> [] ->
  dict_get h t = Some pos ->
  price_of row t = None ->
  (forall c0 tc0, sell_one row (c0, tc0) (t, pos) = (c0, tc0))
  /\ exists c' h' tc',
       rebalance_pass np_sqrt fill_pad prices d row (c, h, tc)
       = Ok (c', h', tc')
       /\ dict_get h' t = None.
Proof.
  intros Hday Hw Hne _ Hnone. split.
  - intros c0 tc0. unfold sell_one. cbn [fst]. now rewrite Hnone.
  - unfold rebalance_pass. rewrite Hday, Hw. cbn [bind].
    destruct w as [|x w]; [now elim Hne|].
    unfold rebalance.
    destruct (fold_left (sell_one row) h (c, tc)) as [c1 tc1]. cbv zeta.
    match goal with
    | |- context [fold_left (buy_one row c1) ?ws ?acc] =>
        pose proof (buy_fold_untouched row c1 ws acc t Hnone) as Hkeep;
        destruct (fold_left (buy_one row c1) ws acc) as [[c' h'] tc']
    end.
    exists c', h', tc'. split; [reflexivity | exact Hkeep].
Qed.

Lemma rebalance_drops_unpriced_position_witness :
  (st0 <- initial_state (two_ticker_table 100) ;;
   run sqrt_down false (two_ticker_table 100)
     (firstn 9 (skipn LOOKBACK_MOM (index (two_ticker_table 100)))) st0)
  = Ok two_ticker_held
  /\ loc_row (two_ticker_table 100) (trading_day 99) = Ok two_ticker_last_row
  /\ stop_loss_pass two_ticker_last_row
       (cash two_ticker_held, holdings two_ticker_held,
        total_commissions two_ticker_held)
     = (cash two_ticker_held, holdings two_ticker_held,
        total_commissions two_ticker_held)
  /\ existsb (Z.eqb (trading_day 99)) (rebalance_dates (two_ticker_table 100))
     = true
  /\ rank_assets sqrt_down false (trading_day 99) (two_ticker_table 100)
     = Ok two_ticker_allocation
  /\ two_ticker_allocation <> []
  /\ dict_get (holdings two_ticker_held) "NVDA"%string
     = Some {| qty := 25000; entry_price := 2 |}
  /\ price_of two_ticker_last_row "NVDA"%string = None
  /\ exists c' h' tc',
       rebalance_pass sqrt_down false (two_ticker_table 100) (trading_day 99)
         two_ticker_last_row
         (cash two_ticker_held, holdings two_ticker_held,
          total_commissions two_ticker_held)
       = Ok (c', h', tc')
       /\ dict_get h' "NVDA"%string = None.
Proof.
  assert (H1 : existsb (Z.eqb (trading_day 99))
                 (rebalance_dates (two_ticker_table 100)) = true)
    by (vm_compute; reflexivity).
  assert (H2 : rank_assets sqrt_down false (trading_day 99)
                 (two_ticker_table 100) = Ok two_ticker_allocation)
    by (vm_compute; reflexivity).
  assert (H3 : two_ticker_allocation <> []) by discriminate.
  assert (H4 : dict_get (holdings two_ticker_held) "NVDA"%string
               = Some {| qty := 25000; entry_price := 2 |})
    by (vm_compute; reflexivity).
  assert (H5 : price_of two_ticker_last_row "NVDA"%string = None)
    by reflexivity.
  split; [vm_compute; reflexivity|]. split; [vm_compute; reflexivity|].
  split; [vm_compute; reflexivity|].
  split; [exact H1|]. split; [exact H2|]. split; [exact H3|].
  split; [exact H4|]. split; [exact H5|].
  exact (proj2 (rebalance_drops_unpriced_position sqrt_down false
                  (two_ticker_table 100) (trading_day 99)
                  two_ticker_last_row two_ticker_allocation
                  (cash two_ticker_held) (total_commissions two_ticker_held)
                  (holdings two_ticker_held) "NVDA"%string
                  {| qty := 25000; entry_price := 2 |} H1 H2 H3 H4 H5)).
Defined.

(* ------------------------------------------------------------------ *)
(** ** The value series *)

Lemma step_tracks (np_sqrt : Q -> Q) (fill_pad : bool) (prices : DataFrame)
    (st st' : State) (d : date) :
  step np_sqrt fill_pad prices st d = Ok st' ->
  dates_track st' = dates_track st ++ [d]
  /\ exists v, portfolio_value st' = portfolio_value st ++ [v].
Proof.
  unfold step. destruct (loc_row prices d) as [row|]; [|discriminate].
  cbn [bind].
  destruct (rebalance_pass np_sqrt fill_pad prices d row _)
    as [[[c2 h2] tc2]|]; [|discriminate].
  cbn [bind]. intro H. injection H as <-. cbn. eauto.
Qed.

Lemma run_tracks (np_sqrt : Q -> Q) (fill_pad : bool) (prices : DataFrame)
    (dates : list date) (st st' : State) :
  run np_sqrt fill_pad prices dates st = Ok st' ->
  dates_track st' = dates_track st ++ dates
  /\ exists vs,
       portfolio_value st' = portfolio_value st ++ vs
       /\ length vs = length dates.
Proof.
  revert st. induction dates as [|d dates IH]; intro st.
  - cbn [run]. intro H. injection H as <-. rewrite app_nil_r.
    split; [reflexivity|]. exists []. now rewrite app_nil_r.
  - cbn [run].
    destruct (step np_sqrt fill_pad prices st d) as [st1|] eqn:Hstep;
      [|discriminate].
    cbn [bind]. intro Hrun.
    destruct (step_tracks _ _ _ _ _ _ Hstep) as [Hd [v Hv]].
    destruct (IH _ Hrun) as [Hd' [vs [Hvs Hlen]]].
    split.
    + rewrite Hd', Hd, <- app_assoc. reflexivity.
    + exists (v :: vs). split.
      * rewrite Hvs, Hv, <- app_assoc. reflexivity.
      * simpl. now rewrite Hlen.
Qed.

Lemma skipn_nth_error {A} (l : list A) (n : nat) (x : A) :
  nth_error l n = Some x -> skipn n l = x :: skipn (S n) l.
Proof.
  revert n. induction l as [|y l IH]; intros [|n]; simpl; try discriminate.
  - intro H. now injection H as ->.
  - intro H. now apply IH.
Qed.

(** C2 fails on the code.  The series is seeded with the date of row
    [LOOKBACK_MOM], and the loop then starts on that same row: the first
    date is recorded twice, so the dates are not strictly increasing, and
    a table of N rows yields N - [LOOKBACK_MOM] + 1 entries.  The first
    value is the starting capital. *)
Theorem value_series_repeats_first_date (np_sqrt : Q -> Q)
    (fill_pad : bool) (prices : DataFrame) (st : State) :
  backtest np_sqrt fill_pad prices = Ok st ->
  exists d0 vs,
    nth_error (index prices) LOOKBACK_MOM = Some d0
    /\ dates_track st = d0 :: d0 :: skipn (S LOOKBACK_MOM) (index prices)
    /\ portfolio_value st = INITIAL_CAPITAL :: vs
    /\ length (dates_track st)
       = S (length (index prices) - LOOKBACK_MOM)
    /\ length (portfolio_value st)
       = S (length (index prices) - LOOKBACK_MOM)
    /\ increasing (dates_track st) = false.
Proof.
  unfold backtest, initial_state, index_at.
  destruct (nth_error (index prices) LOOKBACK_MOM) as [d0|] eqn:E;
    [|discriminate].
  cbn [bind]. intro Hrun.
  destruct (run_tracks _ _ _ _ _ _ Hrun) as [Hd [vs [Hvs Hlen]]].
  cbn [dates_track portfolio_value] in Hd, Hvs.
  exists d0, vs. split; [reflexivity|]. split.
  { rewrite Hd. rewrite (skipn_nth_error _ _ _ E). reflexivity. }
  split; [exact Hvs|]. split; [|split].
  - rewrite Hd. cbn [app length]. now rewrite length_skipn.
  - rewrite Hvs. cbn [app length]. now rewrite Hlen, length_skipn.
  - rewrite Hd, (skipn_nth_error _ _ _ E). cbn [app increasing].
    now rewrite Z.ltb_irrefl.
Qed.

Lemma value_series_repeats_first_date_witness :
  backtest sqrt_down false (one_ticker_table 95) = Ok one_ticker_final
  /\ length (index (one_ticker_table 95)) = 95%nat
  /\ dates_track one_ticker_final
     = [trading_day 90; trading_day 90; trading_day 91; trading_day 92;
        trading_day 93; trading_day 94]
  /\ exists d0 vs,
       nth_error (index (one_ticker_table 95)) LOOKBACK_MOM = Some d0
       /\ dates_track one_ticker_final
          = d0 :: d0 :: skipn (S LOOKBACK_MOM) (index (one_ticker_table 95))
       /\ portfolio_value one_ticker_final = INITIAL_CAPITAL :: vs
       /\ length (dates_track one_ticker_final)
          = S (length (index (one_ticker_table 95)) - LOOKBACK_MOM)
       /\ length (portfolio_value one_ticker_final)
          = S (length (index (one_ticker_table 95)) - LOOKBACK_MOM)
       /\ increasing (dates_track one_ticker_final) = false.
Proof.
  assert (H : backtest sqrt_down false (one_ticker_table 95)
              = Ok one_ticker_final) by (vm_compute; reflexivity).
  split; [exact H|]. split; [vm_compute; reflexivity|].
  split; [vm_compute; reflexivity|].
  exact (value_series_repeats_first_date sqrt_down false
           (one_ticker_table 95) one_ticker_final H).
Defined.

(* ================================================================== *)
(** * Further properties of the code *)

(* ------------------------------------------------------------------ *)
(** ** Commission model *)

(** X1: a commission is never negative and never above the percentage
    cap of the notional, so what is left of a trade of size |v| after
    commission is at least (1 - cap) |v|. *)
Theorem commission_within_cap (v : Q) :
  0 <= calc_commission v
  /\ calc_commission v <= Qabs v * MAX_COMMISSION_PCT
  /\ (1 - MAX_COMMISSION_PCT) * Qabs v <= Qabs v - calc_commission v.
Proof.
  pose proof (calc_commission_nonneg v) as H0.
  pose proof (calc_commission_le_cap v) as H1.
  split; [exact H0|]. split; [exact H1|]. lra.
Qed.

(** X2: once rate times notional reaches the floor, the commission is
    rate times notional: the cap does not bind there, the rate being
    below the cap percentage. *)
Theorem commission_is_rate_above_floor (v : Q) :
  MIN_COMMISSION <= Qabs v * COMMISSION_RATE ->
  calc_commission v == Qabs v * COMMISSION_RATE.
Proof.
  intro H. unfold calc_commission.
  rewrite (Q.max_l (Qabs v * COMMISSION_RATE) MIN_COMMISSION) by exact H.
  apply Q.min_l. pose proof (Qabs_nonneg v).
  unfold COMMISSION_RATE, MAX_COMMISSION_PCT. lra.
Qed.

Lemma commission_is_rate_above_floor_witness :
  MIN_COMMISSION <= Qabs 4000 * COMMISSION_RATE
  /\ calc_commission 4000 == Qabs 4000 * COMMISSION_RATE.
Proof.
  assert (H : MIN_COMMISSION <= Qabs 4000 * COMMISSION_RATE)
    by discriminate.
  split; [exact H | exact (commission_is_rate_above_floor 4000 H)].
Defined.

(** X3: the commission depends on the size of the trade only, not on
    its sign, and a larger trade never costs less. *)
Theorem commission_monotone_in_size (v1 v2 : Q) :
  Qabs v1 <= Qabs v2 ->
  calc_commission v1 <= calc_commission v2
  /\ calc_commission (- v1) == calc_commission v1.
Proof.
  intro H. split.
  - unfold calc_commission. apply Q.min_le_compat.
    + apply Q.max_le_compat_r.
      apply Qmult_le_compat_r; [exact H | discriminate].
    + apply Qmult_le_compat_r; [exact H | discriminate].
  - unfold calc_commission. rewrite Qabs_opp. reflexivity.
Qed.

Lemma commission_monotone_in_size_witness :
  Qabs (-100) <= Qabs 1000
  /\ calc_commission (-100) <= calc_commission 1000
  /\ calc_commission (- (-100)) == calc_commission (-100).
Proof.
  assert (H : Qabs (-100) <= Qabs 1000) by discriminate.
  split; [exact H | exact (commission_monotone_in_size (-100) 1000 H)].
Defined.

(* ------------------------------------------------------------------ *)
(** ** The catalogue loops *)

Lemma dict_get_after_listing (c : category) (ts : list ticker)
    (d : dict category) (t : ticker) :
  dict_get (fold_left (fun d t' => dict_set d t' c) ts d) t
  = if existsb (String.eqb t) ts then Some c else dict_get d t.
Proof.
  revert d. induction ts as [|t' ts IH]; intro d; [reflexivity|].
  cbn [fold_left existsb]. rewrite IH, dict_get_set.
  destruct (String.eqb t t'); cbn [orb]; [|reflexivity].
  destruct (existsb (String.eqb t) ts); reflexivity.
Qed.

Lemma dict_get_after_universe (universe : list (category * list ticker))
    (d : dict category) (t : ticker) :
  dict_get
    (fold_left
       (fun d (entry : category * list ticker) =>
          fold_left (fun d t' => dict_set d t' (fst entry)) (snd entry) d)
       universe d) t
  = match last_listing universe t with
    | Some c => Some c
    | None => dict_get d t
    end.
Proof.
  revert d. induction universe as [|entry universe IH]; intro d;
    [reflexivity|].
  cbn [fold_left last_listing]. rewrite IH.
  destruct (last_listing universe t); [reflexivity|].
  rewrite dict_get_after_listing.
  destruct (existsb (String.eqb t) (snd entry)); reflexivity.
Qed.

Lemma last_listing_lists (universe : list (category * list ticker))
    (t : ticker) (c : category) :
  last_listing universe t = Some c ->
  exists ts, In (c, ts) universe /\ In t ts.
Proof.
  induction universe as [|[c' ts] universe IH]; [discriminate|].
  cbn [last_listing fst snd].
  destruct (last_listing universe t) as [c0|].
  - intro H. destruct (IH H) as [ts' [Hin Ht]].
    exists ts'. split; [now right | exact Ht].
  - destruct (existsb (String.eqb t) ts) eqn:E; [|discriminate].
    intro H. injection H as <-. exists ts. split; [now left|].
    apply existsb_exists in E. destruct E as [t' [Hin Heq]].
    apply String.eqb_eq in Heq. now subst t'.
Qed.

Lemma last_listing_found (universe : list (category * list ticker))
    (t : ticker) (c : category) (ts : list ticker) :
  In (c, ts) universe -> In t ts -> last_listing universe t <> None.
Proof.
  induction universe as [|[c' ts'] universe IH]; [intros []|].
  cbn [last_listing fst snd]. intros [Heq|Hin] Ht.
  - injection Heq as -> ->.
    destruct (last_listing universe t); [discriminate|].
    replace (existsb (String.eqb t) ts) with true; [discriminate|].
    symmetry. apply existsb_exists. exists t.
    split; [exact Ht | apply String.eqb_refl].
  - specialize (IH Hin Ht).
    destruct (last_listing universe t); [discriminate | congruence].
Qed.

(** X4: the two nested loops that fill [TICKER_TO_CATEGORY] file every
    ticker under the last category that lists it, for any universe; in
    the universe of the script every listed ticker therefore has a
    category other than "Unknown", and that category lists it. *)
Theorem catalogue_keeps_last_listing :
  (forall universe t,
     dict_get (build_ticker_to_category universe) t
     = last_listing universe t)
  /\ TICKER_TO_CATEGORY = build_ticker_to_category UNIVERSE
  /\ (forall c ts t,
        In (c, ts) UNIVERSE -> In t ts ->
        String.eqb (category_of t) "Unknown" = false
        /\ exists ts', In (category_of t, ts') UNIVERSE /\ In t ts').
Proof.
  assert (Hgen : forall universe t,
            dict_get (build_ticker_to_category universe) t
            = last_listing universe t).
  { intros universe t. unfold build_ticker_to_category.
    rewrite dict_get_after_universe.
    destruct (last_listing universe t); reflexivity. }
  assert (Hbuild : TICKER_TO_CATEGORY = build_ticker_to_category UNIVERSE)
    by (vm_compute; reflexivity).
  split; [exact Hgen|]. split; [exact Hbuild|].
  intros c ts t Hin Ht.
  pose proof (last_listing_found UNIVERSE t c ts Hin Ht) as Hsome.
  unfold category_of, dict_get_default. rewrite Hbuild, Hgen.
  destruct (last_listing UNIVERSE t) as [c0|] eqn:E;
    [|exfalso; apply Hsome; reflexivity].
  destruct (last_listing_lists _ _ _ E) as [ts' [Hin' Ht']].
  split; [|exists ts'; split; assumption].
  assert (Hcats : forallb (fun e : category * list ticker =>
                             negb (String.eqb (fst e) "Unknown"))
                    UNIVERSE = true) by (vm_compute; reflexivity).
  rewrite forallb_forall in Hcats. specialize (Hcats _ Hin').
  cbn [fst] in Hcats. apply negb_true_iff in Hcats. exact Hcats.
Qed.

Lemma catalogue_keeps_last_listing_witness :
  In ("Crypto"%string,
      dict_get_default UNIVERSE "Crypto"%string []) UNIVERSE
  /\ In "BITO"%string (dict_get_default UNIVERSE "Crypto"%string [])
  /\ dict_get (build_ticker_to_category UNIVERSE) "BITO"%string
     = last_listing UNIVERSE "BITO"%string
  /\ category_of "BITO"%string = "Crypto"%string
  /\ String.eqb (category_of "BITO"%string) "Unknown" = false.
Proof.
  pose proof catalogue_keeps_last_listing as [Hgen [_ Hlisted]].
  assert (H1 : In ("Crypto"%string,
                   dict_get_default UNIVERSE "Crypto"%string []) UNIVERSE)
    by (vm_compute; tauto).
  assert (H2 : In "BITO"%string
                 (dict_get_default UNIVERSE "Crypto"%string []))
    by (vm_compute; tauto).
  split; [exact H1|]. split; [exact H2|].
  split; [exact (Hgen UNIVERSE "BITO"%string)|].
  split; [vm_compute; reflexivity|].
  exact (proj1 (Hlisted _ _ _ H1 H2)).
Defined.

(* ------------------------------------------------------------------ *)
(** ** What the ranker selects *)

Lemma dict_set_keys_In {V} (d : dict V) (k k' : string) (v : V) :
  In k' (dict_keys (dict_set d k v)) -> k' = k \/ In k' (dict_keys d).
Proof.
  unfold dict_keys. intro H. apply in_map_iff in H.
  destruct H as [[k0 v0] [Hk Hin]]. cbn [fst] in Hk. subst k0.
  destruct (dict_set_In _ _ _ _ Hin) as [Heq|Hin'].
  - left. congruence.
  - right. apply in_map_iff. now exists (k', v0).
Qed.

Lemma dict_set_keys_NoDup {V} (d : dict V) (k : string) (v : V) :
  NoDup (dict_keys d) -> NoDup (dict_keys (dict_set d k v)).
Proof.
  induction d as [|[k0 v0] d IH]; cbn [dict_set dict_keys map fst].
  - intros _. constructor; [intros [] | constructor].
  - intro Hnd. inversion Hnd as [|? ? Hnotin Hnd']; subst.
    destruct (String.eqb k k0) eqn:E; cbn [map fst].
    + constructor; assumption.
    + constructor; [|now apply IH].
      intro Hin. destruct (dict_set_keys_In _ _ _ _ Hin) as [Heq|Hin'].
      * subst k0. rewrite String.eqb_refl in E. discriminate E.
      * now apply Hnotin.
Qed.

Lemma select_loop_keys (P : ticker -> Prop) (todo sel cw r : dict Q) :
  NoDup (dict_keys sel) ->
  (forall t, In t (dict_keys sel) -> P t) ->
  (forall t s, In (t, s) todo ->
               String.eqb (category_of t) "Unknown" = false -> P t) ->
  select_loop todo sel cw = Ok r ->
  NoDup (dict_keys r) /\ forall t, In t (dict_keys r) -> P t.
Proof.
  revert sel cw.
  induction todo as [|[t s] todo IH]; intros sel cw Hnd Hsel Htodo.
  - cbn [select_loop]. intro H. injection H as <-. now split.
  - cbn [select_loop].
    destruct (TOP_N <=? length sel)%nat;
      [intro H; injection H as <-; now split|].
    assert (Htodo' : forall t' s', In (t', s') todo ->
              String.eqb (category_of t') "Unknown" = false -> P t')
      by (intros t' s' Hin; apply (Htodo t' s'); now right).
    cbv zeta.
    destruct (String.eqb (category_of t) "Unknown") eqn:Eu; [now apply IH|].
    destruct (dict_get cw (category_of t)) as [w|]; [|discriminate].
    destruct (Qlt_bool MAX_SECTOR_WEIGHT (w + 1 / Qnat TOP_N));
      [now apply IH|].
    apply IH; [now apply dict_set_keys_NoDup | | exact Htodo'].
    intros t' Hin. destruct (dict_set_keys_In _ _ _ _ Hin) as [->|Hin'].
    + apply (Htodo t s); [now left | exact Eu].
    + now apply Hsel.
Qed.

Lemma raw_score_columns (np_sqrt : Q -> Q) (fill_pad : bool)
    (prices : DataFrame) (loc : nat) (t : ticker) (s : Q) :
  In (t, s) (raw_score np_sqrt fill_pad prices loc) ->
  In t (columns prices).
Proof.
  unfold raw_score. rewrite dropna_In, in_map_iff.
  intros [t' [Heq Hvalid]]. injection Heq as -> _.
  apply filter_In in Hvalid. destruct Hvalid as [Hkey _].
  unfold dict_keys in Hkey. apply in_map_iff in Hkey.
  destruct Hkey as [[k v] [Hk Hin]]. cbn [fst] in Hk. subst k.
  apply filter_In in Hin. destruct Hin as [Hin _].
  apply (in_map fst) in Hin. cbn [fst] in Hin.
  change (In t (dict_keys (volatility_of np_sqrt fill_pad prices loc)))
    in Hin.
  unfold volatility_of in Hin. now rewrite reduce_columns_keys in Hin.
Qed.

(** X5: the tickers of an allocation are pairwise distinct, each is a
    column of the price table, and none is of the "Unknown" category. *)
Theorem allocation_tickers_known_columns (np_sqrt : Q -> Q)
    (fill_pad : bool) (d : date) (prices : DataFrame) (w : dict Q) :
  rank_assets np_sqrt fill_pad d prices = Ok w ->
  NoDup (dict_keys w)
  /\ forall t, In t (dict_keys w) ->
       In t (columns prices)
       /\ String.eqb (category_of t) "Unknown" = false.
Proof.
  intro H.
  destruct (rank_assets_cases _ _ _ _ _ H) as [loc [_ [[_ ->]|[_ Hsel]]]].
  - split; [constructor | intros t []].
  - destruct Hsel as [selected [Hsel ->]]. rewrite normalise_keys.
    unfold select in Hsel.
    refine (select_loop_keys
              (fun t => In t (columns prices)
                        /\ String.eqb (category_of t) "Unknown" = false)
              _ [] _ _ (NoDup_nil _) _ _ Hsel); [intros t []|].
    intros t s Hin Hknown. split; [|exact Hknown].
    apply sorted_score_In in Hin. destruct Hin as [_ Hraw].
    now apply raw_score_columns in Hraw.
Qed.

Lemma allocation_tickers_known_columns_witness :
  rank_assets sqrt_down false (trading_day 99) (two_ticker_table 100)
  = Ok two_ticker_allocation
  /\ dict_keys two_ticker_allocation = ["TSLA"%string; "NVDA"%string]
  /\ NoDup (dict_keys two_ticker_allocation)
  /\ forall t, In t (dict_keys two_ticker_allocation) ->
       In t (columns (two_ticker_table 100))
       /\ String.eqb (category_of t) "Unknown" = false.
Proof.
  assert (H : rank_assets sqrt_down false (trading_day 99)
                (two_ticker_table 100) = Ok two_ticker_allocation)
    by (vm_compute; reflexivity).
  split; [exact H|]. split; [reflexivity|].
  exact (allocation_tickers_known_columns sqrt_down false (trading_day 99)
           (two_ticker_table 100) two_ticker_allocation H).
Defined.

Lemma Qsum_member_le (l : list Q) (x : Q) :
  (forall y, In y l -> 0 < y) -> In x l -> x <= Qsum l.
Proof.
  induction l as [|y l IH]; intros Hpos Hin; [destruct Hin|].
  rewrite Qsum_cons.
  assert (Hrest : 0 <= Qsum l).
  { destruct l as [|z l]; [rewrite Qsum_nil; apply Qle_refl|].
    apply Qlt_le_weak. apply Qsum_positive; [discriminate|].
    intros u Hu. apply Hpos. now right. }
  destruct Hin as [->|Hin].
  - lra.
  - assert (0 < y) by (apply Hpos; now left).
    assert (x <= Qsum l).
    { apply IH; [|exact Hin]. intros u Hu. apply Hpos. now right. }
    lra.
Qed.

(** X6: on a table whose prices are positive, every weight of an
    allocation is strictly positive and at most 1. *)
Theorem allocation_weights_in_unit_interval (np_sqrt : Q -> Q)
    (fill_pad : bool) (d : date) (prices : DataFrame) (w : dict Q)
    (t : ticker) (x : Q) :
  positive_prices prices = true ->
  rank_assets np_sqrt fill_pad d prices = Ok w ->
  In (t, x) w ->
  0 < x /\ x <= 1.
Proof.
  intros _ H Hin.
  destruct (rank_assets_cases _ _ _ _ _ H) as [loc [_ [[_ ->]|[_ Hsel]]]];
    [destruct Hin|].
  destruct Hsel as [selected [Hsel ->]].
  destruct (select_sound _ _ Hsel) as [_ [_ Hincl]].
  assert (Hpos : forall y, In y (dict_values selected) -> 0 < y).
  { intros y Hy. unfold dict_values in Hy. apply in_map_iff in Hy.
    destruct Hy as [[t' s] [<- Hin']]. apply Hincl in Hin'.
    now apply sorted_score_In in Hin'. }
  unfold normalise in Hin. apply in_map_iff in Hin.
  destruct Hin as [[t' s] [Heq Hin]]. cbn [fst snd] in Heq.
  injection Heq as -> <-.
  assert (Hs : In s (dict_values selected)).
  { unfold dict_values. apply in_map_iff. now exists (t, s). }
  assert (HT : 0 < Qsum (dict_values selected)).
  { apply Qsum_positive; [|exact Hpos]. intro E. rewrite E in Hs.
    destruct Hs. }
  pose proof (Qsum_member_le _ _ Hpos Hs) as Hle.
  split.
  - apply Qlt_shift_div_l; [exact HT|]. rewrite Qmult_0_l. now apply Hpos.
  - apply Qle_shift_div_r; [exact HT|]. now rewrite Qmult_1_l.
Qed.

Lemma allocation_weights_in_unit_interval_witness :
  positive_prices (two_ticker_table 100) = true
  /\ rank_assets sqrt_down false (trading_day 99) (two_ticker_table 100)
     = Ok two_ticker_allocation
  /\ In (hd (""%string, 0) two_ticker_allocation) two_ticker_allocation
  /\ 0 < snd (hd (""%string, 0) two_ticker_allocation)
  /\ snd (hd (""%string, 0) two_ticker_allocation) <= 1.
Proof.
  assert (H1 : rank_assets sqrt_down false (trading_day 99)
                 (two_ticker_table 100) = Ok two_ticker_allocation)
    by (vm_compute; reflexivity).
  assert (H2 : In (hd (""%string, 0) two_ticker_allocation)
                 two_ticker_allocation) by (left; reflexivity).
  assert (H0 : positive_prices (two_ticker_table 100) = true)
    by (vm_compute; reflexivity).
  split; [exact H0|]. split; [exact H1|]. split; [exact H2|].
  exact (allocation_weights_in_unit_interval sqrt_down false
           (trading_day 99) (two_ticker_table 100) two_ticker_allocation
           (fst (hd (""%string, 0) two_ticker_allocation))
           (snd (hd (""%string, 0) two_ticker_allocation)) H0 H1 H2).
Defined.

(** X7: an allocation holds at most eight tickers of any one category:
    the ninth slot of 1/25 would lift the category above 0.35. *)
Theorem allocation_at_most_eight_per_category (np_sqrt : Q -> Q)
    (fill_pad : bool) (d : date) (prices : DataFrame) (w : dict Q)
    (cat : category) :
  rank_assets np_sqrt fill_pad d prices = Ok w ->
  (count_in_category cat (dict_keys w) <= 8)%nat.
Proof.
  intro H.
  destruct (rank_assets_cases _ _ _ _ _ H) as [loc [_ [[_ ->]|[_ Hsel]]]].
  - cbn. lia.
  - destruct Hsel as [selected [Hsel ->]]. rewrite normalise_keys.
    destruct (select_sound _ _ Hsel) as [Hcap _]. specialize (Hcap cat).
    set (n := count_in_category cat (dict_keys selected)) in *.
    unfold MAX_SECTOR_WEIGHT, Qdiv in Hcap.
    assert (Hq : Qnat n <= 35 # 4).
    { assert (E : Qnat n == Qnat n * / Qnat TOP_N * Qnat TOP_N)
        by (field; discriminate).
      rewrite E.
      apply Qle_trans with ((35 # 100) * Qnat TOP_N);
        [|discriminate].
      apply Qmult_le_compat_r; [exact Hcap | discriminate]. }
    unfold Qnat, Qle in Hq. cbn in Hq. lia.
Qed.

Lemma allocation_at_most_eight_per_category_witness :
  rank_assets sqrt_down false (trading_day 99) (two_ticker_table 100)
  = Ok two_ticker_allocation
  /\ count_in_category "Aggressive Growth"%string
       (dict_keys two_ticker_allocation) = 2%nat
  /\ (count_in_category "Aggressive Growth"%string
        (dict_keys two_ticker_allocation) <= 8)%nat.
Proof.
  assert (H : rank_assets sqrt_down false (trading_day 99)
                (two_ticker_table 100) = Ok two_ticker_allocation)
    by (vm_compute; reflexivity).
  split; [exact H|]. split; [vm_compute; reflexivity|].
  exact (allocation_at_most_eight_per_category sqrt_down false
           (trading_day 99) (two_ticker_table 100) two_ticker_allocation
           "Aggressive Growth"%string H).
Defined.

Lemma select_loop_keeps_selection (todo sel cw r : dict Q) :
  sel <> [] -> select_loop todo sel cw = Ok r -> r <> [].
Proof.
  revert sel cw. induction todo as [|[t s] todo IH]; intros sel cw Hne.
  - cbn [select_loop]. intro H. injection H as <-. exact Hne.
  - cbn [select_loop].
    destruct (TOP_N <=? length sel)%nat;
      [intro H; injection H as <-; exact Hne|].
    cbv zeta.
    destruct (String.eqb (category_of t) "Unknown"); [now apply IH|].
    destruct (dict_get cw (category_of t)) as [w|]; [|discriminate].
    destruct (Qlt_bool MAX_SECTOR_WEIGHT (w + 1 / Qnat TOP_N));
      [now apply IH|].
    apply IH. destruct sel as [|[k v] sel]; [now elim Hne|].
    cbn [dict_set]. destruct (String.eqb t k); discriminate.
Qed.

Lemma select_empty_iff (score : dict Q) :
  select score = Ok []
  <-> forall t s, In (t, s) score ->
                  String.eqb (category_of t) "Unknown" = true.
Proof.
  unfold select. induction score as [|[t s] score IH].
  - split; [intros _ t s [] | reflexivity].
  - cbn [select_loop length]. change (TOP_N <=? 0)%nat with false.
    cbv zeta.
    destruct (String.eqb (category_of t) "Unknown") eqn:Eu.
    + rewrite IH. split.
      * intros Hall t' s' [Heq|Hin]; [|now apply (Hall t' s')].
        injection Heq as <- _. exact Eu.
      * intros Hall t' s' Hin. apply (Hall t' s'). now right.
    + rewrite dict_get_zeroed.
      pose proof (category_of_listed t Eu) as Hin.
      replace (existsb (String.eqb (category_of t)) CATEGORY_LIST)
        with true.
      2:{ symmetry. apply existsb_exists. exists (category_of t).
          split; [exact Hin | apply String.eqb_refl]. }
      replace (Qlt_bool MAX_SECTOR_WEIGHT (0 + 1 / Qnat TOP_N))
        with false by reflexivity.
      split.
      * intro H. apply select_loop_keeps_selection in H;
          [now elim H | discriminate].
      * intro Hall. rewrite (Hall t s) in Eu by now left. discriminate Eu.
Qed.

(** X8: with enough history the ranker returns the empty allocation
    exactly when every ticker with a positive score is of the "Unknown"
    category: one positively scored ticker of a known category is
    enough for a selection, the sector cap never rejects the first. *)
Theorem empty_allocation_iff_no_known_candidate (np_sqrt : Q -> Q)
    (fill_pad : bool) (d : date) (prices : DataFrame) (loc : nat) :
  get_loc d (index prices) = Ok loc ->
  (LOOKBACK_MOM <= loc)%nat ->
  (rank_assets np_sqrt fill_pad d prices = Ok []
   <-> forall t s,
         In (t, s) (sorted_score np_sqrt fill_pad prices loc) ->
         String.eqb (category_of t) "Unknown" = true).
Proof.
  intros Hloc Hge. rewrite <- select_empty_iff.
  unfold rank_assets. rewrite Hloc. cbn [bind].
  apply Nat.ltb_ge in Hge. rewrite Hge.
  fold (sorted_score np_sqrt fill_pad prices loc).
  destruct (select (sorted_score np_sqrt fill_pad prices loc))
    as [selected|e]; cbn [bind].
  - destruct selected as [|x selected].
    + split; reflexivity.
    + split; intro H; discriminate H.
  - split; intro H; discriminate H.
Qed.

Lemma empty_allocation_iff_no_known_candidate_witness :
  get_loc (trading_day 94) (index (one_ticker_table 95)) = Ok 94%nat
  /\ (LOOKBACK_MOM <= 94)%nat
  /\ (rank_assets sqrt_down false (trading_day 94) (one_ticker_table 95)
      = Ok []
      <-> forall t s,
            In (t, s) (sorted_score sqrt_down false (one_ticker_table 95) 94) ->
            String.eqb (category_of t) "Unknown" = true).
Proof.
  assert (H1 : get_loc (trading_day 94) (index (one_ticker_table 95))
               = Ok 94%nat) by (vm_compute; reflexivity).
  assert (H2 : (LOOKBACK_MOM <= 94)%nat) by (unfold LOOKBACK_MOM; lia).
  split; [exact H1|]. split; [exact H2|].
  exact (empty_allocation_iff_no_known_candidate sqrt_down false
           (trading_day 94) (one_ticker_table 95) 94 H1 H2).
Defined.

(* ------------------------------------------------------------------ *)
(** ** The ranker reads no row below its date *)

Lemma get_loc_lt (d : date) (idx : list date) (n : nat) :
  get_loc d idx = Ok n -> (n < length idx)%nat.
Proof.
  revert n. induction idx as [|d' idx IH]; intro n; cbn [get_loc];
    [discriminate|].
  destruct (Z.eqb d d').
  - intro H. injection H as <-. cbn. lia.
  - destruct (get_loc d idx) as [m|]; [|discriminate].
    cbn [bind]. intro H. injection H as <-. specialize (IH m eq_refl).
    cbn. lia.
Qed.

Lemma get_loc_app (d : date) (idx more : list date) (n : nat) :
  get_loc d idx = Ok n -> get_loc d (idx ++ more) = Ok n.
Proof.
  revert n. induction idx as [|d' idx IH]; intro n; cbn [get_loc app];
    [discriminate|].
  destruct (Z.eqb d d'); [trivial|].
  destruct (get_loc d idx) as [m|]; [|discriminate].
  cbn [bind]. intro H. now rewrite (IH m eq_refl).
Qed.

Lemma iloc_app {A} (a b : nat) (l more : list A) :
  (b <= length l)%nat -> iloc a b (l ++ more) = iloc a b l.
Proof.
  intro Hb. unfold iloc. rewrite skipn_app, firstn_app, length_skipn.
  replace (b - a - (length l - a))%nat with O by lia.
  cbn [firstn]. apply app_nil_r.
Qed.

Lemma rank_assets_append_rows (np_sqrt : Q -> Q) (fill_pad : bool)
    (prices : DataFrame) (more_index : list date)
    (more_values : list (list (option Q))) (d : date) :
  length (values prices) = length (index prices) ->
  In d (index prices) ->
  rank_assets np_sqrt fill_pad d (append_rows prices more_index more_values)
  = rank_assets np_sqrt fill_pad d prices.
Proof.
  intros Hshape Hin. destruct (get_loc_In _ _ Hin) as [loc Hloc].
  pose proof (get_loc_lt _ _ _ Hloc) as Hlt.
  unfold rank_assets, raw_score, momentum_of, volatility_of.
  cbn [index columns values append_rows].
  rewrite (get_loc_app _ _ more_index _ Hloc), Hloc. cbn [bind].
  rewrite !iloc_app by lia. reflexivity.
Qed.

(** X9: the ranker has no look-ahead: on a table with one row of values
    per date, rows added below the table leave the result for every
    date of the table unchanged. *)
Theorem ranker_ignores_later_rows (np_sqrt : Q -> Q) (fill_pad : bool)
    (prices : DataFrame) (more_index : list date)
    (more_values : list (list (option Q))) (d : date) :
  length (values prices) = length (index prices) ->
  In d (index prices) ->
  rank_assets np_sqrt fill_pad d (append_rows prices more_index more_values)
  = rank_assets np_sqrt fill_pad d prices.
Proof.
  intros Hshape Hin. now apply rank_assets_append_rows.
Qed.

Lemma ranker_ignores_later_rows_witness :
  length (values (one_ticker_table 95)) = length (index (one_ticker_table 95))
  /\ In (trading_day 94) (index (one_ticker_table 95))
  /\ rank_assets sqrt_down false (trading_day 94)
       (append_rows (one_ticker_table 95) [trading_day 95] [[Some 7]])
     = rank_assets sqrt_down false (trading_day 94) (one_ticker_table 95).
Proof.
  assert (H1 : length (values (one_ticker_table 95))
               = length (index (one_ticker_table 95)))
    by (vm_compute; reflexivity).
  assert (H2 : In (trading_day 94) (index (one_ticker_table 95))).
  { apply (get_loc_Ok _ _ 94%nat). vm_compute. reflexivity. }
  split; [exact H1|]. split; [exact H2|].
  exact (ranker_ignores_later_rows sqrt_down false (one_ticker_table 95)
           [trading_day 95] [[Some 7]] (trading_day 94) H1 H2).
Defined.

(* ------------------------------------------------------------------ *)
(** ** What the stop-loss pass leaves *)

Lemma fold_dict_del_skip {V} (ks : list string) (k : string) (v : V)
    (d : dict V) :
  ~ In k ks ->
  fold_left dict_del ks ((k, v) :: d) = (k, v) :: fold_left dict_del ks d.
Proof.
  revert d. induction ks as [|k0 ks IH]; intros d Hout; [reflexivity|].
  cbn [fold_left dict_del].
  destruct (String.eqb k0 k) eqn:E.
  - apply String.eqb_eq in E. subst k0. exfalso. apply Hout. now left.
  - apply IH. intro Hin. apply Hout. now right.
Qed.

Lemma fold_dict_del_filter {V} (f : string * V -> bool) (d : dict V) :
  NoDup (dict_keys d) ->
  fold_left dict_del (map fst (filter f d)) d
  = filter (fun item => negb (f item)) d.
Proof.
  induction d as [|[k v] d IH]; [reflexivity|].
  intro Hnd. inversion Hnd as [|? ? Hnotin Hnd']; subst.
  cbn [filter]. destruct (f (k, v)) eqn:E; cbn [negb map fst].
  - cbn [fold_left dict_del]. rewrite String.eqb_refl. now apply IH.
  - rewrite fold_dict_del_skip; [now rewrite IH|].
    intro Hin. apply Hnotin. apply in_map_iff in Hin.
    destruct Hin as [x [Hx Hin]]. apply filter_In in Hin.
    apply in_map_iff. exists x. tauto.
Qed.

(** X10: on holdings with distinct tickers the stop-loss pass keeps
    exactly the positions its test does not stop, in their order: a
    position that stays and has a price is above the stop, and every
    position without a price stays. *)
Theorem stop_loss_pass_keeps_unstopped (current_prices : Series)
    (c tc : Q) (h : dict Position) :
  NoDup (dict_keys h) ->
  snd (fst (stop_loss_pass current_prices (c, h, tc)))
  = filter (fun item => negb (stopped current_prices item)) h
  /\ (forall t pos p,
        In (t, pos) (snd (fst (stop_loss_pass current_prices (c, h, tc)))) ->
        price_of current_prices t = Some p ->
        ~ stop_loss_hit pos p)
  /\ (forall t pos,
        In (t, pos) h -> price_of current_prices t = None ->
        In (t, pos) (snd (fst (stop_loss_pass current_prices (c, h, tc))))).
Proof.
  intro Hnd.
  destruct (stop_loss_pass_spec current_prices c tc h)
    as [c' [tc' [-> _]]].
  cbn [fst snd]. rewrite fold_dict_del_filter by exact Hnd.
  split; [reflexivity|]. split.
  - intros t pos p Hin Hp Hhit. apply filter_In in Hin.
    destruct Hin as [_ Hkeep]. apply negb_true_iff in Hkeep.
    apply (stopped_hit _ _ _ _ Hp) in Hhit.
    exact (eq_true_false_abs _ Hhit Hkeep).
  - intros t pos Hin Hnone. apply filter_In. split; [exact Hin|].
    unfold stopped. cbn [fst]. now rewrite Hnone.
Qed.

Lemma stop_loss_pass_keeps_unstopped_witness :
  let row : Series := [("TSLA"%string, Some 90); ("NVDA"%string, None)] in
  let h : dict Position :=
    [("TSLA"%string, {| qty := 10; entry_price := 100 |});
     ("NVDA"%string, {| qty := 5; entry_price := 40 |})] in
  NoDup (dict_keys h)
  /\ snd (fst (stop_loss_pass row (1000, h, 0)))
     = [("NVDA"%string, {| qty := 5; entry_price := 40 |})]
  /\ snd (fst (stop_loss_pass row (1000, h, 0)))
     = filter (fun item => negb (stopped row item)) h.
Proof.
  intros row h.
  assert (H : NoDup (dict_keys h)) by (apply distinct_NoDup; reflexivity).
  split; [exact H|]. split; [vm_compute; reflexivity|].
  exact (proj1 (stop_loss_pass_keeps_unstopped row 1000 0 h H)).
Defined.

(* ------------------------------------------------------------------ *)
(** ** Commissions only accumulate *)

Ltac commission_grows :=
  match goal with
  | |- _ <= _ + calc_commission ?v =>
      pose proof (calc_commission_nonneg v); lra
  end.

Lemma stop_loss_fold_commissions (current_prices : Series)
    (h : dict Position) (acc : Q * Q * list ticker) :
  snd (fst acc)
  <= snd (fst (fold_left (stop_loss_check current_prices) h acc)).
Proof.
  revert acc. induction h as [|item h IH]; intro acc; [apply Qle_refl|].
  cbn [fold_left]. eapply Qle_trans; [|apply IH].
  destruct acc as [[c tc] so]. unfold stop_loss_check. cbn [fst snd].
  destruct (price_of _ _) as [p|]; [|apply Qle_refl].
  destruct (Qle_bool _ STOP_LOSS_PCT); [|apply Qle_refl].
  cbn [fst snd]. commission_grows.
Qed.

Lemma sell_fold_commissions (current_prices : Series) (h : dict Position)
    (acc : Q * Q) :
  snd acc <= snd (fold_left (sell_one current_prices) h acc).
Proof.
  revert acc. induction h as [|item h IH]; intro acc; [apply Qle_refl|].
  cbn [fold_left]. eapply Qle_trans; [|apply IH].
  destruct acc as [c tc]. unfold sell_one. cbn [fst snd].
  destruct (price_of _ _) as [p|]; [|apply Qle_refl].
  cbn [snd]. commission_grows.
Qed.

Lemma buy_fold_commissions (current_prices : Series) (total_equity : Q)
    (ws : dict Q) (acc : Q * dict Position * Q) :
  snd acc <= snd (fold_left (buy_one current_prices total_equity) ws acc).
Proof.
  revert acc. induction ws as [|tw ws IH]; intro acc; [apply Qle_refl|].
  cbn [fold_left]. eapply Qle_trans; [|apply IH].
  destruct acc as [[c h] tc]. unfold buy_one. cbn [fst snd].
  destruct (price_of _ _) as [p|]; [|apply Qle_refl].
  destruct (0 <? Qfloor _)%Z; [|apply Qle_refl].
  cbn [snd]. commission_grows.
Qed.

Lemma stop_loss_pass_commissions (current_prices : Series)
    (st : Q * dict Position * Q) :
  snd st <= snd (stop_loss_pass current_prices st).
Proof.
  destruct st as [[c h] tc]. unfold stop_loss_pass.
  pose proof (stop_loss_fold_commissions current_prices h (c, tc, []))
    as H.
  destruct (fold_left (stop_loss_check current_prices) h (c, tc, []))
    as [[c' tc'] so].
  exact H.
Qed.

Lemma rebalance_commissions (current_prices : Series) (ws : dict Q)
    (st : Q * dict Position * Q) :
  snd st <= snd (rebalance current_prices ws st).
Proof.
  destruct st as [[c h] tc]. unfold rebalance.
  pose proof (sell_fold_commissions current_prices h (c, tc)) as H.
  destruct (fold_left (sell_one current_prices) h (c, tc)) as [c1 tc1].
  cbv zeta. eapply Qle_trans; [exact H|].
  apply (buy_fold_commissions current_prices c1 ws (c1, [], tc1)).
Qed.

Lemma step_commissions (np_sqrt : Q -> Q) (fill_pad : bool)
    (prices : DataFrame) (st st' : State) (d : date) :
  step np_sqrt fill_pad prices st d = Ok st' ->
  total_commissions st <= total_commissions st'.
Proof.
  unfold step. destruct (loc_row prices d) as [row|]; [|discriminate].
  cbn [bind].
  pose proof (stop_loss_pass_commissions row
                (cash st, holdings st, total_commissions st)) as H1.
  cbn [snd] in H1. unfold rebalance_pass.
  destruct (existsb (Z.eqb d) (rebalance_dates prices)).
  - destruct (rank_assets np_sqrt fill_pad d prices) as [w|];
      [|discriminate].
    cbn [bind]. destruct w as [|x w].
    + destruct (stop_loss_pass row _) as [[c1 h1] tc1].
      cbn [bind]. intro H. injection H as <-. exact H1.
    + pose proof (rebalance_commissions row (x :: w)
                    (stop_loss_pass row
                       (cash st, holdings st, total_commissions st)))
        as H2.
      destruct (rebalance row (x :: w) _) as [[c2 h2] tc2].
      cbn [bind]. intro H. injection H as <-. cbn [total_commissions].
      cbn [snd] in H2. eapply Qle_trans; [exact H1 | exact H2].
  - destruct (stop_loss_pass row _) as [[c1 h1] tc1].
    cbn [bind]. intro H. injection H as <-. exact H1.
Qed.

(** X11: the commission total never goes down: whatever the prices,
    the state after any run of dates carries at least the commissions
    of the state it started from. *)
Theorem commissions_never_decrease (np_sqrt : Q -> Q) (fill_pad : bool)
    (prices : DataFrame) (dates : list date) (st st' : State) :
  run np_sqrt fill_pad prices dates st = Ok st' ->
  total_commissions st <= total_commissions st'.
Proof.
  revert st. induction dates as [|d dates IH]; intro st.
  - cbn [run]. intro H. injection H as <-. apply Qle_refl.
  - cbn [run].
    destruct (step np_sqrt fill_pad prices st d) as [st1|] eqn:Hstep;
      [|discriminate].
    cbn [bind]. intro Hrun.
    eapply Qle_trans; [exact (step_commissions _ _ _ _ _ _ Hstep)|].
    now apply IH.
Qed.

Lemma commissions_never_decrease_witness :
  run sqrt_down false (one_ticker_table 95)
    (skipn LOOKBACK_MOM (index (one_ticker_table 95))) one_ticker_initial
  = Ok one_ticker_final
  /\ total_commissions one_ticker_initial
     <= total_commissions one_ticker_final.
Proof.
  assert (H : run sqrt_down false (one_ticker_table 95)
                (skipn LOOKBACK_MOM (index (one_ticker_table 95)))
                one_ticker_initial = Ok one_ticker_final)
    by (vm_compute; reflexivity).
  split; [exact H|].
  exact (commissions_never_decrease sqrt_down false (one_ticker_table 95)
           _ _ _ H).
Defined.

(* ------------------------------------------------------------------ *)
(** ** Positions the engine holds *)

Lemma fold_dict_del_keys_NoDup {V} (ks : list string) (d : dict V) :
  NoDup (dict_keys d) -> NoDup (dict_keys (fold_left dict_del ks d)).
Proof.
  revert d. induction ks as [|k ks IH]; intros d Hnd; [exact Hnd|].
  cbn [fold_left]. apply IH. now apply dict_del_keys_NoDup.
Qed.

Lemma stop_loss_pass_well_held (current_prices : Series)
    (st : Q * dict Position * Q) :
  well_held (snd (fst st)) ->
  well_held (snd (fst (stop_loss_pass current_prices st))).
Proof.
  destruct st as [[c h] tc]. intros [Hnd Hall].
  destruct (stop_loss_pass_spec current_prices c tc h)
    as [c' [tc' [-> _]]].
  cbn [fst snd]. split.
  - now apply fold_dict_del_keys_NoDup.
  - rewrite Forall_forall in Hall |- *. intros x Hx. apply Hall.
    now apply fold_dict_del_In in Hx.
Qed.

Lemma buy_fold_well_held (current_prices : Series) (total_equity : Q)
    (ws : dict Q) (acc : Q * dict Position * Q) :
  row_positive current_prices ->
  well_held (snd (fst acc)) ->
  well_held
    (snd (fst (fold_left (buy_one current_prices total_equity) ws acc))).
Proof.
  intro Hrow. revert acc.
  induction ws as [|tw ws IH]; intros acc Hacc; [exact Hacc|].
  cbn [fold_left]. apply IH.
  destruct acc as [[c h] tc]. unfold buy_one. cbn [fst snd] in *.
  destruct (price_of _ _) as [p|] eqn:Hp; [|exact Hacc].
  destruct (0 <? Qfloor _)%Z eqn:E; [|exact Hacc].
  cbn [fst snd]. destruct Hacc as [Hnd Hall]. split.
  - now apply dict_set_keys_NoDup.
  - rewrite Forall_forall in Hall |- *. intros x Hx.
    destruct (dict_set_In _ _ _ _ Hx) as [->|Hx']; [|now apply Hall].
    cbn [snd qty entry_price]. split.
    + now apply Z.ltb_lt in E.
    + exact (Hrow _ _ Hp).
Qed.

Lemma rebalance_well_held (current_prices : Series) (ws : dict Q)
    (st : Q * dict Position * Q) :
  row_positive current_prices ->
  well_held (snd (fst (rebalance current_prices ws st))).
Proof.
  intro Hrow. destruct st as [[c h] tc]. unfold rebalance.
  destruct (fold_left (sell_one current_prices) h (c, tc)) as [c1 tc1].
  cbv zeta.
  apply (buy_fold_well_held current_prices c1 ws (c1, [], tc1) Hrow).
  cbn [fst snd]. split; constructor.
Qed.

Lemma step_well_held (np_sqrt : Q -> Q) (fill_pad : bool)
    (prices : DataFrame) (st st' : State) (d : date) :
  positive_prices prices = true ->
  well_held (holdings st) ->
  step np_sqrt fill_pad prices st d = Ok st' ->
  well_held (holdings st').
Proof.
  intros Hpos Hheld. unfold step.
  destruct (loc_row prices d) as [row|] eqn:Hrow; [|discriminate].
  cbn [bind].
  pose proof (loc_row_positive _ _ _ Hpos Hrow) as Hrowpos.
  pose proof (stop_loss_pass_well_held row
                (cash st, holdings st, total_commissions st) Hheld) as H1.
  unfold rebalance_pass.
  destruct (existsb (Z.eqb d) (rebalance_dates prices)).
  - destruct (rank_assets np_sqrt fill_pad d prices) as [w|];
      [|discriminate].
    cbn [bind]. destruct w as [|x w].
    + destruct (stop_loss_pass row _) as [[c1 h1] tc1].
      cbn [bind]. intro H. injection H as <-. exact H1.
    + pose proof (rebalance_well_held row (x :: w)
                    (stop_loss_pass row
                       (cash st, holdings st, total_commissions st))
                    Hrowpos) as H2.
      destruct (rebalance row (x :: w) _) as [[c2 h2] tc2].
      cbn [bind]. intro H. injection H as <-. exact H2.
  - destruct (stop_loss_pass row _) as [[c1 h1] tc1].
    cbn [bind]. intro H. injection H as <-. exact H1.
Qed.

(** X12: on a table whose prices are positive, every state the main
    loop reaches from its initial state holds pairwise distinct tickers,
    each with a whole quantity of at least one share and a positive
    entry price, so the stop-loss return never divides by zero. *)
Theorem reached_holdings_are_well_formed (np_sqrt : Q -> Q)
    (fill_pad : bool) (prices : DataFrame) (dates : list date)
    (st0 st : State) :
  positive_prices prices = true ->
  initial_state prices = Ok st0 ->
  run np_sqrt fill_pad prices dates st0 = Ok st ->
  NoDup (dict_keys (holdings st))
  /\ forall t pos,
       In (t, pos) (holdings st) ->
       (1 <= qty pos)%Z /\ 0 < entry_price pos.
Proof.
  intros Hpos Hinit Hrun.
  assert (H0 : well_held (holdings st0)).
  { unfold initial_state in Hinit.
    destruct (index_at (index prices) LOOKBACK_MOM); [|discriminate].
    cbn [bind] in Hinit. injection Hinit as <-. split; constructor. }
  assert (Hst : well_held (holdings st)).
  { clear Hinit. revert st0 H0 Hrun.
    induction dates as [|d dates IH]; intros st0 H0.
    - cbn [run]. intro H. injection H as <-. exact H0.
    - cbn [run].
      destruct (step np_sqrt fill_pad prices st0 d) as [st1|] eqn:Hstep;
        [|discriminate].
      cbn [bind]. apply IH.
      exact (step_well_held _ _ _ _ _ _ Hpos H0 Hstep). }
  destruct Hst as [Hnd Hall]. split; [exact Hnd|].
  intros t pos Hin. rewrite Forall_forall in Hall.
  destruct (Hall _ Hin) as [Hq He]. cbn [snd] in Hq, He.
  split; [lia | exact He].
Qed.

Lemma reached_holdings_are_well_formed_witness :
  positive_prices (one_ticker_table 95) = true
  /\ initial_state (one_ticker_table 95) = Ok one_ticker_initial
  /\ run sqrt_down false (one_ticker_table 95)
       (skipn LOOKBACK_MOM (index (one_ticker_table 95))) one_ticker_initial
     = Ok one_ticker_final
  /\ holdings one_ticker_final
     = [("TSLA"%string, {| qty := 50000; entry_price := 2 |})]
  /\ NoDup (dict_keys (holdings one_ticker_final))
  /\ forall t pos,
       In (t, pos) (holdings one_ticker_final) ->
       (1 <= qty pos)%Z /\ 0 < entry_price pos.
Proof.
  assert (H1 : positive_prices (one_ticker_table 95) = true)
    by (vm_compute; reflexivity).
  assert (H2 : initial_state (one_ticker_table 95) = Ok one_ticker_initial)
    by (vm_compute; reflexivity).
  assert (H3 : run sqrt_down false (one_ticker_table 95)
                 (skipn LOOKBACK_MOM (index (one_ticker_table 95)))
                 one_ticker_initial = Ok one_ticker_final)
    by (vm_compute; reflexivity).
  split; [exact H1|]. split; [exact H2|]. split; [exact H3|].
  split; [reflexivity|].
  exact (reached_holdings_are_well_formed sqrt_down false
           (one_ticker_table 95) _ _ _ H1 H2 H3).
Defined.

(* ------------------------------------------------------------------ *)
(** ** Dates that are not Fridays *)

Lemma not_rebalance_date (prices : DataFrame) (d : date) :
  dayofweek d <> 4%Z ->
  existsb (Z.eqb d) (rebalance_dates prices) = false.
Proof.
  intro Hday. apply Bool.not_true_iff_false. intro H.
  apply existsb_exists in H. destruct H as [x [Hin Heq]].
  apply Z.eqb_eq in Heq. subst x. unfold rebalance_dates in Hin.
  apply filter_In in Hin. destruct Hin as [_ Hfri].
  apply Z.eqb_eq in Hfri. contradiction.
Qed.

(** X13: on a date that is not a Friday the main loop only runs the
    stop-loss pass: the state it records is the outcome of that pass, no
    position is opened, and every position it still holds was held
    before, unchanged. *)
Theorem no_trading_off_fridays_but_stops (np_sqrt : Q -> Q)
    (fill_pad : bool) (prices : DataFrame) (st st' : State) (d : date) :
  dayofweek d <> 4%Z ->
  step np_sqrt fill_pad prices st d = Ok st' ->
  exists row,
    loc_row prices d = Ok row
    /\ (cash st', holdings st', total_commissions st')
       = stop_loss_pass row (cash st, holdings st, total_commissions st)
    /\ incl (holdings st') (holdings st).
Proof.
  intros Hday. unfold step.
  destruct (loc_row prices d) as [row|]; [|discriminate].
  cbn [bind]. unfold rebalance_pass.
  rewrite (not_rebalance_date prices d Hday).
  destruct (stop_loss_pass row (cash st, holdings st, total_commissions st))
    as [[c1 h1] tc1] eqn:Hpass.
  cbn [bind]. intro H. injection H as <-. exists row.
  split; [reflexivity|]. split; [rewrite Hpass; reflexivity|].
  cbn [holdings].
  destruct (stop_loss_pass_spec row (cash st) (total_commissions st)
              (holdings st)) as [c' [tc' [Hspec _]]].
  rewrite Hspec in Hpass. injection Hpass as _ <- _.
  intros x Hx. now apply fold_dict_del_In in Hx.
Qed.

Lemma no_trading_off_fridays_but_stops_witness :
  dayofweek (trading_day 90) <> 4%Z
  /\ (exists st',
        step sqrt_down false (one_ticker_table 95) one_ticker_initial
          (trading_day 90) = Ok st'
        /\ exists row,
             loc_row (one_ticker_table 95) (trading_day 90) = Ok row
             /\ (cash st', holdings st', total_commissions st')
                = stop_loss_pass row
                    (cash one_ticker_initial, holdings one_ticker_initial,
                     total_commissions one_ticker_initial)
             /\ incl (holdings st') (holdings one_ticker_initial)).
Proof.
  assert (H1 : dayofweek (trading_day 90) <> 4%Z)
    by (vm_compute; discriminate).
  split; [exact H1|].
  eexists. split; [vm_compute; reflexivity|].
  apply (no_trading_off_fridays_but_stops sqrt_down false
           (one_ticker_table 95) one_ticker_initial _ (trading_day 90) H1).
  vm_compute. reflexivity.
Defined.

(* ------------------------------------------------------------------ *)
(** ** Value accounting of one date *)

Lemma Qsum_app (l1 l2 : list Q) : Qsum (l1 ++ l2) == Qsum l1 + Qsum l2.
Proof.
  induction l1 as [|x l1 IH]; cbn [app].
  - rewrite Qsum_nil. ring.
  - rewrite !Qsum_cons, IH. ring.
Qed.

Lemma Qsum_filter_split {A} (g : A -> Q) (f : A -> bool) (l : list A) :
  Qsum (map g l)
  == Qsum (map g (filter f l))
     + Qsum (map g (filter (fun x => negb (f x)) l)).
Proof.
  induction l as [|x l IH]; cbn [map filter].
  - rewrite Qsum_nil. ring.
  - rewrite Qsum_cons, IH.
    destruct (f x); cbn [negb map]; rewrite Qsum_cons; ring.
Qed.

Lemma holdings_value_fold (current_prices : Series) (h : dict Position)
    (a : Q) :
  fold_left
    (fun acc (item : ticker * Position) =>
       match price_of current_prices (fst item) with
       | Some p => acc + inject_Z (qty (snd item)) * p
       | None => acc
       end) h a
  == a + Qsum (map (position_value current_prices) h).
Proof.
  revert a. induction h as [|item h IH]; intro a; cbn [fold_left map].
  - rewrite Qsum_nil. ring.
  - rewrite IH, Qsum_cons. unfold position_value at 2.
    destruct (price_of _ _); ring.
Qed.

Lemma holdings_value_sum (current_prices : Series) (h : dict Position) :
  holdings_value current_prices h
  == Qsum (map (position_value current_prices) h).
Proof.
  unfold holdings_value. rewrite holdings_value_fold. ring.
Qed.

Lemma stop_loss_fold_value (current_prices : Series) (h : dict Position)
    (c tc : Q) (so : list ticker) :
  exists c' tc' so',
    fold_left (stop_loss_check current_prices) h (c, tc, so)
    = (c', tc', so')
    /\ c' + tc'
       == c + tc
          + Qsum (map (position_value current_prices)
                    (filter (stopped current_prices) h)).
Proof.
  revert c tc so. induction h as [|[t pos] h IH]; intros c tc so.
  - exists c, tc, so. split; [reflexivity|]. cbn [filter map].
    rewrite Qsum_nil. ring.
  - cbn [fold_left filter].
    assert (Hcases :
      (exists p, price_of current_prices t = Some p
                 /\ stopped current_prices (t, pos) = true
                 /\ stop_loss_check current_prices (c, tc, so) (t, pos)
                    = (c + net_proceeds pos p,
                       tc + calc_commission (inject_Z (qty pos) * p),
                       so ++ [t]))
      \/ (stopped current_prices (t, pos) = false
          /\ stop_loss_check current_prices (c, tc, so) (t, pos)
             = (c, tc, so))).
    { unfold stop_loss_check, stopped, net_proceeds. cbn [fst snd].
      destruct (price_of current_prices t) as [p|]; [|right; auto].
      destruct (Qle_bool ((p - entry_price pos) / entry_price pos)
                  STOP_LOSS_PCT); [left; exists p; auto | right; auto]. }
    destruct Hcases as [[p [Hp [-> ->]]]|[-> ->]].
    + destruct (IH (c + net_proceeds pos p)
                   (tc + calc_commission (inject_Z (qty pos) * p))
                   (so ++ [t])) as [c' [tc' [so' [Hfold Hv]]]].
      exists c', tc', so'. split; [exact Hfold|].
      cbn [map]. rewrite Hv, Qsum_cons.
      unfold position_value at 2, net_proceeds. cbn [fst snd].
      rewrite Hp. ring.
    + exact (IH c tc so).
Qed.

Lemma sell_fold_value (current_prices : Series) (h : dict Position)
    (c tc : Q) :
  exists c1 tc1,
    fold_left (sell_one current_prices) h (c, tc) = (c1, tc1)
    /\ c1 + tc1 == c + tc + Qsum (map (position_value current_prices) h).
Proof.
  revert c tc. induction h as [|[t pos] h IH]; intros c tc.
  - exists c, tc. split; [reflexivity|]. cbn [map]. rewrite Qsum_nil. ring.
  - cbn [fold_left map]. unfold sell_one at 2. cbn [fst snd].
    destruct (price_of current_prices t) as [p|] eqn:Hp.
    + destruct (IH (c + (inject_Z (qty pos) * p
                         - calc_commission (inject_Z (qty pos) * p)))
                   (tc + calc_commission (inject_Z (qty pos) * p)))
        as [c1 [tc1 [Hfold Hv]]].
      exists c1, tc1. split; [exact Hfold|].
      rewrite Hv, Qsum_cons. unfold position_value at 2. cbn [fst snd].
      rewrite Hp. ring.
    + destruct (IH c tc) as [c1 [tc1 [Hfold Hv]]].
      exists c1, tc1. split; [exact Hfold|].
      rewrite Hv, Qsum_cons. unfold position_value at 2. cbn [fst snd].
      rewrite Hp. ring.
Qed.

Lemma dict_set_fresh {V} (d : dict V) (k : string) (v : V) :
  ~ In k (dict_keys d) -> dict_set d k v = d ++ [(k, v)].
Proof.
  induction d as [|[k0 v0] d IH]; intro Hout; [reflexivity|].
  cbn [dict_set app]. destruct (String.eqb k k0) eqn:E.
  - apply String.eqb_eq in E. subst k0. exfalso. apply Hout. now left.
  - rewrite IH; [reflexivity|]. intro Hin. apply Hout. now right.
Qed.

Lemma buy_fold_value (current_prices : Series) (total_equity : Q)
    (ws : dict Q) (c tc : Q) (h : dict Position) :
  NoDup (dict_keys ws) ->
  (forall t, In t (dict_keys ws) -> ~ In t (dict_keys h)) ->
  exists c' h' tc',
    fold_left (buy_one current_prices total_equity) ws (c, h, tc)
    = (c', h', tc')
    /\ c' + tc' + Qsum (map (position_value current_prices) h')
       == c + tc + Qsum (map (position_value current_prices) h).
Proof.
  revert c tc h. induction ws as [|[t w] ws IH]; intros c tc h Hnd Hfresh.
  - exists c, h, tc. split; [reflexivity | ring].
  - cbn [dict_keys map fst] in Hnd.
    inversion Hnd as [|? ? Hnotin Hnd']; subst.
    assert (Ht : ~ In t (dict_keys h)) by (apply Hfresh; now left).
    cbn [fold_left]. unfold buy_one at 2. cbn [fst snd].
    destruct (price_of current_prices t) as [p|] eqn:Hp.
    2:{ apply IH; [exact Hnd'|]. intros t' Hin. apply Hfresh. now right. }
    destruct (0 <? Qfloor (total_equity * w / p))%Z.
    2:{ apply IH; [exact Hnd'|]. intros t' Hin. apply Hfresh. now right. }
    rewrite (dict_set_fresh _ _ _ Ht).
    set (q := Qfloor (total_equity * w / p)). clearbody q.
    destruct (IH (c - (inject_Z q * p + calc_commission (inject_Z q * p)))
                 (tc + calc_commission (inject_Z q * p))
                 (h ++ [(t, {| qty := q; entry_price := p |})]) Hnd')
      as [c' [h' [tc' [Hfold Hv]]]].
    { intros t' Hin Hin'. unfold dict_keys in Hin'.
      rewrite map_app in Hin'. apply in_app_or in Hin'.
      destruct Hin' as [Hin'|[Heq|[]]].
      - apply (Hfresh t'); [now right | exact Hin'].
      - cbn [fst] in Heq. subst t'. now apply Hnotin. }
    exists c', h', tc'. split; [exact Hfold|].
    assert (Hpv : position_value current_prices
                    (t, {| qty := q; entry_price := p |})
                  = inject_Z q * p).
    { unfold position_value. cbn [fst snd qty]. now rewrite Hp. }
    rewrite Hv, map_app, Qsum_app. cbn [map].
    rewrite Qsum_cons, Qsum_nil, Hpv. unfold ticker. ring.
Qed.

Lemma rank_assets_keys_NoDup (np_sqrt : Q -> Q) (fill_pad : bool)
    (d : date) (prices : DataFrame) (w : dict Q) :
  rank_assets np_sqrt fill_pad d prices = Ok w -> NoDup (dict_keys w).
Proof.
  intro H.
  destruct (rank_assets_cases _ _ _ _ _ H) as [loc [_ [[_ ->]|[_ Hsel]]]];
    [constructor|].
  destruct Hsel as [selected [Hsel ->]]. rewrite normalise_keys.
  unfold select in Hsel.
  refine (proj1 (select_loop_keys (fun _ => True) _ [] _ _ (NoDup_nil _)
                   _ _ Hsel)); trivial.
Qed.

Lemma stop_loss_pass_value (current_prices : Series) (c tc : Q)
    (h : dict Position) :
  NoDup (dict_keys h) ->
  exists c' h' tc',
    stop_loss_pass current_prices (c, h, tc) = (c', h', tc')
    /\ c' + tc' + Qsum (map (position_value current_prices) h')
       == c + tc + Qsum (map (position_value current_prices) h).
Proof.
  intro Hnd.
  destruct (stop_loss_pass_spec current_prices c tc h)
    as [c' [tc' [Hpass _]]].
  destruct (stop_loss_fold_value current_prices h c tc [])
    as [c0 [tc0 [so0 [Hfold Hv]]]].
  exists c',
    (fold_left dict_del (map fst (filter (stopped current_prices) h)) h),
    tc'.
  split; [exact Hpass|].
  unfold stop_loss_pass in Hpass. rewrite Hfold in Hpass.
  injection Hpass as <- _ <-.
  rewrite fold_dict_del_filter by exact Hnd.
  rewrite (Qsum_filter_split (position_value current_prices)
             (stopped current_prices) h).
  rewrite Hv. unfold ticker. ring.
Qed.

Lemma rebalance_value (current_prices : Series) (ws : dict Q) (c tc : Q)
    (h : dict Position) :
  NoDup (dict_keys ws) ->
  exists c' h' tc',
    rebalance current_prices ws (c, h, tc) = (c', h', tc')
    /\ c' + tc' + Qsum (map (position_value current_prices) h')
       == c + tc + Qsum (map (position_value current_prices) h).
Proof.
  intro Hnd. unfold rebalance.
  destruct (sell_fold_value current_prices h c tc)
    as [c1 [tc1 [-> Hsell]]].
  cbv zeta.
  destruct (buy_fold_value current_prices c1 ws c1 tc1 [] Hnd)
    as [c' [h' [tc' [Hfold Hbuy]]]]; [intros t _ []|].
  exists c', h', tc'. split; [exact Hfold|].
  rewrite Hbuy, Hsell. cbn [map]. rewrite Qsum_nil. ring.
Qed.

(** X14: the value recorded for a date is the cash and the holdings
    carried into the date, marked at the date's prices (nothing for a
    ticker without a price), less the commissions charged on that date:
    stop-loss sales, liquidation and purchases move value between cash
    and positions and lose only the commissions. *)
Theorem day_value_is_previous_value_less_commissions (np_sqrt : Q -> Q)
    (fill_pad : bool) (prices : DataFrame) (st st' : State) (d : date) :
  NoDup (dict_keys (holdings st)) ->
  step np_sqrt fill_pad prices st d = Ok st' ->
  exists row v,
    loc_row prices d = Ok row
    /\ portfolio_value st' = portfolio_value st ++ [v]
    /\ v == cash st' + holdings_value row (holdings st')
    /\ v + (total_commissions st' - total_commissions st)
       == cash st + holdings_value row (holdings st).
Proof.
  intros Hnd. unfold step.
  destruct (loc_row prices d) as [row|]; [|discriminate].
  cbn [bind].
  destruct (stop_loss_pass_value row (cash st) (total_commissions st)
              (holdings st) Hnd) as [c1 [h1 [tc1 [Hpass H1]]]].
  rewrite Hpass. unfold rebalance_pass.
  assert (Hdone : forall c2 h2 tc2,
            c2 + tc2 + Qsum (map (position_value row) h2)
            == cash st + total_commissions st
               + Qsum (map (position_value row) (holdings st)) ->
            c2 + holdings_value row h2 + (tc2 - total_commissions st)
            == cash st + holdings_value row (holdings st)).
  { intros c2 h2 tc2 H. rewrite !holdings_value_sum. lra. }
  destruct (existsb (Z.eqb d) (rebalance_dates prices)).
  - destruct (rank_assets np_sqrt fill_pad d prices) as [w|] eqn:Hw;
      [|discriminate].
    cbn [bind]. destruct w as [|x w].
    + cbn [bind]. intro H. injection H as <-. exists row.
      eexists. split; [reflexivity|]. split; [reflexivity|].
      split; [reflexivity|]. cbn [cash holdings total_commissions].
      now apply Hdone.
    + destruct (rebalance_value row (x :: w) c1 tc1 h1
                  (rank_assets_keys_NoDup _ _ _ _ _ Hw))
        as [c2 [h2 [tc2 [-> H2]]]].
      cbn [bind]. intro H. injection H as <-. exists row.
      eexists. split; [reflexivity|]. split; [reflexivity|].
      split; [reflexivity|]. cbn [cash holdings total_commissions].
      apply Hdone. rewrite H2. exact H1.
  - cbn [bind]. intro H. injection H as <-. exists row.
    eexists. split; [reflexivity|]. split; [reflexivity|].
    split; [reflexivity|]. cbn [cash holdings total_commissions].
    now apply Hdone.
Qed.

Lemma day_value_is_previous_value_less_commissions_witness :
  NoDup (dict_keys (holdings two_ticker_held))
  /\ exists st',
       step sqrt_down false (two_ticker_table 100) two_ticker_held
         (trading_day 99) = Ok st'
       /\ exists row v,
            loc_row (two_ticker_table 100) (trading_day 99) = Ok row
            /\ portfolio_value st' = portfolio_value two_ticker_held ++ [v]
            /\ v == cash st' + holdings_value row (holdings st')
            /\ v + (total_commissions st'
                    - total_commissions two_ticker_held)
               == cash two_ticker_held
                  + holdings_value row (holdings two_ticker_held).
Proof.
  assert (H1 : NoDup (dict_keys (holdings two_ticker_held)))
    by (apply distinct_NoDup; vm_compute; reflexivity).
  split; [exact H1|].
  eexists. split; [vm_compute; reflexivity|].
  apply (day_value_is_previous_value_less_commissions sqrt_down false
           (two_ticker_table 100) two_ticker_held _ (trading_day 99) H1).
  vm_compute. reflexivity.
Defined.

(* ------------------------------------------------------------------ *)
(** ** Positions opened by a rebalance *)

Lemma buy_fold_positions (current_prices : Series) (total_equity : Q)
    (ws : dict Q) (acc : Q * dict Position * Q) (t : ticker)
    (pos : Position) :
  In (t, pos)
    (snd (fst (fold_left (buy_one current_prices total_equity) ws acc))) ->
  In (t, pos) (snd (fst acc))
  \/ exists w p,
       In (t, w) ws
       /\ price_of current_prices t = Some p
       /\ pos = {| qty := Qfloor (total_equity * w / p); entry_price := p |}
       /\ (0 < qty pos)%Z.
Proof.
  revert acc. induction ws as [|[t' w'] ws IH]; intros acc Hin;
    [now left|].
  cbn [fold_left] in Hin. apply IH in Hin.
  destruct Hin as [Hin|[w [p [Hw H]]]].
  2:{ right. exists w, p. split; [now right | exact H]. }
  destruct acc as [[c h] tc]. unfold buy_one in Hin. cbn [fst snd] in Hin.
  destruct (price_of current_prices t') as [p|] eqn:Hp; [|now left].
  destruct (0 <? Qfloor (total_equity * w' / p))%Z eqn:E; [|now left].
  cbn [fst snd] in Hin.
  destruct (dict_set_In _ _ _ _ Hin) as [Heq|Hin']; [|now left].
  injection Heq as -> ->. right. exists w', p.
  split; [now left|]. split; [exact Hp|]. split; [reflexivity|].
  cbn [qty]. now apply Z.ltb_lt in E.
Qed.

(** X15: every position held after a rebalance was opened by it: its
    ticker is in the allocation and has a price on the row, its entry
    price is that price, and its quantity is the whole number of shares
    that the ticker's share of the cash left after the liquidation buys,
    at least one.  No earlier entry price survives a rebalance. *)
Theorem rebalance_opens_at_current_price (current_prices : Series)
    (ws : dict Q) (c tc : Q) (h : dict Position) (t : ticker)
    (pos : Position) :
  In (t, pos) (snd (fst (rebalance current_prices ws (c, h, tc)))) ->
  exists w p,
    In (t, w) ws
    /\ price_of current_prices t = Some p
    /\ entry_price pos = p
    /\ qty pos
       = Qfloor (fst (fold_left (sell_one current_prices) h (c, tc))
                 * w / p)
    /\ (1 <= qty pos)%Z.
Proof.
  unfold rebalance.
  destruct (fold_left (sell_one current_prices) h (c, tc)) as [c1 tc1].
  cbv zeta. cbn [fst]. intro Hin.
  apply buy_fold_positions in Hin. cbn [fst snd] in Hin.
  destruct Hin as [[]|[w [p [Hw [Hp [-> Hq]]]]]].
  exists w, p. cbn [qty entry_price] in *.
  repeat split; try assumption; try reflexivity. lia.
Qed.

Lemma rebalance_opens_at_current_price_witness :
  let h := holdings two_ticker_held in
  let c := cash two_ticker_held in
  let tc := total_commissions two_ticker_held in
  let pos := {| qty := 12481; entry_price := 2 |} in
  In ("TSLA"%string, pos)
    (snd (fst (rebalance two_ticker_last_row two_ticker_allocation
                 (c, h, tc))))
  /\ exists w p,
       In ("TSLA"%string, w) two_ticker_allocation
       /\ price_of two_ticker_last_row "TSLA"%string = Some p
       /\ entry_price pos = p
       /\ qty pos
          = Qfloor (fst (fold_left (sell_one two_ticker_last_row) h (c, tc))
                    * w / p)
       /\ (1 <= qty pos)%Z.
Proof.
  intros h c tc pos.
  assert (H : In ("TSLA"%string, pos)
                (snd (fst (rebalance two_ticker_last_row
                             two_ticker_allocation (c, h, tc)))))
    by (vm_compute; left; reflexivity).
  split; [exact H|].
  exact (rebalance_opens_at_current_price two_ticker_last_row
           two_ticker_allocation c tc h "TSLA"%string pos H).
Defined.

(* ------------------------------------------------------------------ *)
(** ** Runs of the main loop *)

Lemma existsb_filter_date (f : date -> bool) (d : date) (l : list date) :
  existsb (Z.eqb d) (filter f l) = f d && existsb (Z.eqb d) l.
Proof.
  induction l as [|x l IH]; cbn [filter existsb].
  - now rewrite andb_false_r.
  - destruct (Z.eqb d x) eqn:E.
    + apply Z.eqb_eq in E. subst x. destruct (f d) eqn:Ef.
      * cbn [existsb]. now rewrite Z.eqb_refl.
      * rewrite IH. rewrite ?Ef. reflexivity.
    + destruct (f x); cbn [existsb]; rewrite ?E, IH; reflexivity.
Qed.

Lemma existsb_date_In (d : date) (l : list date) :
  In d l -> existsb (Z.eqb d) l = true.
Proof.
  intro H. apply existsb_exists. exists d. split; [exact H|].
  apply Z.eqb_refl.
Qed.

Lemma step_append_rows (np_sqrt : Q -> Q) (fill_pad : bool)
    (prices : DataFrame) (more_index : list date)
    (more_values : list (list (option Q))) (st : State) (d : date) :
  length (values prices) = length (index prices) ->
  In d (index prices) ->
  step np_sqrt fill_pad (append_rows prices more_index more_values) st d
  = step np_sqrt fill_pad prices st d.
Proof.
  intros Hshape Hin. destruct (get_loc_In _ _ Hin) as [i Hi].
  pose proof (get_loc_lt _ _ _ Hi) as Hlt.
  unfold step, loc_row, rebalance_pass, rebalance_dates.
  rewrite (rank_assets_append_rows _ _ _ more_index more_values _
             Hshape Hin).
  cbn [index columns values append_rows].
  rewrite (get_loc_app _ _ more_index _ Hi), Hi. cbn [bind].
  rewrite app_nth1 by lia.
  rewrite !existsb_filter_date.
  rewrite (existsb_date_In d (index prices) Hin).
  rewrite (existsb_date_In d (index prices ++ more_index))
    by (apply in_or_app; now left).
  reflexivity.
Qed.

(** X17: the main loop has no look-ahead: on a table with one row of
    values per date, rows added below the table change nothing in a run
    over dates of the table. *)
Theorem engine_ignores_later_rows (np_sqrt : Q -> Q) (fill_pad : bool)
    (prices : DataFrame) (more_index : list date)
    (more_values : list (list (option Q))) (dates : list date)
    (st : State) :
  length (values prices) = length (index prices) ->
  incl dates (index prices) ->
  run np_sqrt fill_pad (append_rows prices more_index more_values) dates st
  = run np_sqrt fill_pad prices dates st.
Proof.
  intros Hshape. revert st.
  induction dates as [|d dates IH]; intros st Hincl; [reflexivity|].
  cbn [run].
  rewrite step_append_rows; [|exact Hshape | apply Hincl; now left].
  destruct (step np_sqrt fill_pad prices st d) as [st1|]; [|reflexivity].
  cbn [bind]. apply IH. intros x Hx. apply Hincl. now right.
Qed.

Lemma engine_ignores_later_rows_witness :
  length (values (one_ticker_table 95)) = length (index (one_ticker_table 95))
  /\ incl (skipn LOOKBACK_MOM (index (one_ticker_table 95)))
       (index (one_ticker_table 95))
  /\ run sqrt_down false
       (append_rows (one_ticker_table 95) [trading_day 95] [[Some 7]])
       (skipn LOOKBACK_MOM (index (one_ticker_table 95))) one_ticker_initial
     = run sqrt_down false (one_ticker_table 95)
         (skipn LOOKBACK_MOM (index (one_ticker_table 95)))
         one_ticker_initial.
Proof.
  assert (H1 : length (values (one_ticker_table 95))
               = length (index (one_ticker_table 95)))
    by (vm_compute; reflexivity).
  assert (H2 : incl (skipn LOOKBACK_MOM (index (one_ticker_table 95)))
                 (index (one_ticker_table 95))) by apply skipn_incl.
  split; [exact H1|]. split; [exact H2|].
  exact (engine_ignores_later_rows sqrt_down false (one_ticker_table 95)
           [trading_day 95] [[Some 7]] _ one_ticker_initial H1 H2).
Defined.

(* ------------------------------------------------------------------ *)
(** ** Maximum drawdown *)

Lemma fold_min_le_acc (l : list Q) (a : Q) : fold_left Qmin l a <= a.
Proof.
  revert a. induction l as [|x l IH]; intro a; [apply Qle_refl|].
  cbn [fold_left]. eapply Qle_trans; [apply IH | apply Q.le_min_l].
Qed.

Lemma fold_min_le_In (l : list Q) (a x : Q) :
  In x l -> fold_left Qmin l a <= x.
Proof.
  revert a. induction l as [|y l IH]; intros a Hin; [destruct Hin|].
  cbn [fold_left]. destruct Hin as [->|Hin].
  - eapply Qle_trans; [apply fold_min_le_acc | apply Q.le_min_r].
  - now apply IH.
Qed.

Lemma fold_min_glb (l : list Q) (a b : Q) :
  b <= a -> (forall x, In x l -> b <= x) -> b <= fold_left Qmin l a.
Proof.
  revert a. induction l as [|y l IH]; intros a Ha Hl; [exact Ha|].
  cbn [fold_left]. apply IH.
  - apply Q.min_glb; [exact Ha | apply Hl; now left].
  - intros x Hx. apply Hl. now right.
Qed.

Lemma nondecreasing_head (a b : Q) (l : list Q) :
  a == b -> (nondecreasing (a :: l) <-> nondecreasing (b :: l)).
Proof.
  intro E. destruct l as [|y l]; cbn [nondecreasing]; [tauto|].
  rewrite E. tauto.
Qed.

Lemma ratio_zero_iff (x m : Q) : 0 < m -> (x / m - 1 == 0 <-> x == m).
Proof.
  intro Hm. assert (Hne : ~ m == 0) by (intro E; rewrite E in Hm; lra).
  split; intro H.
  - assert (E : x == (x / m - 1) * m + m) by (field; exact Hne).
    rewrite E, H. ring.
  - rewrite H. field. exact Hne.
Qed.

(** The drawdowns below a running maximum that starts at [m]. *)
Lemma drawdowns_from (m : Q) (xs : list Q) :
  0 < m ->
  let dds :=
    map (fun vm => fst vm / snd vm - 1) (combine xs (cummax_from m xs)) in
  (forall e, In e dds -> e <= 0)
  /\ ((forall e, In e dds -> e == 0) <-> nondecreasing (m :: xs))
  /\ ((forall x, In x xs -> 0 <= x) -> forall e, In e dds -> -1 <= e).
Proof.
  revert m. induction xs as [|x xs IH]; intros m Hm dds.
  - subst dds. cbn. split; [tauto|]. split; [tauto|]. tauto.
  - subst dds. cbn [cummax_from combine map fst snd].
    set (m' := Qmax m x).
    assert (Hm' : 0 < m').
    { apply Qlt_le_trans with m; [exact Hm | apply Q.le_max_l]. }
    assert (Hx : x <= m') by apply Q.le_max_r.
    destruct (IH m' Hm') as [Hle [Hzero Hlow]].
    assert (He : x / m' - 1 <= 0).
    { assert (x / m' <= 1); [|lra].
      apply Qle_shift_div_r; [exact Hm' | lra]. }
    split; [|split].
    + intros e [<-|Hin]; [exact He | now apply Hle].
    + cbn [nondecreasing]. split.
      * intro Hall.
        assert (E : x == m').
        { apply (ratio_zero_iff x m' Hm'). apply Hall. now left. }
        split.
        -- rewrite E. apply Q.le_max_l.
        -- apply (nondecreasing_head m' x xs); [now symmetry|].
           apply Hzero. intros e Hin. apply Hall. now right.
      * intros [Hmx Hrest].
        assert (E : m' == x) by (apply Q.max_r; exact Hmx).
        intros e [<-|Hin].
        -- apply (ratio_zero_iff x m' Hm'). now symmetry.
        -- apply (proj2 Hzero); [|exact Hin].
           now apply (nondecreasing_head m' x xs).
    + intros Hpos e [<-|Hin].
      * assert (0 <= x / m'); [|lra].
        apply Qle_shift_div_l; [exact Hm'|]. rewrite Qmult_0_l.
        apply Hpos. now left.
      * apply Hlow; [|exact Hin]. intros y Hy. apply Hpos. now right.
Qed.

Lemma max_dd_from_positive_start (x0 : Q) (xs : list Q) :
  0 < x0 ->
  exists dd,
    max_dd (x0 :: xs) = Some dd
    /\ dd <= 0
    /\ (dd == 0 <-> nondecreasing (x0 :: xs))
    /\ ((forall x, In x xs -> 0 <= x) -> -1 <= dd).
Proof.
  intro H0. unfold max_dd, cummax, series_min.
  cbn [combine map fst snd].
  destruct (drawdowns_from x0 xs H0) as [Hle [Hzero Hlow]].
  set (dds := map (fun vm => fst vm / snd vm - 1)
                (combine xs (cummax_from x0 xs))) in *.
  assert (E0 : x0 / x0 - 1 == 0) by (now apply ratio_zero_iff).
  eexists. split; [reflexivity|].
  assert (Htop : fold_left Qmin dds (x0 / x0 - 1) <= 0).
  { eapply Qle_trans; [apply fold_min_le_acc|]. rewrite E0.
    apply Qle_refl. }
  split; [exact Htop|]. split; [split|].
  - intro Hdd. apply Hzero. intros e Hin.
    apply Qle_antisym; [now apply Hle|].
    rewrite <- Hdd. now apply fold_min_le_In.
  - intro Hnd. apply Qle_antisym; [exact Htop|].
    apply fold_min_glb; [rewrite E0; apply Qle_refl|].
    intros e Hin. rewrite (proj2 Hzero Hnd e Hin). apply Qle_refl.
  - intro Hpos. apply fold_min_glb; [rewrite E0; discriminate|].
    now apply Hlow.
Qed.

(** X18: for a value series that starts above zero the maximum drawdown
    is defined and at most 0; it is 0 exactly when the series never
    falls, and it is at least -1 when no value is negative. *)
Theorem max_drawdown_bounds (x0 : Q) (xs : list Q) :
  0 < x0 ->
  exists dd,
    max_dd (x0 :: xs) = Some dd
    /\ dd <= 0
    /\ (dd == 0 <-> nondecreasing (x0 :: xs))
    /\ ((forall x, In x xs -> 0 <= x) -> -1 <= dd).
Proof.
  intro H0. now apply max_dd_from_positive_start.
Qed.

Lemma max_drawdown_bounds_witness :
  0 < 100
  /\ exists dd,
       max_dd [100; 120; 90; 130] = Some dd
       /\ dd == - (1 # 4)
       /\ dd <= 0.
Proof.
  assert (H : 0 < 100) by reflexivity.
  split; [exact H|].
  destruct (max_drawdown_bounds 100 [120; 90; 130] H)
    as [dd [Hdd [Hle _]]].
  exists dd. split; [exact Hdd|]. split; [|exact Hle].
  cbv in Hdd. injection Hdd as <-. reflexivity.
Defined.

(** X19: the value series of a backtest starts at the initial capital,
    so its maximum drawdown is always defined and at most 0, and it is 0
    exactly when the recorded value never falls. *)
Theorem backtest_drawdown_defined (np_sqrt : Q -> Q) (fill_pad : bool)
    (prices : DataFrame) (st : State) :
  backtest np_sqrt fill_pad prices = Ok st ->
  exists dd,
    max_dd (portfolio_value st) = Some dd
    /\ dd <= 0
    /\ (dd == 0 <-> nondecreasing (portfolio_value st)).
Proof.
  unfold backtest, initial_state.
  destruct (index_at (index prices) LOOKBACK_MOM) as [d0|]; [|discriminate].
  cbn [bind]. intro Hrun.
  destruct (run_tracks _ _ _ _ _ _ Hrun) as [_ [vs [Hvs _]]].
  cbn [portfolio_value app] in Hvs. rewrite Hvs.
  destruct (max_dd_from_positive_start INITIAL_CAPITAL vs)
    as [dd [Hdd [Hle [Hzero _]]]]; [reflexivity|].
  exists dd. split; [exact Hdd|]. split; [exact Hle | exact Hzero].
Qed.

Lemma backtest_drawdown_defined_witness :
  backtest sqrt_down false (one_ticker_table 95) = Ok one_ticker_final
  /\ exists dd,
       max_dd (portfolio_value one_ticker_final) = Some dd
       /\ dd <= 0
       /\ (dd == 0 <-> nondecreasing (portfolio_value one_ticker_final)).
Proof.
  assert (H : backtest sqrt_down false (one_ticker_table 95)
              = Ok one_ticker_final) by (vm_compute; reflexivity).
  split; [exact H|].
  exact (backtest_drawdown_defined sqrt_down false (one_ticker_table 95)
           one_ticker_final H).
Defined.

(* ------------------------------------------------------------------ *)
(** ** Edge behaviour of the engine *)

(** X20: on a table whose prices are positive the backtest raises
    [IndexError] exactly when the table has no row at position
    [LOOKBACK_MOM], that is at most [LOOKBACK_MOM] rows, at the seed date
    before the loop; on longer tables it returns. *)
Theorem backtest_index_error_iff_short (np_sqrt : Q -> Q) (fill_pad : bool)
    (prices : DataFrame) :
  positive_prices prices = true ->
  (backtest np_sqrt fill_pad prices = Raise IndexError
   <-> (length (index prices) <= LOOKBACK_MOM)%nat)
  /\ ((LOOKBACK_MOM < length (index prices))%nat
      <-> exists st, backtest np_sqrt fill_pad prices = Ok st).
Proof.
  intros _.
  assert (Hshort : (length (index prices) <= LOOKBACK_MOM)%nat ->
                   backtest np_sqrt fill_pad prices = Raise IndexError).
  { intro H. unfold backtest, initial_state, index_at.
    apply nth_error_None in H. now rewrite H. }
  pose proof (backtest_total np_sqrt fill_pad prices) as Hlong.
  split; split.
  - intro H.
    destruct (Nat.le_gt_cases (length (index prices)) LOOKBACK_MOM)
      as [Hle|Hgt]; [exact Hle|].
    destruct (Hlong Hgt) as [st Hst]. rewrite Hst in H. discriminate H.
  - exact Hshort.
  - exact Hlong.
  - intros [st Hst].
    destruct (Nat.le_gt_cases (length (index prices)) LOOKBACK_MOM)
      as [Hle|Hgt]; [|exact Hgt].
    rewrite (Hshort Hle) in Hst. discriminate Hst.
Qed.

Lemma backtest_index_error_iff_short_witness :
  positive_prices (one_ticker_table 90) = true
  /\ (length (index (one_ticker_table 90)) <= LOOKBACK_MOM)%nat
  /\ backtest sqrt_down false (one_ticker_table 90) = Raise IndexError
  /\ positive_prices (one_ticker_table 91) = true
  /\ (LOOKBACK_MOM < length (index (one_ticker_table 91)))%nat
  /\ exists st, backtest sqrt_down false (one_ticker_table 91) = Ok st.
Proof.
  assert (P1 : positive_prices (one_ticker_table 90) = true)
    by (vm_compute; reflexivity).
  assert (P2 : positive_prices (one_ticker_table 91) = true)
    by (vm_compute; reflexivity).
  assert (H1 : (length (index (one_ticker_table 90)) <= LOOKBACK_MOM)%nat)
    by (vm_compute; lia).
  assert (H2 : (LOOKBACK_MOM < length (index (one_ticker_table 91)))%nat)
    by (vm_compute; lia).
  split; [exact P1|]. split; [exact H1|].
  split;
    [exact (proj2 (proj1 (backtest_index_error_iff_short sqrt_down false
                            (one_ticker_table 90) P1)) H1)|].
  split; [exact P2|]. split; [exact H2|].
  exact (proj1 (proj2 (backtest_index_error_iff_short sqrt_down false
                         (one_ticker_table 91) P2)) H2).
Defined.

(** X21: when the cash left after the liquidation is zero or negative a
    rebalance buys nothing: the holdings end empty, and cash and
    commissions are those after the sales. *)
Theorem rebalance_without_cash_buys_nothing (np_sqrt : Q -> Q)
    (fill_pad : bool) (prices : DataFrame) (d : date)
    (current_prices : Series) (w : dict Q) (c tc : Q)
    (h : dict Position) :
  rank_assets np_sqrt fill_pad d prices = Ok w ->
  row_positive current_prices ->
  fst (fold_left (sell_one current_prices) h (c, tc)) <= 0 ->
  rebalance current_prices w (c, h, tc)
  = (fst (fold_left (sell_one current_prices) h (c, tc)), [],
     snd (fold_left (sell_one current_prices) h (c, tc))).
Proof.
  intros Hw Hrow Hbroke. unfold rebalance.
  destruct (fold_left (sell_one current_prices) h (c, tc)) as [c1 tc1].
  cbv zeta. cbn [fst snd] in *.
  destruct (rank_assets_weights _ _ _ _ _ Hw) as [Hw0 _].
  exact (buy_fold_broke current_prices c1 w (c1, [], tc1) Hrow Hbroke Hw0).
Qed.

Lemma rebalance_without_cash_buys_nothing_witness :
  let row : Series := [("TSLA"%string, Some 2)] in
  rank_assets sqrt_down false (trading_day 94) (one_ticker_table 95)
  = Ok one_ticker_allocation
  /\ row_positive row
  /\ fst (fold_left (sell_one row) [] (- (50), 50)) <= 0
  /\ rebalance row one_ticker_allocation (- (50), [], 50)
     = (- (50), [], 50).
Proof.
  intro row.
  assert (H1 : rank_assets sqrt_down false (trading_day 94)
                 (one_ticker_table 95) = Ok one_ticker_allocation)
    by (vm_compute; reflexivity).
  assert (H2 : row_positive row).
  { intros t p. unfold price_of, row. cbn [dict_get].
    destruct (String.eqb t "TSLA"); [|discriminate].
    intro H. injection H as <-. reflexivity. }
  assert (H3 : fst (fold_left (sell_one row) [] (- (50), 50)) <= 0)
    by (cbn; discriminate).
  split; [exact H1|]. split; [exact H2|]. split; [exact H3|].
  exact (rebalance_without_cash_buys_nothing sqrt_down false
           (one_ticker_table 95) (trading_day 94) row one_ticker_allocation
           (- (50)) 50 [] H1 H2 H3).
Defined.

(** X22: for a position with a positive entry price the stop-loss test
    on the return is the test on the price: the position is stopped
    exactly when it has a price on the row and that price is at most
    (1 + [STOP_LOSS_PCT]) times the entry price, 93% of it. *)
Theorem stop_loss_threshold_is_93_percent (current_prices : Series)
    (t : ticker) (pos : Position) :
  0 < entry_price pos ->
  (stopped current_prices (t, pos) = true
   <-> exists p,
         price_of current_prices t = Some p
         /\ p <= (1 + STOP_LOSS_PCT) * entry_price pos)
  /\ 1 + STOP_LOSS_PCT == 93 # 100.
Proof.
  intro He. split; [|reflexivity].
  assert (Hiff : forall p,
            (p - entry_price pos) / entry_price pos <= STOP_LOSS_PCT
            <-> p <= (1 + STOP_LOSS_PCT) * entry_price pos).
  { intro p. split; intro H.
    - assert (E : p == (p - entry_price pos) / entry_price pos
                       * entry_price pos + entry_price pos)
        by (field; intro E0; rewrite E0 in He; lra).
      rewrite E.
      assert ((p - entry_price pos) / entry_price pos * entry_price pos
              <= STOP_LOSS_PCT * entry_price pos)
        by (apply Qmult_le_compat_r; [exact H | lra]).
      lra.
    - apply Qle_shift_div_r; [exact He | lra]. }
  unfold stopped. cbn [fst snd].
  destruct (price_of current_prices t) as [p|].
  - rewrite Qle_bool_iff, Hiff. split.
    + intro H. now exists p.
    + intros [p' [Hp' H]]. now injection Hp' as <-.
  - split; [discriminate | intros [p [Hp _]]; discriminate Hp].
Qed.

Lemma stop_loss_threshold_is_93_percent_witness :
  let row : Series := [("TSLA"%string, Some 93)] in
  let pos := {| qty := 10; entry_price := 100 |} in
  0 < entry_price pos
  /\ stopped row ("TSLA"%string, pos) = true
  /\ (stopped row ("TSLA"%string, pos) = true
      <-> exists p,
            price_of row "TSLA"%string = Some p
            /\ p <= (1 + STOP_LOSS_PCT) * entry_price pos).
Proof.
  intros row pos.
  assert (H : 0 < entry_price pos) by reflexivity.
  split; [exact H|]. split; [vm_compute; reflexivity|].
  exact (proj1 (stop_loss_threshold_is_93_percent row "TSLA"%string pos H)).
Defined.

(* ------------------------------------------------------------------ *)
(** ** A ticker without any price in the window *)

Lemma nth_error_map_combine {A B C} (f : A * B -> C) (a : list A)
    (b : list B) (j : nat) :
  nth_error (map f (combine a b)) j
  = match nth_error a j, nth_error b j with
    | Some x, Some y => Some (f (x, y))
    | _, _ => None
    end.
Proof.
  revert b j. induction a as [|x a IH]; intros b j.
  - destruct j; reflexivity.
  - destruct b as [|y b].
    + destruct j; cbn; [reflexivity|]. now destruct (nth_error a j).
    + destruct j as [|j]; [reflexivity|]. cbn. apply IH.
Qed.

Section DeadColumn.

Variable j : nat.

Let dead (r : list (option Q)) : Prop := nth_error r j = Some None.

Lemma ffill_from_dead (prev : list (option Q))
    (rows : list (list (option Q))) :
  dead prev -> (forall r, In r rows -> dead r) ->
  forall r, In r (ffill_from prev rows) -> dead r.
Proof.
  revert prev. induction rows as [|r0 rows IH]; intros prev Hprev Hrows r;
    [intros []|].
  cbn [ffill_from].
  assert (H0 : dead (ffill_row prev r0)).
  { unfold dead, ffill_row. rewrite nth_error_map_combine.
    unfold dead in Hprev. rewrite Hprev.
    rewrite (Hrows r0) by now left. reflexivity. }
  intros [<-|Hin]; [exact H0|].
  apply (IH (ffill_row prev r0)); [exact H0 | | exact Hin].
  intros r' Hr'. apply Hrows. now right.
Qed.

Lemma ffill_dead (rows : list (list (option Q))) :
  (forall r, In r rows -> dead r) -> forall r, In r (ffill rows) -> dead r.
Proof.
  destruct rows as [|r0 rows]; intros Hrows r; [intros []|].
  cbn [ffill]. intros [<-|Hin]; [apply Hrows; now left|].
  apply (ffill_from_dead r0 rows); [apply Hrows; now left | | exact Hin].
  intros r' Hr'. apply Hrows. now right.
Qed.

Lemma pct_from_dead (prev : list (option Q))
    (rows : list (list (option Q))) :
  dead prev -> (forall r, In r rows -> dead r) ->
  forall r, In r (pct_from prev rows) -> dead r.
Proof.
  revert prev. induction rows as [|r0 rows IH]; intros prev Hprev Hrows r;
    [intros []|].
  cbn [pct_from]. intros [<-|Hin].
  - unfold dead. rewrite nth_error_map_combine.
    unfold dead in Hprev. rewrite Hprev.
    rewrite (Hrows r0) by now left. reflexivity.
  - apply (IH r0); [apply Hrows; now left | | exact Hin].
    intros r' Hr'. apply Hrows. now right.
Qed.

Lemma pct_change_dead (fill_pad : bool) (rows : list (list (option Q))) :
  (forall r, In r rows -> dead r) ->
  forall r, In r (pct_change fill_pad rows) -> dead r.
Proof.
  intro Hrows.
  assert (Hdata : forall r,
            In r (if fill_pad then ffill rows else rows) -> dead r).
  { destruct fill_pad; [now apply ffill_dead | exact Hrows]. }
  unfold pct_change.
  destruct (if fill_pad then ffill rows else rows) as [|r0 data];
    intros r; [intros []|].
  intros [<-|Hin].
  - unfold dead. rewrite nth_error_map.
    rewrite (Hdata r0) by now left. reflexivity.
  - apply (pct_from_dead r0 data); [apply Hdata; now left | | exact Hin].
    intros r' Hr'. apply Hdata. now right.
Qed.

Lemma dropna_rows_dead (rows : list (list (option Q))) :
  (forall r, In r rows -> dead r) -> dropna_rows rows = [].
Proof.
  unfold dropna_rows. induction rows as [|r rows IH]; intro Hrows;
    [reflexivity|].
  cbn [filter].
  replace (forallb is_some r) with false.
  - apply IH. intros r' Hr'. apply Hrows. now right.
  - symmetry. apply Bool.not_true_iff_false. intro Hall.
    rewrite forallb_forall in Hall.
    assert (Hin : In None r).
    { apply (nth_error_In r j). apply Hrows. now left. }
    specialize (Hall _ Hin). discriminate Hall.
Qed.

End DeadColumn.

Lemma series_get_all_missing (s : Series) (t : ticker) :
  (forall x, In x s -> snd x = None) -> series_get s t = None.
Proof.
  intro Hall. unfold series_get.
  destruct (dict_get s t) as [v|] eqn:E; [|reflexivity].
  apply dict_get_In in E. exact (Hall _ E).
Qed.

Lemma dropna_all_missing (s : Series) :
  (forall x, In x s -> snd x = None) -> dropna s = [].
Proof.
  induction s as [|[t [v|]] s IH]; intro Hall; [reflexivity| |].
  - specialize (Hall (t, Some v) (or_introl eq_refl)). discriminate Hall.
  - cbn [dropna]. apply IH. intros x Hx. apply Hall. now right.
Qed.

(** X23: if one column has no price on any row of the momentum window,
    every row of returns is dropped, no ticker has a momentum, and the
    ranker returns the empty allocation whatever the other tickers
    did, with forward filling and without. *)
Theorem unpriced_column_empties_allocation (np_sqrt : Q -> Q)
    (fill_pad : bool) (d : date) (prices : DataFrame) (loc j : nat) :
  get_loc d (index prices) = Ok loc ->
  (LOOKBACK_MOM <= loc)%nat ->
  (forall r,
     In r (iloc (loc - LOOKBACK_MOM) (loc + 1) (values prices)) ->
     nth_error r j = Some None) ->
  rank_assets np_sqrt fill_pad d prices = Ok [].
Proof.
  intros Hloc Hge Hdead.
  assert (Hmom : forall x,
            In x (momentum_of fill_pad prices loc) -> snd x = None).
  { unfold momentum_of.
    rewrite (dropna_rows_dead j _ (pct_change_dead j fill_pad _ Hdead)).
    unfold reduce_columns. intros x Hx. apply in_map_iff in Hx.
    destruct Hx as [jt [<- _]]. reflexivity. }
  assert (Hraw : raw_score np_sqrt fill_pad prices loc = []).
  { unfold raw_score. apply dropna_all_missing.
    intros x Hx. apply in_map_iff in Hx. destruct Hx as [t [<- _]].
    cbn [snd]. now rewrite (series_get_all_missing _ t Hmom). }
  unfold rank_assets. rewrite Hloc. cbn [bind].
  apply Nat.ltb_ge in Hge. rewrite Hge, Hraw. reflexivity.
Qed.

Lemma unpriced_column_empties_allocation_witness :
  get_loc (trading_day 94) (index (unlisted_ticker_table 95)) = Ok 94%nat
  /\ (LOOKBACK_MOM <= 94)%nat
  /\ (forall r,
        In r (iloc (94 - LOOKBACK_MOM) (94 + 1)
                (values (unlisted_ticker_table 95))) ->
        nth_error r 1 = Some None)
  /\ rank_assets sqrt_down false (trading_day 94) (unlisted_ticker_table 95)
     = Ok []
  /\ rank_assets sqrt_down false (trading_day 94) (one_ticker_table 95)
     = Ok one_ticker_allocation.
Proof.
  assert (H1 : get_loc (trading_day 94) (index (unlisted_ticker_table 95))
               = Ok 94%nat) by (vm_compute; reflexivity).
  assert (H2 : (LOOKBACK_MOM <= 94)%nat) by (unfold LOOKBACK_MOM; lia).
  assert (H3 : forall r,
            In r (iloc (94 - LOOKBACK_MOM) (94 + 1)
                    (values (unlisted_ticker_table 95))) ->
            nth_error r 1 = Some None).
  { assert (Hall :
      forallb (fun r : list (option Q) =>
                 match nth_error r 1 with
                 | Some None => true
                 | _ => false
                 end)
        (iloc (94 - LOOKBACK_MOM) (94 + 1)
           (values (unlisted_ticker_table 95))) = true)
      by (vm_compute; reflexivity).
    rewrite forallb_forall in Hall. intros r Hr. specialize (Hall r Hr).
    destruct (nth_error r 1) as [[q|]|]; try discriminate Hall.
    reflexivity. }
  split; [exact H1|]. split; [exact H2|]. split; [exact H3|].
  split; [|vm_compute; reflexivity].
  exact (unpriced_column_empties_allocation sqrt_down false (trading_day 94)
           (unlisted_ticker_table 95) 94 1 H1 H2 H3).
Defined.
